(** * Service-request lifecycle of the agency back end

    A shallow embedding of the service-request part of the back end:
    the Mongoose schema of [models/ServiceRequest.js], the mail helpers of
    [utils/email.js], the handlers of [controllers/serviceRequestController.js]
    and the router of [routes/serviceRequestRoutes.js], followed by the
    properties of the lifecycle that the specification states.

    Conventions of the embedding.
    - A JavaScript value that may be [undefined] is an [option]; the test
      [if (x)] on it is [truthy].
    - A string is the UTF-8 encoding of the JavaScript string; [length],
      [trim] and the regular expressions of the schema work on its
      characters ([chars]), a character outside the basic plane counting for
      two in [length] as its two UTF-16 code units do.
    - A Mongo collection is a finite map from [_id] to document. An
      [ObjectId] is written as its 24 hexadecimal digits in lower case; the
      cast that the schema and the queries apply to a string is [castId].
    - The texts of the errors that Mongoose raises (cast and validation
      errors) are part of the environment; the embedding does not fix their
      wording.
    - Handlers run in a monad that reads an environment of outside answers
      (clock, random source, store availability, SMTP outcome), threads the
      world (collection, catalog, mails handed to the transport, console) and
      may throw; [try_catch] is the JavaScript [try]/[catch].
    - The [timestamps] option and the version key, which the Mongoose library
      maintains on its own, are outside the embedding. *)

From Stdlib Require Import Ascii String.
From stdpp Require Import gmap strings list pretty.

Open Scope string_scope.

(** ** JavaScript strings *)

Module Js.

Definition truthy (o : option string) : bool :=
  match o with
  | Some s => negb (String.eqb s EmptyString)
  | None => false
  end.

Definition isDigit (c : ascii) : bool :=
  let n := nat_of_ascii c in (48 <=? n)%nat && (n <=? 57)%nat.

Definition isHexDigit (c : ascii) : bool :=
  let n := nat_of_ascii c in
  isDigit c || ((97 <=? n)%nat && (n <=? 102)%nat)
  || ((65 <=? n)%nat && (n <=? 70)%nat).

(** A byte that continues a character begun by an earlier byte. *)
Definition isContinuation (c : ascii) : bool :=
  let n := nat_of_ascii c in (128 <=? n)%nat && (n <? 192)%nat.

Definition startsWithContinuation (ch : list ascii) : bool :=
  match ch with
  | c :: _ => isContinuation c
  | [] => false
  end.

(** The characters of a string: each byte that is no continuation byte,
    with the continuation bytes that follow it. *)
Fixpoint charsOf (l : list ascii) : list (list ascii) :=
  match l with
  | [] => []
  | c :: r =>
      match charsOf r with
      | ch :: chs =>
          if startsWithContinuation ch then (c :: ch) :: chs
          else [c] :: ch :: chs
      | [] => [[c]]
      end
  end.

Definition chars (s : string) : list (list ascii) :=
  charsOf (list_ascii_of_string s).

(** The UTF-16 code units a character takes: two when its encoding starts
    with a byte from 240 on (four bytes, outside the basic plane). *)
Definition units (ch : list ascii) : nat :=
  match ch with
  | c :: _ => if (240 <=? nat_of_ascii c)%nat then 2 else 1
  | [] => 0
  end.

(** [s.length] *)
Definition length (s : string) : nat :=
  foldr (fun ch n => (units ch + n)%nat) 0%nat (chars s).

(** The encodings of the characters that [\s] matches and [trim] removes:
    U+0009 to U+000D, U+0020, U+00A0, U+1680, U+2000 to U+200A, U+2028,
    U+2029, U+202F, U+205F, U+3000 and U+FEFF. *)
Definition whitespace : list (list nat) :=
  [ [9]; [10]; [11]; [12]; [13]; [32]; [194; 160]; [225; 154; 128];
    [226; 128; 128]; [226; 128; 129]; [226; 128; 130]; [226; 128; 131];
    [226; 128; 132]; [226; 128; 133]; [226; 128; 134]; [226; 128; 135];
    [226; 128; 136]; [226; 128; 137]; [226; 128; 138];
    [226; 128; 168]; [226; 128; 169]; [226; 128; 175]; [226; 129; 159];
    [227; 128; 128]; [239; 187; 191] ]%nat.

(** [\s] *)
Definition isSpace (ch : list ascii) : bool :=
  existsb (fun ws => bool_decide (map nat_of_ascii ch = ws)) whitespace.

Fixpoint dropSpaces (l : list (list ascii)) : list (list ascii) :=
  match l with
  | ch :: r => if isSpace ch then dropSpaces r else l
  | [] => []
  end.

(** [s.trim()] *)
Definition trim (s : string) : string :=
  string_of_list_ascii
    (concat (rev (dropSpaces (rev (dropSpaces (chars s)))))).

Definition upperChar (c : ascii) : ascii :=
  let n := nat_of_ascii c in
  if (97 <=? n)%nat && (n <=? 122)%nat then ascii_of_nat (n - 32) else c.

Definition toUpperCase (s : string) : string :=
  string_of_list_ascii (map upperChar (list_ascii_of_string s)).

Definition lowerChar (c : ascii) : ascii :=
  let n := nat_of_ascii c in
  if (65 <=? n)%nat && (n <=? 90)%nat then ascii_of_nat (n + 32) else c.

(** The letters A to Z in lower case; the other bytes stay. This is the
    folding under which the driver reads hexadecimal digits and the router
    compares the literals of a route path, which are ASCII: under the
    case-insensitive match of a regular expression without the [u] flag no
    other character matches an ASCII letter. *)
Definition lowerAscii (s : string) : string :=
  string_of_list_ascii (map lowerChar (list_ascii_of_string s)).

Definition substr (from len : nat) (s : string) : string :=
  String.substring from len s.

(** The replacement text of [replace]: [$$] stands for a dollar sign, [$&]
    for the match, [$`] for what precedes it and [$'] for what follows it;
    a string pattern has no groups, so every other [$] stands for itself. *)
Fixpoint substitution (matched before after : string) (repl : list ascii)
    : string :=
  match repl with
  | [] => EmptyString
  | c :: r =>
      if Ascii.eqb c "$" then
        match r with
        | c' :: r' =>
            if Ascii.eqb c' "$"
            then String "$" (substitution matched before after r')
            else if Ascii.eqb c' "&"
            then matched +:+ substitution matched before after r'
            else if Ascii.eqb c' "`"
            then before +:+ substitution matched before after r'
            else if Ascii.eqb c' "'"
            then after +:+ substitution matched before after r'
            else String c (substitution matched before after r)
        | [] => String c EmptyString
        end
      else String c (substitution matched before after r)
  end.

(** [s.replace(needle, repl)] with a string needle: the first occurrence;
    [before] is the part of the string already passed, in reverse. *)
Fixpoint replaceFrom (before : list ascii) (needle repl s : string) : string :=
  if String.prefix needle s
  then let after := String.substring (String.length needle)
                      (String.length s - String.length needle) s in
       substitution needle (string_of_list_ascii (rev before)) after
         (list_ascii_of_string repl)
       +:+ after
  else match s with
       | EmptyString => EmptyString
       | String c r => String c (replaceFrom (c :: before) needle repl r)
       end.

Definition replace (needle repl s : string) : string :=
  replaceFrom [] needle repl s.

(** [/^[6-9]\d{9}$/] *)
Definition matchPhone (s : string) : bool :=
  match list_ascii_of_string s with
  | c :: r =>
      ((54 <=? nat_of_ascii c)%nat && (nat_of_ascii c <=? 57)%nat)
      && (List.length r =? 9)%nat && forallb isDigit r
  | [] => false
  end.

Definition isChar (c : ascii) (ch : list ascii) : bool :=
  match ch with
  | [c'] => Ascii.eqb c' c
  | _ => false
  end.

(** [\S+\.\S+] anchored at the head of [l]; [seen] tells whether one [\S]
    has been consumed already. *)
Fixpoint matchDomain (seen : bool) (l : list (list ascii)) : bool :=
  match l with
  | [] => false
  | c :: r =>
      if isSpace c then false
      else (seen && isChar "." c &&
              match r with c' :: _ => negb (isSpace c') | [] => false end)
           || matchDomain true r
  end.

(** [/\S+@\S+\.\S+/], unanchored; [prev] is the character before [l]. *)
Fixpoint matchEmailFrom (prev : option (list ascii))
    (l : list (list ascii)) : bool :=
  match l with
  | [] => false
  | c :: r =>
      (isChar "@" c
       && match prev with Some p => negb (isSpace p) | None => false end
       && matchDomain false r)
      || matchEmailFrom (Some c) r
  end.

Definition matchEmail (s : string) : bool :=
  matchEmailFrom None (chars s).

(** [s.split(sep)] for a one-character separator. *)
Fixpoint split (sep : ascii) (s : string) : list string :=
  match s with
  | EmptyString => [EmptyString]
  | String c r =>
      if Ascii.eqb c sep then EmptyString :: split sep r
      else match split sep r with
           | w :: ws => String c w :: ws
           | [] => [String c EmptyString]
           end
  end.

(** The double-quote character, as a string. *)
Definition quote : string := String (ascii_of_nat 34) EmptyString.

End Js.

(** ** JSON values, as [res.json] sends them

    [JDate ms] stands for the ISO-8601 string that [JSON.stringify] writes
    for the [Date] of [ms] milliseconds. *)

#[warnings="-register-all"]
Inductive Json : Type :=
| JNull
| JBool (b : bool)
| JNum (z : Z)
| JStr (s : string)
| JDate (ms : Z)
| JArr (items : list Json)
| JObj (fields : list (string * Json)).

Module JsonUtil.

(** A field whose value is [undefined] is left out of the object. *)
Definition field (k : string) (v : option Json) : list (string * Json) :=
  match v with
  | Some j => [(k, j)]
  | None => []
  end.

Definition str (k : string) (v : option string) : list (string * Json) :=
  field k (JStr <$> v).

Definition num (k : string) (v : option Z) : list (string * Json) :=
  field k (JNum <$> v).

Definition date (k : string) (v : option Z) : list (string * Json) :=
  field k (JDate <$> v).

(** A nested object under [minimize]: left out when it has no field. *)
Definition nested (k : string) (fs : list (string * Json))
    : list (string * Json) :=
  match fs with
  | [] => []
  | _ => [(k, JObj fs)]
  end.

Fixpoint assoc (k : string) (l : list (string * Json)) : option Json :=
  match l with
  | [] => None
  | (k', v) :: r => if String.eqb k k' then Some v else assoc k r
  end.

Definition get (k : string) (j : Json) : option Json :=
  match j with
  | JObj fs => assoc k fs
  | _ => None
  end.


(** The value at the end of a path of keys. *)
Fixpoint at_ (path : list string) (j : Json) : option Json :=
  match path with
  | [] => Some j
  | k :: rest =>
      match get k j with
      | Some v => at_ rest v
      | None => None
      end
  end.

End JsonUtil.

(** ** The documents: [models/ServiceRequest.js] *)

Abbreviation ObjectId := string (only parsing).

Record SelectionPath := {
  selectedCategory : option ObjectId;
  selectedService : option ObjectId;
  selectedTemplate : option ObjectId;
  selectedCombo : option ObjectId
}.

Record ClientInfo := {
  fullName : option string;
  email : option string;
  phone : option string;
  businessName : option string;
  industry : option string
}.

(** The elements of the three document arrays are subdocuments: each has an
    [_id] of its own. A custom field of a request body may bring one. *)
Record CustomField := {
  fieldId : option ObjectId;
  fieldName : option string;
  fieldLabel : option string;
  fieldValue : option string;
  fieldType : option string
}.

Record Requirements := {
  businessDescription : option string;
  colorsPreferred : list string;
  colorsAvoid : list string;
  tone : option string;
  additionalNotes : option string;
  customFields : list CustomField
}.

Record Timeline := {
  estimatedDelivery : option Z;
  actualDelivery : option Z
}.

Record AdminNote := {
  noteId : ObjectId;
  note : option string;
  addedBy : option string;
  addedAt : Z
}.

Record Pricing := {
  quotedAmount : option Z;
  finalAmount : option Z;
  currency : string
}.

Record Deliverable := {
  deliverableId : ObjectId;
  fileName : option string;
  fileUrl : option string;
  publicId : option string;
  deliveredAt : Z
}.

Record ServiceRequest := {
  _id : ObjectId;
  requestId : string;
  selectionPath : SelectionPath;
  requestType : option string;
  clientInfo : ClientInfo;
  requirements : Requirements;
  status : string;
  priority : string;
  timeline : Timeline;
  adminNotes : list AdminNote;
  assignedTo : option string;
  pricing : Pricing;
  deliverables : list Deliverable
}.

(** An entry of one of the four catalog collections ([Category],
    [Service], [Template], [Combo]). [paths] holds its stored paths other
    than [_id], as JSON and in stored order; the lifecycle only ever selects
    among them. [virtuals] gives, for a selection, what the virtuals of the
    entry's own schema ([imageUrl], [formattedPrice], [deliveryTimeText],
    [fullUrl], [discountPercentage], [savings]) add to the entry when it is
    sent; they are computed by code outside the lifecycle and taken as
    given. *)
Record CatalogEntry := {
  paths : list (string * Json);
  virtuals : list string -> list (string * Json);
  isActive : bool
}.

Record Catalog := {
  categories : gmap ObjectId CatalogEntry;
  services : gmap ObjectId CatalogEntry;
  templates : gmap ObjectId CatalogEntry;
  combos : gmap ObjectId CatalogEntry
}.

Module Model.

Definition requestTypeEnum : list string := ["service"; "combo"].

Definition toneEnum : list string :=
  ["professional"; "casual"; "fun"; "elegant"; "modern"; "traditional"].

Definition statusEnum : list string :=
  ["submitted"; "reviewing"; "in-progress"; "revision"; "completed";
   "delivered"; "cancelled"].

Definition priorityEnum : list string := ["low"; "medium"; "high"; "urgent"].

(** [Array.prototype.includes] on a list of strings. *)
Definition includes (l : list string) (s : string) : bool :=
  existsb (String.eqb s) l.

(** *** The validators Mongoose attaches to a path *)

Definition isSome {A} (o : option A) : bool :=
  match o with Some _ => true | None => false end.

(** [required] refuses a missing value and the empty string. *)
Definition required (o : option string) : bool := Js.truthy o.

(** [maxlength] compares [v.length]. *)
Definition maxlength (n : nat) (o : option string) : bool :=
  match o with
  | Some s => (Js.length s <=? n)%nat
  | None => true
  end.

(** A string that casts to an [ObjectId]: 24 hexadecimal digits, in either
    case. (Some versions of the driver also take a string of 12 bytes; the
    properties that depend on a cast being refused leave such strings
    aside.) *)
Definition isObjectId (s : string) : bool :=
  (String.length s =? 24)%nat && forallb Js.isHexDigit (list_ascii_of_string s).

(** The [ObjectId] that a string of 24 hexadecimal digits casts to. *)
Definition objectId (s : string) : ObjectId := Js.lowerAscii s.

(** A path of type [ObjectId] holds nothing or a value that casts. *)
Definition castable (o : option string) : bool :=
  match o with
  | Some s => isObjectId s
  | None => true
  end.

(** The cast of a path of type [ObjectId]; a value that does not cast stays
    and fails the validation. *)
Definition castRef (o : option string) : option string :=
  match o with
  | Some s => if isObjectId s then Some (objectId s) else Some s
  | None => None
  end.

(** [enum] lets [undefined] through. *)
Definition enumOf (l : list string) (o : option string) : bool :=
  match o with
  | Some s => includes l s
  | None => true
  end.

(** [match] lets [undefined] and the empty string through. *)
Definition matches (re : string -> bool) (o : option string) : bool :=
  match o with
  | Some s => String.eqb s EmptyString || re s
  | None => true
  end.

Definition check (path : string) (ok : bool) : list string :=
  if ok then [] else [path].

(** The paths of a document that fail validation, in schema order. *)
Definition validate (d : ServiceRequest) : list string :=
  check "selectionPath.selectedCategory"
    (required (selectedCategory (selectionPath d))
     && castable (selectedCategory (selectionPath d)))
  ++ check "selectionPath.selectedService"
       (implb (bool_decide (requestType d = Some "service"))
              (required (selectedService (selectionPath d)))
        && castable (selectedService (selectionPath d)))
  ++ check "selectionPath.selectedTemplate"
       (castable (selectedTemplate (selectionPath d)))
  ++ check "selectionPath.selectedCombo"
       (implb (bool_decide (requestType d = Some "combo"))
              (required (selectedCombo (selectionPath d)))
        && castable (selectedCombo (selectionPath d)))
  ++ check "requestType"
       (required (requestType d) && enumOf requestTypeEnum (requestType d))
  ++ check "clientInfo.fullName"
       (required (fullName (clientInfo d))
        && maxlength 100 (fullName (clientInfo d)))
  ++ check "clientInfo.email"
       (required (email (clientInfo d))
        && matches Js.matchEmail (email (clientInfo d)))
  ++ check "clientInfo.phone"
       (required (phone (clientInfo d))
        && matches Js.matchPhone (phone (clientInfo d)))
  ++ check "requirements.businessDescription"
       (maxlength 1000 (businessDescription (requirements d)))
  ++ check "requirements.tone" (enumOf toneEnum (tone (requirements d)))
  ++ check "requirements.customFields"
       (forallb (fun f => castable (fieldId f)) (customFields (requirements d)))
  ++ check "requirements.additionalNotes"
       (maxlength 2000 (additionalNotes (requirements d)))
  ++ check "status" (includes statusEnum (status d))
  ++ check "priority" (includes priorityEnum (priority d)).

Definition isValid (d : ServiceRequest) : bool :=
  bool_decide (validate d = []).

(** *** Building a document: setters and defaults *)

Definition emptySelectionPath : SelectionPath :=
  {| selectedCategory := None; selectedService := None;
     selectedTemplate := None; selectedCombo := None |}.

Definition emptyClientInfo : ClientInfo :=
  {| fullName := None; email := None; phone := None;
     businessName := None; industry := None |}.

Definition emptyRequirements : Requirements :=
  {| businessDescription := None; colorsPreferred := []; colorsAvoid := [];
     tone := None; additionalNotes := None; customFields := [] |}.

(** The [trim: true] setters of [clientInfo]. *)
Definition castClientInfo (c : ClientInfo) : ClientInfo :=
  {| fullName := Js.trim <$> fullName c;
     email := email c;
     phone := phone c;
     businessName := Js.trim <$> businessName c;
     industry := Js.trim <$> industry c |}.

Definition castSelectionPath (p : SelectionPath) : SelectionPath :=
  {| selectedCategory := castRef (selectedCategory p);
     selectedService := castRef (selectedService p);
     selectedTemplate := castRef (selectedTemplate p);
     selectedCombo := castRef (selectedCombo p) |}.

(** A custom field becomes a subdocument: it keeps the [_id] it brings, or
    takes a new one; [fresh k] is the one made for the field at index [k]. *)
Definition castCustomField (fresh : nat -> ObjectId) (k : nat)
    (f : CustomField) : CustomField :=
  {| fieldId := match fieldId f with
                | Some i => castRef (Some i)
                | None => Some (fresh k)
                end;
     fieldName := fieldName f; fieldLabel := fieldLabel f;
     fieldValue := fieldValue f; fieldType := fieldType f |}.

Definition castRequirements (fresh : nat -> ObjectId) (r : Requirements)
    : Requirements :=
  {| businessDescription := businessDescription r;
     colorsPreferred := colorsPreferred r;
     colorsAvoid := colorsAvoid r;
     tone := tone r;
     additionalNotes := additionalNotes r;
     customFields := imap (castCustomField fresh) (customFields r) |}.

(** The default of [requestId]; [now] is [Date.now()] and [rnd] is
    [Math.random().toString(36)]. *)
Definition defaultRequestId (now : Z) (rnd : string) : string :=
  "REQ-" +:+ pretty now +:+ "-" +:+ Js.toUpperCase (Js.substr 2 4 rnd).

(** [new ServiceRequest({selectionPath, requestType, clientInfo,
    requirements})]: the four given paths, every other path at its default. *)
Definition newServiceRequest (oid : ObjectId) (fresh : nat -> ObjectId)
    (now : Z) (rnd : string)
    (sp : option SelectionPath) (rt : option string)
    (ci : option ClientInfo) (rq : option Requirements) : ServiceRequest :=
  {| _id := oid;
     requestId := defaultRequestId now rnd;
     selectionPath := castSelectionPath (default emptySelectionPath sp);
     requestType := rt;
     clientInfo := castClientInfo (default emptyClientInfo ci);
     requirements := castRequirements fresh (default emptyRequirements rq);
     status := "submitted";
     priority := "medium";
     timeline := {| estimatedDelivery := None; actualDelivery := None |};
     adminNotes := [];
     assignedTo := None;
     pricing := {| quotedAmount := None; finalAmount := None;
                   currency := "INR" |};
     deliverables := [] |}.

(** Functional updates of single paths. *)
Definition setStatus (s : string) (d : ServiceRequest) : ServiceRequest :=
  {| _id := _id d; requestId := requestId d;
     selectionPath := selectionPath d; requestType := requestType d;
     clientInfo := clientInfo d; requirements := requirements d;
     status := s; priority := priority d; timeline := timeline d;
     adminNotes := adminNotes d; assignedTo := assignedTo d;
     pricing := pricing d; deliverables := deliverables d |}.

Definition setPriority (p : string) (d : ServiceRequest) : ServiceRequest :=
  {| _id := _id d; requestId := requestId d;
     selectionPath := selectionPath d; requestType := requestType d;
     clientInfo := clientInfo d; requirements := requirements d;
     status := status d; priority := p; timeline := timeline d;
     adminNotes := adminNotes d; assignedTo := assignedTo d;
     pricing := pricing d; deliverables := deliverables d |}.

Definition setAssignedTo (a : string) (d : ServiceRequest) : ServiceRequest :=
  {| _id := _id d; requestId := requestId d;
     selectionPath := selectionPath d; requestType := requestType d;
     clientInfo := clientInfo d; requirements := requirements d;
     status := status d; priority := priority d; timeline := timeline d;
     adminNotes := adminNotes d; assignedTo := Some a;
     pricing := pricing d; deliverables := deliverables d |}.

(** [this.adminNotes.push({note, addedBy})]; the new subdocument takes an
    [_id], and [addedAt] its default, [Date.now]. *)
Definition pushAdminNote (n : option string) (by_ : option string) (now : Z)
    (oid : ObjectId) (d : ServiceRequest) : ServiceRequest :=
  {| _id := _id d; requestId := requestId d;
     selectionPath := selectionPath d; requestType := requestType d;
     clientInfo := clientInfo d; requirements := requirements d;
     status := status d; priority := priority d; timeline := timeline d;
     adminNotes := adminNotes d ++ [{| noteId := oid; note := n;
                                       addedBy := by_; addedAt := now |}];
     assignedTo := assignedTo d;
     pricing := pricing d; deliverables := deliverables d |}.

End Model.

(** ** The world a handler runs in *)

Module Mail.

(** The options handed to [transporter.sendMail]. *)
Record Options := {
  from : string;
  to : option string;
  subject : option string;
  html : option string
}.

(** What the transport answers: a message id, or a thrown error. *)
Inductive SendResult :=
| Sent (messageId : string)
| Refused (reason : string).

(** The object the mail helpers return. *)
Record Result := {
  success : bool;
  messageId : option string;
  error : option string
}.

End Mail.

Record User := {
  isVerified : bool
}.

Record World := {
  requests : gmap ObjectId ServiceRequest;
  catalog : Catalog;
  users : gmap ObjectId User;
  outbox : list Mail.Options;
  console : list string
}.

Inductive StoreOp :=
  OpFind | OpSave | OpUpdate | OpCount | OpPopulate | OpFindUser.

(** The answers of the outside world during one call. [storeUp op = false]
    stands for any rejection of the operation by the driver.
    [freshObjectId] is the [_id] made for a new document, [freshNoteId] the
    one made for an admin note that is pushed, [freshFieldId k] the one made
    for the custom field at index [k]. [castMessage m v] is the message of the
    error that Mongoose raises when the [_id] [v] of a query on the model
    [m] does not cast,
    [validationMessage d] the message of the error it raises when the
    document [d] fails validation, [updateValidationMessage ps] the one of
    the update validators for the failing paths [ps], [readOfUndefined p]
    the message of the [TypeError] that the engine raises when the property
    [p] of [undefined] is read, [duplicateKeyMessage d] the message of the
    error of the driver when the insert of [d] meets a unique index.
    [jwtVerify] answers [None] when [jwt.verify] throws, with the message
    [jwtMessage] gives for the token, and else the [id] of the payload, if
    it has one. *)
Record Env := {
  dateNow : Z;
  mathRandom : string;
  freshObjectId : ObjectId;
  freshNoteId : ObjectId;
  freshFieldId : nat -> ObjectId;
  storeUp : StoreOp -> bool;
  smtp : Mail.Options -> Mail.SendResult;
  EMAIL_USER : string;
  castMessage : string -> string -> string;
  validationMessage : ServiceRequest -> string;
  updateValidationMessage : list string -> string;
  readOfUndefined : string -> string;
  duplicateKeyMessage : ServiceRequest -> string;
  jwtVerify : string -> option (option string);
  jwtMessage : string -> string
}.

Inductive Outcome (A : Type) :=
| Ok (a : A)
| Throw (reason : string).
Arguments Ok {A} a.
Arguments Throw {A} reason.

Definition M (A : Type) : Type := Env -> World -> Outcome A * World.

Module Run.

Definition ret {A} (a : A) : M A := fun _ w => (Ok a, w).

Definition bind {A B} (c : M A) (k : A -> M B) : M B :=
  fun e w =>
    match c e w with
    | (Ok a, w') => k a e w'
    | (Throw r, w') => (Throw r, w')
    end.

Definition throw {A} (r : string) : M A := fun _ w => (Throw r, w).

(** [try { c } catch (error) { h error.message }] *)
Definition try_catch {A} (c : M A) (h : string -> M A) : M A :=
  fun e w =>
    match c e w with
    | (Ok a, w') => (Ok a, w')
    | (Throw r, w') => h r e w'
    end.

Definition ask : M Env := fun e w => (Ok e, w).
Definition get : M World := fun _ w => (Ok w, w).

Definition setRequests (m : gmap ObjectId ServiceRequest) : M unit :=
  fun _ w =>
    (Ok tt, {| requests := m; catalog := catalog w; users := users w;
               outbox := outbox w; console := console w |}).

Definition deliver (o : Mail.Options) : M unit :=
  fun _ w =>
    (Ok tt, {| requests := requests w; catalog := catalog w;
               users := users w; outbox := outbox w ++ [o];
               console := console w |}).

(** [console.log] and [console.error] both end up here. *)
Definition log (line : string) : M unit :=
  fun _ w =>
    (Ok tt, {| requests := requests w; catalog := catalog w;
               users := users w; outbox := outbox w;
               console := console w ++ [line] |}).

End Run.

#[global] Instance M_ret : MRet M := @Run.ret.
#[global] Instance M_bind : MBind M := fun A B k c => Run.bind c k.

(** ** The Mongoose calls the handlers make *)

Module Mongoose.

Definition driver (op : StoreOp) : M unit :=
  e ← Run.ask;
  if storeUp e op then mret tt else Run.throw "MongoError".

(** [doc.validate()] of [save]: a document with a failing path makes the
    save throw Mongoose's validation error. *)
Definition validated (d : ServiceRequest) : M unit :=
  match Model.validate d with
  | [] => mret tt
  | _ => e ← Run.ask; Run.throw (validationMessage e d)
  end.

Definition requestIdTaken (r : string)
    (m : gmap ObjectId ServiceRequest) : bool :=
  bool_decide (Exists (fun d => requestId d = r) (map_to_list m).*2).

(** [doc.save()] on a document made by [new]: validation, then the insert
    under the unique indexes on [_id] and [requestId]. *)
Definition saveNew (d : ServiceRequest) : M unit :=
  validated d;;
  driver OpSave;;
  w ← Run.get;
  if Model.isSome (requests w !! _id d) || requestIdTaken (requestId d) (requests w)
  then e ← Run.ask; Run.throw (duplicateKeyMessage e d)
  else Run.setRequests (<[_id d := d]> (requests w)).

(** [doc.save()] on a document that was read from the collection. *)
Definition save (d : ServiceRequest) : M unit :=
  validated d;;
  driver OpSave;;
  w ← Run.get;
  Run.setRequests (<[_id d := d]> (requests w)).

(** The cast of the [id] of a query on the model [model]: 24 hexadecimal
    digits become the [ObjectId] they spell, whatever their case; another
    string makes the query throw Mongoose's cast error; and [undefined]
    becomes [null]. *)
Definition castIdOf (model : string) (id : option string)
    : M (option ObjectId) :=
  match id with
  | Some i =>
      if Model.isObjectId i then mret (Some (Model.objectId i))
      else e ← Run.ask; Run.throw (castMessage e model i)
  | None => mret None
  end.

Definition castId : option string -> M (option ObjectId) :=
  castIdOf "ServiceRequest".

(** [User.findById(id)] *)
Definition findUserById (id : option string) : M (option User) :=
  id ← castIdOf "User" id;
  driver OpFindUser;;
  w ← Run.get;
  mret (match id with Some i => users w !! i | None => None end).

(** [Model.findById(id)]; an [undefined] id finds nothing. *)
Definition findById (id : option string) : M (option ServiceRequest) :=
  id ← castId id;
  driver OpFind;;
  w ← Run.get;
  mret (match id with Some i => requests w !! i | None => None end).

(** [Model.findOne({ requestId })]: the first document whose [requestId] is
    the given one. The router always binds the parameter; without one the
    embedding finds nothing. *)
Definition findOneByRequestId (r : option string)
    : M (option ServiceRequest) :=
  driver OpFind;;
  w ← Run.get;
  mret (head (filter (fun d => Some (requestId d) = r)
                     (map_to_list (requests w)).*2)).

(** [Model.findByIdAndUpdate(id, update, { new: true })]: the update is a
    function on the document; the updated document is returned. [failing]
    lists the paths of the update that its validators refuse, and is empty
    when the call does not ask for [runValidators]. *)
Definition findByIdAndUpdate (id : option string)
    (update : ServiceRequest -> ServiceRequest) (failing : list string)
    : M (option ServiceRequest) :=
  match failing with
  | [] =>
      id ← castId id;
      driver OpUpdate;;
      w ← Run.get;
      match (match id with Some i => requests w !! i | None => None end) with
      | Some d =>
          Run.setRequests (<[_id d := update d]> (requests w));;
          mret (Some (update d))
      | None => mret None
      end
  | paths => e ← Run.ask; Run.throw (updateValidationMessage e paths)
  end.

(** [Model.countDocuments(filter)] *)
Definition countDocuments (p : ServiceRequest -> bool) : M nat :=
  driver OpCount;;
  w ← Run.get;
  mret (length (filter (fun d => p d = true) (map_to_list (requests w)).*2)).

(** The stored paths of an entry that a selection keeps. *)
Definition selected (select : list string) (c : CatalogEntry)
    : list (string * Json) :=
  List.filter (fun kv => Model.includes select kv.1) (paths c).

(** The value a populated path takes when it is sent: the [_id] of the
    referenced entry, its selected paths, the virtuals of its schema and,
    last of them, the [id] virtual; or [null] when the reference resolves to
    nothing. *)
Definition populated (coll : gmap ObjectId CatalogEntry)
    (select : list string) (ref : ObjectId) : Json :=
  match coll !! ref with
  | Some c =>
      JObj ([("_id", JStr ref)]
            ++ selected select c
            ++ virtuals c select
            ++ [("id", JStr ref)])
  | None => JNull
  end.

End Mongoose.

(** ** The mail helpers: [utils/email.js] *)

Module Email.

(** [`${x}`] of a value that may be [undefined]. *)
Definition show (o : option string) : string := default "undefined" o.

(** What [templates[status] || fallback] gives; its two properties are
    [undefined] when the value found is no template. *)
Record Template := {
  subject : option string;
  html : option string
}.

Definition template (subject html : string) : Template :=
  {| subject := Some subject; html := Some html |}.

(** The properties that the object literal [templates] inherits from
    [Object.prototype]: indexing it with one of these names finds a function
    (or, for [__proto__], the prototype itself), which is truthy and has no
    [subject] and no [html]. *)
Definition inherited : list string :=
  ["constructor"; "__defineGetter__"; "__defineSetter__"; "hasOwnProperty";
   "__lookupGetter__"; "__lookupSetter__"; "isPrototypeOf";
   "propertyIsEnumerable"; "toString"; "valueOf"; "__proto__";
   "toLocaleString"].

(** The bodies keep the text of the original pages; their styling markup is
    left out. The sign-off line is verbatim. *)
Definition page (heading : string) (clientName : option string)
    (sentence : string) (requestId : string) (label : string) : string :=
  "<div><h2>" +:+ heading +:+ "</h2><p>Dear " +:+ show clientName
  +:+ ",</p><p>" +:+ sentence +:+ "</p><div><p><strong>Request ID:</strong> "
  +:+ requestId +:+ "</p><p><strong>Status:</strong> " +:+ label
  +:+ "</p></div><p>Best regards,<br>SEOcial media solution Team</p></div>".

Definition getEmailTemplate (status : string) (clientName : option string)
    (requestId : string) : Template :=
  let req := "Your service request <strong>" +:+ requestId +:+ "</strong> " in
  if String.eqb status "reviewing" then
    template ("Service Request " +:+ requestId +:+ " - Under Review")
      (page "Request Under Review" clientName
         (req +:+ "is now under review by our team.")
         requestId "Under Review")
  else if String.eqb status "in-progress" then
    template ("Service Request " +:+ requestId +:+ " - Work Started")
      (page "Work Started on Your Request" clientName
         ("Great news! We have started working on your service request <strong>"
          +:+ requestId +:+ "</strong>.")
         requestId "In Progress")
  else if String.eqb status "revision" then
    template ("Service Request " +:+ requestId +:+ " - Revision Required")
      (page "Revision Required" clientName
         (req +:+ "requires some revisions.")
         requestId "Under Revision")
  else if String.eqb status "completed" then
    template ("Service Request " +:+ requestId +:+ " - Completed")
      (page "Your Request is Complete!" clientName
         (req +:+ "has been completed.")
         requestId "Completed")
  else if String.eqb status "delivered" then
    template ("Service Request " +:+ requestId +:+ " - Delivered")
      (page "Deliverables Sent!" clientName
         (req +:+ "has been delivered successfully.")
         requestId "Delivered")
  else if String.eqb status "cancelled" then
    template ("Service Request " +:+ requestId +:+ " - Cancelled")
      (page "Request Cancelled" clientName
         (req +:+ "has been cancelled.")
         requestId "Cancelled")
  else if Model.includes inherited status then
    {| subject := None; html := None |}
  else
    template ("Service Request " +:+ requestId +:+ " - Status Updated")
      (page "Status Update" clientName
         (req +:+ "status has been updated.")
         requestId status).

(** [transporter.sendMail(mailOptions)]: the message is handed to the
    transport, which answers or throws. *)
Definition sendMail (o : Mail.Options) : M string :=
  Run.deliver o;;
  e ← Run.ask;
  match smtp e o with
  | Mail.Sent mid => mret mid
  | Mail.Refused r => Run.throw r
  end.

Definition failed (reason : string) : Mail.Result :=
  {| Mail.success := false; Mail.messageId := None;
     Mail.error := Some reason |}.

Definition sent (mid : string) : Mail.Result :=
  {| Mail.success := true; Mail.messageId := Some mid;
     Mail.error := None |}.

(** [sendStatusUpdateEmail(clientEmail, clientName, requestId, status,
    adminNote)], where the fifth argument defaults to the empty string *)
Definition sendStatusUpdateEmail (clientEmail clientName : option string)
    (requestId status : string) (adminNote : option string)
    : M Mail.Result :=
  Run.try_catch
    (let template := getEmailTemplate status clientName requestId in
     emailContent ←
       (if Js.truthy adminNote then
          let noteSection :=
            "<div><h4>Additional Note:</h4><p>" +:+ show adminNote
            +:+ "</p></div>" in
          match html template with
          | Some content =>
              mret (Some (Js.replace "<p>Best regards,<br>Your Service Team</p>"
                            (noteSection
                             +:+ "<p>Best regards,<br>SEOcial Media Solution Team</p>")
                            content))
          | None =>
              e ← Run.ask; Run.throw (readOfUndefined e "replace")
          end
        else mret (html template));
     e ← Run.ask;
     let mailOptions :=
       {| Mail.from := Js.quote +:+ "SEOcial Media Solution Team" +:+ Js.quote
                       +:+ " <" +:+ EMAIL_USER e +:+ ">";
          Mail.to := clientEmail;
          Mail.subject := subject template;
          Mail.html := emailContent |} in
     result ← sendMail mailOptions;
     Run.log ("Status update email sent successfully: " +:+ result);;
     mret (sent result))
    (fun error =>
       Run.log ("Error sending status update email: " +:+ error);;
       mret (failed error)).

(** [sendCustomAdminEmail(clientName, clientEmail, subject, message,
    adminName = "Admin")] *)
Definition sendCustomAdminEmail (clientName clientEmail : option string)
    (subject message : option string) : M Mail.Result :=
  Run.try_catch
    (let adminName := "Admin" in
     let html :=
       "<div><h2>A Message from " +:+ adminName +:+ "</h2><p>Dear <strong>"
       +:+ show clientName +:+ "</strong>,</p><p>" +:+ show message
       +:+ "</p><p>Best regards,<br><span>" +:+ adminName
       +:+ "</span><br><span>SEOcial Media Solution Team</span></p></div>" in
     e ← Run.ask;
     let mailOptions :=
       {| Mail.from := Js.quote +:+ adminName
                       +:+ " (SEOcial Media Solution Team)" +:+ Js.quote
                       +:+ " <" +:+ EMAIL_USER e +:+ ">";
          Mail.to := clientEmail;
          Mail.subject := subject;
          Mail.html := Some html |} in
     result ← sendMail mailOptions;
     Run.log ("Custom admin email sent successfully: " +:+ result);;
     mret (sent result))
    (fun error =>
       Run.log ("Error sending custom admin email: " +:+ error);;
       mret (failed error)).

End Email.

(** ** Requests and responses *)

Module Body.

(** [req.body], with the fields the handlers destructure. *)
Record t := {
  selectionPath : option SelectionPath;
  requestType : option string;
  clientInfo : option ClientInfo;
  requirements : option Requirements;
  status : option string;
  adminNote : option string;
  priority : option string;
  note : option string;
  addedBy : option string;
  assignedTo : option string;
  clientName : option string;
  clientEmail : option string;
  subject : option string;
  message : option string
}.

Definition empty : t :=
  {| selectionPath := None; requestType := None; clientInfo := None;
     requirements := None; status := None; adminNote := None;
     priority := None; note := None; addedBy := None; assignedTo := None;
     clientName := None; clientEmail := None; subject := None;
     message := None |}.

End Body.

Inductive Method := GET | POST | PUT | DELETE.

Module Req.

(** [path] holds the pieces of the request path between its slashes, as
    they are written in the URL; a final empty piece, which a trailing slash
    leaves, is not listed, so that [/] has none. *)
Record t := {
  method : Method;
  path : list string;
  params : list (string * string);
  authorization : option string;
  body : Body.t;
  user : option User
}.

Definition withParams (ps : list (string * string)) (r : t) : t :=
  {| method := method r; path := path r; params := ps;
     authorization := authorization r; body := body r; user := user r |}.

Definition withUser (u : User) (r : t) : t :=
  {| method := method r; path := path r; params := params r;
     authorization := authorization r; body := body r; user := Some u |}.

(** [req.params.name] *)
Fixpoint lookupParam (k : string) (l : list (string * string))
    : option string :=
  match l with
  | [] => None
  | (k', v) :: r => if String.eqb k k' then Some v else lookupParam k r
  end.

Definition param (k : string) (r : t) : option string :=
  lookupParam k (params r).

End Req.

Module Res.

(** [res.status(statusCode).json({ success, message, data, error })] *)
Record t := {
  statusCode : nat;
  success : bool;
  message : option string;
  data : option Json;
  error : option string
}.

Definition fail (code : nat) (msg : string) : t :=
  {| statusCode := code; success := false; message := Some msg;
     data := None; error := None |}.

Definition failWith (code : nat) (msg : string) (err : string) : t :=
  {| statusCode := code; success := false; message := Some msg;
     data := None; error := Some err |}.

Definition ok (code : nat) (msg : string) (d : Json) : t :=
  {| statusCode := code; success := true; message := Some msg;
     data := Some d; error := None |}.

Definition okData (code : nat) (d : Json) : t :=
  {| statusCode := code; success := true; message := None;
     data := Some d; error := None |}.

End Res.

(** ** Documents as JSON *)

Module View.

(** How a document is shaped before it is sent: the [select] list of each
    populated path, and whether [.select("-adminNotes")] was applied. *)
Record Shape := {
  category : option (list string);
  service : option (list string);
  template : option (list string);
  combo : option (list string);
  hideAdminNotes : bool
}.

Definition plain : Shape :=
  {| category := None; service := None; template := None; combo := None;
     hideAdminNotes := false |}.

Definition all (select : list string) (hide : bool) : Shape :=
  {| category := Some select; service := Some select;
     template := Some select; combo := Some select;
     hideAdminNotes := hide |}.

Definition ref (coll : gmap ObjectId CatalogEntry)
    (sh : option (list string)) (k : string) (r : option ObjectId)
    : list (string * Json) :=
  match r with
  | Some i =>
      [(k, match sh with
           | Some select => Mongoose.populated coll select i
           | None => JStr i
           end)]
  | None => []
  end.

(** The value found under the key of a reference. *)
Definition assocRef (coll : gmap ObjectId CatalogEntry)
    (sh : option (list string)) (r : option ObjectId) : option Json :=
  match r with
  | Some i =>
      Some (match sh with
            | Some select => Mongoose.populated coll select i
            | None => JStr i
            end)
  | None => None
  end.

Definition ofSelectionPath (c : Catalog) (sh : Shape) (p : SelectionPath)
    : list (string * Json) :=
  ref (categories c) (category sh) "selectedCategory" (selectedCategory p)
  ++ ref (services c) (service sh) "selectedService" (selectedService p)
  ++ ref (templates c) (template sh) "selectedTemplate" (selectedTemplate p)
  ++ ref (combos c) (combo sh) "selectedCombo" (selectedCombo p).

Definition ofClientInfo (c : ClientInfo) : list (string * Json) :=
  JsonUtil.str "fullName" (fullName c)
  ++ JsonUtil.str "email" (email c)
  ++ JsonUtil.str "phone" (phone c)
  ++ JsonUtil.str "businessName" (businessName c)
  ++ JsonUtil.str "industry" (industry c).

(** A subdocument of an array is sent with its [_id] and, as the schema asks
    for virtuals, with the [id] virtual. *)
Definition ofCustomField (f : CustomField) : Json :=
  JObj (JsonUtil.str "fieldName" (fieldName f)
        ++ JsonUtil.str "fieldLabel" (fieldLabel f)
        ++ JsonUtil.str "fieldValue" (fieldValue f)
        ++ JsonUtil.str "fieldType" (fieldType f)
        ++ JsonUtil.str "_id" (fieldId f)
        ++ JsonUtil.str "id" (fieldId f)).

Definition ofRequirements (r : Requirements) : list (string * Json) :=
  JsonUtil.str "businessDescription" (businessDescription r)
  ++ [("colors",
       JObj [("preferred", JArr (JStr <$> colorsPreferred r));
             ("avoid", JArr (JStr <$> colorsAvoid r))])]
  ++ JsonUtil.str "tone" (tone r)
  ++ JsonUtil.str "additionalNotes" (additionalNotes r)
  ++ [("customFields", JArr (ofCustomField <$> customFields r))].

Definition ofTimeline (t : Timeline) : list (string * Json) :=
  JsonUtil.date "estimatedDelivery" (estimatedDelivery t)
  ++ JsonUtil.date "actualDelivery" (actualDelivery t).

Definition ofAdminNote (n : AdminNote) : Json :=
  JObj (JsonUtil.str "note" (note n)
        ++ JsonUtil.str "addedBy" (addedBy n)
        ++ [("addedAt", JDate (addedAt n));
            ("_id", JStr (noteId n));
            ("id", JStr (noteId n))]).

Definition ofPricing (p : Pricing) : list (string * Json) :=
  JsonUtil.num "quotedAmount" (quotedAmount p)
  ++ JsonUtil.num "finalAmount" (finalAmount p)
  ++ [("currency", JStr (currency p))].

Definition ofDeliverable (d : Deliverable) : Json :=
  JObj (JsonUtil.str "fileName" (fileName d)
        ++ JsonUtil.str "fileUrl" (fileUrl d)
        ++ JsonUtil.str "publicId" (publicId d)
        ++ [("deliveredAt", JDate (deliveredAt d));
            ("_id", JStr (deliverableId d));
            ("id", JStr (deliverableId d))]).

(** [toJSON] of a document with the schema's options ([virtuals], and
    [minimize] by default): the paths in schema order, a nested object left
    out when it has no field, and the [id] virtual last. The keys that the
    [timestamps] option and the version key add ([createdAt], [updatedAt],
    [__v]) are not listed. *)
Definition toJSON (c : Catalog) (sh : Shape) (d : ServiceRequest) : Json :=
  JObj ([("_id", JStr (_id d));
         ("requestId", JStr (requestId d))]
        ++ JsonUtil.nested "selectionPath"
             (ofSelectionPath c sh (selectionPath d))
        ++ JsonUtil.str "requestType" (requestType d)
        ++ JsonUtil.nested "clientInfo" (ofClientInfo (clientInfo d))
        ++ JsonUtil.nested "requirements" (ofRequirements (requirements d))
        ++ [("status", JStr (status d));
            ("priority", JStr (priority d))]
        ++ JsonUtil.nested "timeline" (ofTimeline (timeline d))
        ++ (if hideAdminNotes sh then []
            else [("adminNotes", JArr (ofAdminNote <$> adminNotes d))])
        ++ JsonUtil.str "assignedTo" (assignedTo d)
        ++ JsonUtil.nested "pricing" (ofPricing (pricing d))
        ++ [("deliverables", JArr (ofDeliverable <$> deliverables d));
            ("id", JStr (_id d))]).

(** [populate] asks the catalog collections, then the document is sent in
    the given shape. *)
Definition populate (sh : Shape) (d : ServiceRequest) : M Json :=
  Mongoose.driver OpPopulate;;
  w ← Run.get;
  mret (toJSON (catalog w) sh d).

(** A document sent as it is. *)
Definition send (d : ServiceRequest) : M Json :=
  w ← Run.get;
  mret (toJSON (catalog w) plain d).

Definition ofMailResult (r : Mail.Result) : Json :=
  JObj ([("success", JBool (Mail.success r))]
        ++ JsonUtil.str "messageId" (Mail.messageId r)
        ++ JsonUtil.str "error" (Mail.error r)).

End View.

(** ** The schema's instance method *)

Module Methods.

(** [serviceRequestSchema.methods.updateStatus]: the document [this] is
    changed in memory and saved; the changed document is what the caller
    holds afterwards. *)
Definition updateStatus (this : ServiceRequest) (newStatus : string)
    (adminNote : option string) : M ServiceRequest :=
  e ← Run.ask;
  let this := Model.setStatus newStatus this in
  let this :=
    if Js.truthy adminNote
    then Model.pushAdminNote adminNote (Some "Admin") (dateNow e)
           (freshNoteId e) this
    else this in
  Mongoose.save this;;
  mret this.

End Methods.

(** ** The handlers: [controllers/serviceRequestController.js] *)

Module Controller.

(** [obj.prop] where [obj] may be [undefined]. *)
Definition member {A} (o : option A) : M A :=
  match o with
  | Some a => mret a
  | None => Run.throw "Cannot read properties of undefined"
  end.

Definition validStatuses : list string :=
  ["submitted"; "reviewing"; "in-progress"; "revision"; "completed";
   "delivered"; "cancelled"].

Definition validPriorities : list string :=
  ["low"; "medium"; "high"; "urgent"].

Section Handlers.

(** The status mail helper the controller imports. *)
Variable sendStatusUpdateEmail :
  option string -> option string -> string -> string -> option string ->
  M Mail.Result.

(** The two checks at the head of [createRequest]; [Some] is the early
    return. *)
Definition checkSelection (selectionPath : option SelectionPath)
    (requestType : option string) : M (option Res.t) :=
  if bool_decide (requestType = Some "service") then
    sp ← member selectionPath;
    if negb (Js.truthy (selectedCategory sp))
       || negb (Js.truthy (selectedService sp))
    then mret (Some (Res.fail 400
           "Category and Service selection is required for service requests"))
    else mret None
  else if bool_decide (requestType = Some "combo") then
    sp ← member selectionPath;
    if negb (Js.truthy (selectedCombo sp))
    then mret (Some (Res.fail 400
           "Combo selection is required for combo requests"))
    else mret None
  else mret None.

Definition createRequest (req : Req.t) : M Res.t :=
  Run.try_catch
    (let selectionPath := Body.selectionPath (Req.body req) in
     let requestType := Body.requestType (Req.body req) in
     let clientInfo := Body.clientInfo (Req.body req) in
     let requirements := Body.requirements (Req.body req) in
     early ← checkSelection selectionPath requestType;
     match early with
     | Some res => mret res
     | None =>
         e ← Run.ask;
         let newRequest :=
           Model.newServiceRequest (freshObjectId e) (freshFieldId e)
             (dateNow e) (mathRandom e) selectionPath requestType clientInfo
             requirements in
         Mongoose.saveNew newRequest;;
         sent ← View.populate (View.all ["title"; "slug"] false) newRequest;
         mret (Res.ok 201 "Service request submitted successfully" sent)
     end)
    (fun error =>
       Run.log ("Create Request Error: " +:+ error);;
       mret (Res.failWith 500 "Failed to submit service request" error)).

Definition getRequestById (req : Req.t) : M Res.t :=
  Run.try_catch
    (let id := Req.param "id" req in
     request ← Mongoose.findById id;
     match request with
     | None => mret (Res.fail 404 "Service request not found")
     | Some request =>
         sent ← View.populate
                  {| View.category := Some ["title"; "slug"; "description"];
                     View.service :=
                       Some ["title"; "slug"; "description"; "pricing"];
                     View.template :=
                       Some ["title"; "slug"; "description"; "images"];
                     View.combo :=
                       Some ["title"; "slug"; "description"; "pricing"];
                     View.hideAdminNotes := false |} request;
         mret (Res.okData 200 sent)
     end)
    (fun error =>
       Run.log ("Get Request By ID Error: " +:+ error);;
       mret (Res.failWith 500 "Failed to fetch service request" error)).

Definition getRequestByRequestId (req : Req.t) : M Res.t :=
  Run.try_catch
    (let requestId := Req.param "requestId" req in
     request ← Mongoose.findOneByRequestId requestId;
     match request with
     | None => mret (Res.fail 404 "Service request not found")
     | Some request =>
         sent ← View.populate (View.all ["title"] true) request;
         mret (Res.okData 200 sent)
     end)
    (fun error =>
       Run.log ("Get Request By Request ID Error: " +:+ error);;
       mret (Res.failWith 500 "Failed to fetch service request" error)).

(** The mail step of [updateRequestStatus], with its own [try]/[catch]. *)
Definition notifyStatus (request : ServiceRequest) (status : string)
    (adminNote : option string) : M unit :=
  Run.try_catch
    (emailResult ← sendStatusUpdateEmail (email (clientInfo request))
                     (fullName (clientInfo request)) (requestId request)
                     status adminNote;
     if Mail.success emailResult
     then Run.log ("Status update email sent to "
                   +:+ Email.show (email (clientInfo request)))
     else Run.log ("Failed to send status update email: "
                   +:+ Email.show (Mail.error emailResult)))
    (fun emailError => Run.log ("Email sending error: " +:+ emailError)).

Definition updateRequestStatus (req : Req.t) : M Res.t :=
  Run.try_catch
    (let id := Req.param "id" req in
     let adminNote := Body.adminNote (Req.body req) in
     match Body.status (Req.body req) with
     | None => mret (Res.fail 400 "Invalid status provided")
     | Some newStatus =>
         if negb (Model.includes validStatuses newStatus)
         then mret (Res.fail 400 "Invalid status provided")
         else
           request ← Mongoose.findById id;
           match request with
           | None => mret (Res.fail 404 "Service request not found")
           | Some request =>
               let oldStatus := status request in
               request ← Methods.updateStatus request newStatus adminNote;
               (if negb (String.eqb oldStatus newStatus)
                then notifyStatus request newStatus adminNote
                else mret tt);;
               sent ← View.send request;
               mret (Res.ok 200 "Request status updated successfully" sent)
           end
     end)
    (fun error =>
       Run.log ("Update Request Status Error: " +:+ error);;
       mret (Res.failWith 500 "Failed to update request status" error)).

Definition updateRequestPriority (req : Req.t) : M Res.t :=
  Run.try_catch
    (let id := Req.param "id" req in
     match Body.priority (Req.body req) with
     | None => mret (Res.fail 400 "Invalid priority provided")
     | Some newPriority =>
         if negb (Model.includes validPriorities newPriority)
         then mret (Res.fail 400 "Invalid priority provided")
         else
           request ← Mongoose.findByIdAndUpdate id
                       (Model.setPriority newPriority)
                       (Model.check "priority"
                          (Model.includes Model.priorityEnum newPriority));
           match request with
           | None => mret (Res.fail 404 "Service request not found")
           | Some request =>
               sent ← View.send request;
               mret (Res.ok 200 "Request priority updated successfully" sent)
           end
     end)
    (fun error =>
       Run.log ("Update Request Priority Error: " +:+ error);;
       mret (Res.failWith 500 "Failed to update request priority" error)).

Definition addAdminNote (req : Req.t) : M Res.t :=
  Run.try_catch
    (let id := Req.param "id" req in
     let newNote := Body.note (Req.body req) in
     let by_ := default "Admin" (Body.addedBy (Req.body req)) in
     if negb (Js.truthy newNote)
     then mret (Res.fail 400 "Note is required")
     else
       request ← Mongoose.findById id;
       match request with
       | None => mret (Res.fail 404 "Service request not found")
       | Some request =>
           e ← Run.ask;
           let request :=
             Model.pushAdminNote newNote (Some by_) (dateNow e)
               (freshNoteId e) request in
           Mongoose.save request;;
           sent ← View.send request;
           mret (Res.ok 200 "Admin note added successfully" sent)
       end)
    (fun error =>
       Run.log ("Add Admin Note Error: " +:+ error);;
       mret (Res.failWith 500 "Failed to add admin note" error)).

Definition assignRequest (req : Req.t) : M Res.t :=
  Run.try_catch
    (let id := Req.param "id" req in
     match Body.assignedTo (Req.body req) with
     | None => mret (Res.fail 400 "Assignee name is required")
     | Some assignee =>
         if negb (Js.truthy (Some assignee))
         then mret (Res.fail 400 "Assignee name is required")
         else
           request ← Mongoose.findByIdAndUpdate id
                       (Model.setAssignedTo assignee) [];
           match request with
           | None => mret (Res.fail 404 "Service request not found")
           | Some request =>
               sent ← View.send request;
               mret (Res.ok 200 "Request assigned successfully" sent)
           end
     end)
    (fun error =>
       Run.log ("Assign Request Error: " +:+ error);;
       mret (Res.failWith 500 "Failed to assign request" error)).

(** The mail step of [deleteRequest], with its own [try]/[catch]; the call
    has four arguments. *)
Definition notifyCancelled (request : ServiceRequest) : M unit :=
  Run.try_catch
    (emailResult ← sendStatusUpdateEmail (email (clientInfo request))
                     (fullName (clientInfo request)) (requestId request)
                     "cancelled" None;
     if Mail.success emailResult
     then Run.log ("Cancellation email sent to "
                   +:+ Email.show (email (clientInfo request)))
     else Run.log ("Failed to send cancellation email: "
                   +:+ Email.show (Mail.error emailResult)))
    (fun emailError => Run.log ("Email sending error: " +:+ emailError)).

Definition deleteRequest (req : Req.t) : M Res.t :=
  Run.try_catch
    (let id := Req.param "id" req in
     request ← Mongoose.findByIdAndUpdate id (Model.setStatus "cancelled") [];
     match request with
     | None => mret (Res.fail 404 "Service request not found")
     | Some request =>
         notifyCancelled request;;
         sent ← View.send request;
         mret (Res.ok 200 "Service request cancelled successfully" sent)
     end)
    (fun error =>
       Run.log ("Delete Request Error: " +:+ error);;
       mret (Res.failWith 500 "Failed to cancel service request" error)).

Definition hasStatus (s : string) (d : ServiceRequest) : bool :=
  String.eqb (status d) s.

Definition getDashboardStats (req : Req.t) : M Res.t :=
  Run.try_catch
    (submitted ← Mongoose.countDocuments (hasStatus "submitted");
     inProgress ← Mongoose.countDocuments (hasStatus "in-progress");
     completed ← Mongoose.countDocuments (hasStatus "completed");
     urgent ← Mongoose.countDocuments
                (fun d => String.eqb (priority d) "urgent");
     cancelled ← Mongoose.countDocuments (hasStatus "cancelled");
     reviewing ← Mongoose.countDocuments (hasStatus "reviewing");
     delivered ← Mongoose.countDocuments (hasStatus "delivered");
     total ← Mongoose.countDocuments (fun _ => true);
     mret (Res.okData 200
             (JObj [("submitted", JNum (Z.of_nat submitted));
                    ("inProgress", JNum (Z.of_nat inProgress));
                    ("completed", JNum (Z.of_nat completed));
                    ("urgent", JNum (Z.of_nat urgent));
                    ("cancelled", JNum (Z.of_nat cancelled));
                    ("reviewing", JNum (Z.of_nat reviewing));
                    ("delivered", JNum (Z.of_nat delivered));
                    ("total", JNum (Z.of_nat total))])))
    (fun error =>
       Run.log ("Dashboard Stats Error: " +:+ error);;
       mret (Res.failWith 500 "Failed to fetch dashboard stats" error)).

(** This handler has no [try]/[catch] of its own. *)
Definition sendCustomEmailByAdmin (req : Req.t) : M Res.t :=
  let b := Req.body req in
  result ← Email.sendCustomAdminEmail (Body.clientName b)
             (Body.clientEmail b) (Body.subject b) (Body.message b);
  if Mail.success result
  then mret (Res.ok 200 "Custom admin email sent successfully"
               (View.ofMailResult result))
  else mret {| Res.statusCode := 500; Res.success := false;
               Res.message := Some "Failed to send custom admin email";
               Res.data := None; Res.error := Mail.error result |}.

End Handlers.

End Controller.

(** ** The bearer-token middleware: [middleware/auth.js] *)

Module Auth.

(** What a middleware does with a call: hand it on, or answer it. *)
Inductive Step :=
| Next (req : Req.t)
| Respond (res : Res.t).

Definition bearerToken (authorization : option string) : option string :=
  match authorization with
  | Some h =>
      if Js.truthy (Some h) && String.prefix "Bearer" h
      then Js.split " " h !! 1%nat
      else None
  | None => None
  end.

(** [jwt.verify(token, secret).id]: the call throws on a token it does not
    accept, and the payload of one it accepts may have no [id]. *)
Definition verify (token : string) : M (option string) :=
  e ← Run.ask;
  match jwtVerify e token with
  | Some id => mret id
  | None => Run.throw (jwtMessage e token)
  end.

Definition protect (req : Req.t) : M Step :=
  Run.try_catch
    (let token := bearerToken (Req.authorization req) in
     if negb (Js.truthy token)
     then mret (Respond (Res.fail 401 "Not authorized to access this route."))
     else
       decoded ← verify (default EmptyString token);
       user ← Mongoose.findUserById decoded;
       match user with
       | None => mret (Respond (Res.fail 401 "User no longer exists."))
       | Some user =>
           if negb (isVerified user)
           then mret (Respond (Res.fail 401 "Please verify your email first."))
           else mret (Next (Req.withUser user req))
       end)
    (fun error =>
       Run.log ("Auth middleware error: " +:+ error);;
       mret (Respond (Res.fail 401 "Not authorized to access this route."))).

End Auth.

(** ** The router: [routes/serviceRequestRoutes.js] *)

Module Routes.

Import Auth.

Definition validateServiceRequest (req : Req.t) : M Step :=
  let b := Req.body req in
  match Body.selectionPath b, Body.clientInfo b with
  | Some _, Some clientInfo =>
      if negb (Js.truthy (Body.requestType b))
      then mret (Respond (Res.fail 400
             "Selection path, request type, and client info are required"))
      else if negb (Js.truthy (fullName clientInfo))
              || negb (Js.truthy (email clientInfo))
              || negb (Js.truthy (phone clientInfo))
      then mret (Respond (Res.fail 400
             "Client name, email, and phone are required"))
      else mret (Next req)
  | _, _ =>
      mret (Respond (Res.fail 400
        "Selection path, request type, and client info are required"))
  end.

(** "For now, just pass through": the admin check of the router. *)
Definition isAdmin (req : Req.t) : M Step := mret (Next req).

(** The controller as the router sees it: the handlers with the mail
    helper of [utils/email.js]. *)
Definition updateRequestStatus :=
  Controller.updateRequestStatus Email.sendStatusUpdateEmail.
Definition deleteRequest :=
  Controller.deleteRequest Email.sendStatusUpdateEmail.

Inductive Seg :=
| Lit (s : string)
| Param (name : string).

(** A handler of the table: embedded here; defined in the source and only
    named here; or the name of a property that the controller does not
    define. *)
Inductive Handler :=
| Embedded (h : Req.t -> M Res.t)
| Named (name : string)
| Undefined (name : string).

Record Route := {
  method : Method;
  pattern : list Seg;
  chain : list (Req.t -> M Step);
  handler : Handler
}.

Definition router : list Route :=
  [ {| method := POST; pattern := [];
       chain := [validateServiceRequest];
       handler := Embedded Controller.createRequest |};
    {| method := GET; pattern := [Lit "userRequest"; Param "requestId"];
       chain := []; handler := Undefined "getUserRequestIds" |};
    {| method := GET; pattern := [Lit "track"; Param "requestId"];
       chain := []; handler := Embedded Controller.getRequestByRequestId |};
    {| method := GET; pattern := [Lit "admin"];
       chain := [isAdmin]; handler := Named "getAllRequests" |};
    {| method := GET; pattern := [Lit "admin"; Lit "dashboard-stats"];
       chain := [isAdmin]; handler := Embedded Controller.getDashboardStats |};
    {| method := GET; pattern := [Lit "admin"; Lit "status"; Param "status"];
       chain := [isAdmin]; handler := Named "getRequestsByStatus" |};
    {| method := GET; pattern := [Lit "admin"; Param "id"];
       chain := [isAdmin]; handler := Embedded Controller.getRequestById |};
    {| method := PUT; pattern := [Lit "admin"; Param "id"; Lit "status"];
       chain := [isAdmin]; handler := Embedded updateRequestStatus |};
    {| method := PUT; pattern := [Lit "admin"; Param "id"; Lit "priority"];
       chain := [isAdmin]; handler := Embedded Controller.updateRequestPriority |};
    {| method := POST; pattern := [Lit "admin"; Param "id"; Lit "notes"];
       chain := [isAdmin]; handler := Embedded Controller.addAdminNote |};
    {| method := PUT; pattern := [Lit "admin"; Param "id"; Lit "assign"];
       chain := [isAdmin]; handler := Embedded Controller.assignRequest |};
    {| method := DELETE; pattern := [Lit "admin"; Param "id"];
       chain := [isAdmin]; handler := Embedded deleteRequest |};
    {| method := POST; pattern := [Lit "admin"; Param "id"; Lit "send-email"];
       chain := [isAdmin]; handler := Embedded Controller.sendCustomEmailByAdmin |};
    {| method := GET; pattern := [Lit "admin"; Lit "recent"];
       chain := [isAdmin]; handler := Named "getRecentRequests" |};
    {| method := GET; pattern := [Lit "admin"; Lit "recent"; Param "limit"];
       chain := [isAdmin]; handler := Named "getRecentRequests" |} ].

(** The routes of the section headed ADMIN ROUTES. *)
Definition isAdminRoute (r : Route) : bool :=
  match pattern r with
  | Lit first :: _ => String.eqb first "admin"
  | _ => false
  end.

(** A literal of a route path matches without regard to case. *)
Definition eqLiteral (s x : string) : bool :=
  String.eqb (Js.lowerAscii s) (Js.lowerAscii x).

(** The match of a route path: a literal piece by [eqLiteral], a parameter
    by any piece that is not empty. As the table is not strict, a trailing
    slash makes no difference; [Req.path] has dropped it. *)
Fixpoint matchPath (pat : list Seg) (path : list string)
    : option (list (string * string)) :=
  match pat, path with
  | [], [] => Some []
  | Lit s :: pat', x :: path' =>
      if eqLiteral s x then matchPath pat' path' else None
  | Param n :: pat', x :: path' =>
      if String.eqb x EmptyString then None
      else ps ← matchPath pat' path'; Some ((n, x) :: ps)
  | _, _ => None
  end.

(** Express decodes the percent escapes of a parameter. A piece without a
    percent sign is its own decoding; the decoding of the others is outside
    the embedding. *)
Definition unescaped (x : string) : bool :=
  negb (existsb (Ascii.eqb "%") (list_ascii_of_string x)).

(** [router.METHOD(path, ...)] throws, while the module is loaded, when it
    is given a handler that is [undefined]: the table registers when no
    handler of it is. *)
Definition defined (h : Handler) : bool :=
  match h with
  | Undefined _ => false
  | _ => true
  end.

Definition registers (rs : list Route) : bool :=
  forallb (fun r => defined (handler r)) rs.

Definition eqMethod (a b : Method) : bool :=
  match a, b with
  | GET, GET | POST, POST | PUT, PUT | DELETE, DELETE => true
  | _, _ => false
  end.

Fixpoint findRoute (rs : list Route) (req : Req.t)
    : option (Route * Req.t) :=
  match rs with
  | [] => None
  | r :: rs' =>
      match (if eqMethod (method r) (Req.method req)
             then matchPath (pattern r) (Req.path req) else None) with
      | Some ps => Some (r, Req.withParams ps req)
      | None => findRoute rs' req
      end
  end.

(** The middlewares of a route in turn; the first answer ends the chain. *)
Fixpoint runChain (mws : list (Req.t -> M Step)) (req : Req.t) : M Step :=
  match mws with
  | [] => mret (Next req)
  | mw :: rest =>
      step ← mw req;
      match step with
      | Next req' => runChain rest req'
      | Respond res => mret (Respond res)
      end
  end.

(** What becomes of a call that the table of routes is given: an answer;
    a handler of the source that is not embedded; a route whose handler is
    undefined, which Express never registers; a parameter with a percent
    escape; or no route. *)
Inductive Served :=
| Answered (res : Res.t)
| Reached (name : string)
| Unregistered (name : string)
| Escaped
| Unrouted.

(** The table as the file declares it, route by route and in its order.
    Whether Express takes the table is [registers]; [serve] tells what each
    declared route does with a call. *)
Definition serve (req : Req.t) : M Served :=
  match findRoute router req with
  | None => mret Unrouted
  | Some (r, req) =>
      if negb (forallb (fun p => unescaped p.2) (Req.params req))
      then mret Escaped
      else
        step ← runChain (chain r) req;
        match step with
        | Respond res => mret (Answered res)
        | Next req =>
            match handler r with
            | Embedded h => res ← h req; mret (Answered res)
            | Named name => mret (Reached name)
            | Undefined name => mret (Unregistered name)
            end
        end
  end.

End Routes.

(** ** Vocabulary of the lifecycle properties *)

Module Lifecycle.

(** The type of the status mail helper. *)
Definition Gateway : Type :=
  option string -> option string -> string -> string -> option string ->
  M Mail.Result.

(** A helper that leaves the request collection alone, whatever else it
    does: answer, fail, throw, write to the console. *)
Definition keepsRequests (gw : Gateway) : Prop :=
  forall a b c s n e w, requests (gw a b c s n e w).2 = requests w.

Definition stored (m : gmap ObjectId ServiceRequest) (w : World) : World :=
  {| requests := m; catalog := catalog w; users := users w;
     outbox := outbox w; console := console w |}.

Definition logged (line : string) (w : World) : World :=
  {| requests := requests w; catalog := catalog w; users := users w;
     outbox := outbox w; console := console w ++ [line] |}.

(** The document [updateStatus] leaves behind. *)
Definition transitioned (newStatus : string) (adminNote : option string)
    (now : Z) (oid : ObjectId) (d : ServiceRequest) : ServiceRequest :=
  let d := Model.setStatus newStatus d in
  if Js.truthy adminNote
  then Model.pushAdminNote adminNote (Some "Admin") now oid d
  else d.

(** The answer of a run, when it did not throw. *)
Definition answer {A} (r : Outcome A * World) : option A :=
  match r.1 with
  | Ok a => Some a
  | Throw _ => None
  end.

(** The answer of a status update that went through. *)
Definition statusUpdated (cat : Catalog) (d' : ServiceRequest) : Res.t :=
  Res.ok 200 "Request status updated successfully"
    (View.toJSON cat View.plain d').

(** Every document sits under its own [_id]. *)
Definition keyed (m : gmap ObjectId ServiceRequest) : Prop :=
  map_Forall (fun i d => _id d = i) m.

Definition withoutNotes (d : ServiceRequest) : ServiceRequest :=
  {| _id := _id d; requestId := requestId d;
     selectionPath := selectionPath d; requestType := requestType d;
     clientInfo := clientInfo d; requirements := requirements d;
     status := status d; priority := priority d; timeline := timeline d;
     adminNotes := [];
     assignedTo := assignedTo d;
     pricing := pricing d; deliverables := deliverables d |}.

(** *** A request returned intact

    What the specification asks of a projection [sent] of the request [d],
    in its own terms: every path of [d] other than the admin notes and the
    selection path is under its key with its value, and a path that [d] does
    not have is not there. *)

Definition showsField (f : CustomField) (j : Json) : Prop :=
  JsonUtil.get "fieldName" j = JStr <$> fieldName f
  /\ JsonUtil.get "fieldLabel" j = JStr <$> fieldLabel f
  /\ JsonUtil.get "fieldValue" j = JStr <$> fieldValue f
  /\ JsonUtil.get "fieldType" j = JStr <$> fieldType f
  /\ JsonUtil.get "_id" j = JStr <$> fieldId f.

Definition showsDeliverable (x : Deliverable) (j : Json) : Prop :=
  JsonUtil.get "fileName" j = JStr <$> fileName x
  /\ JsonUtil.get "fileUrl" j = JStr <$> fileUrl x
  /\ JsonUtil.get "publicId" j = JStr <$> publicId x
  /\ JsonUtil.get "deliveredAt" j = Some (JDate (deliveredAt x))
  /\ JsonUtil.get "_id" j = Some (JStr (deliverableId x)).

Definition showsNote (n : AdminNote) (j : Json) : Prop :=
  JsonUtil.get "note" j = JStr <$> note n
  /\ JsonUtil.get "addedBy" j = JStr <$> addedBy n
  /\ JsonUtil.get "addedAt" j = Some (JDate (addedAt n))
  /\ JsonUtil.get "_id" j = Some (JStr (noteId n)).

Definition intact (d : ServiceRequest) (sent : Json) : Prop :=
  JsonUtil.get "_id" sent = Some (JStr (_id d))
  /\ JsonUtil.get "requestId" sent = Some (JStr (requestId d))
  /\ JsonUtil.get "requestType" sent = JStr <$> requestType d
  /\ JsonUtil.get "status" sent = Some (JStr (status d))
  /\ JsonUtil.get "priority" sent = Some (JStr (priority d))
  /\ JsonUtil.get "assignedTo" sent = JStr <$> assignedTo d
  /\ JsonUtil.at_ ["clientInfo"; "fullName"] sent
     = JStr <$> fullName (clientInfo d)
  /\ JsonUtil.at_ ["clientInfo"; "email"] sent = JStr <$> email (clientInfo d)
  /\ JsonUtil.at_ ["clientInfo"; "phone"] sent = JStr <$> phone (clientInfo d)
  /\ JsonUtil.at_ ["clientInfo"; "businessName"] sent
     = JStr <$> businessName (clientInfo d)
  /\ JsonUtil.at_ ["clientInfo"; "industry"] sent
     = JStr <$> industry (clientInfo d)
  /\ JsonUtil.at_ ["requirements"; "businessDescription"] sent
     = JStr <$> businessDescription (requirements d)
  /\ JsonUtil.at_ ["requirements"; "colors"; "preferred"] sent
     = Some (JArr (JStr <$> colorsPreferred (requirements d)))
  /\ JsonUtil.at_ ["requirements"; "colors"; "avoid"] sent
     = Some (JArr (JStr <$> colorsAvoid (requirements d)))
  /\ JsonUtil.at_ ["requirements"; "tone"] sent = JStr <$> tone (requirements d)
  /\ JsonUtil.at_ ["requirements"; "additionalNotes"] sent
     = JStr <$> additionalNotes (requirements d)
  /\ (exists items,
        JsonUtil.at_ ["requirements"; "customFields"] sent = Some (JArr items)
        /\ Forall2 showsField (customFields (requirements d)) items)
  /\ JsonUtil.at_ ["timeline"; "estimatedDelivery"] sent
     = JDate <$> estimatedDelivery (timeline d)
  /\ JsonUtil.at_ ["timeline"; "actualDelivery"] sent
     = JDate <$> actualDelivery (timeline d)
  /\ JsonUtil.at_ ["pricing"; "quotedAmount"] sent
     = JNum <$> quotedAmount (pricing d)
  /\ JsonUtil.at_ ["pricing"; "finalAmount"] sent
     = JNum <$> finalAmount (pricing d)
  /\ JsonUtil.at_ ["pricing"; "currency"] sent
     = Some (JStr (currency (pricing d)))
  /\ (exists items,
        JsonUtil.get "deliverables" sent = Some (JArr items)
        /\ Forall2 showsDeliverable (deliverables d) items).



(** A reference that names an existing, active entry of a collection. *)
Definition activeIn (coll : gmap ObjectId CatalogEntry)
    (ref : option ObjectId) : Prop :=
  exists i c, ref = Some i /\ coll !! i = Some c /\ isActive c = true.

(** The selection check reads only its arguments. *)
Definition selectionAnswer (sp : option SelectionPath) (rt : option string)
    : Outcome (option Res.t) :=
  if bool_decide (rt = Some "service") then
    match sp with
    | Some sp =>
        if negb (Js.truthy (selectedCategory sp))
           || negb (Js.truthy (selectedService sp))
        then Ok (Some (Res.fail 400
               "Category and Service selection is required for service requests"))
        else Ok None
    | None => Throw "Cannot read properties of undefined"
    end
  else if bool_decide (rt = Some "combo") then
    match sp with
    | Some sp =>
        if negb (Js.truthy (selectedCombo sp))
        then Ok (Some (Res.fail 400
               "Combo selection is required for combo requests"))
        else Ok None
    | None => Throw "Cannot read properties of undefined"
    end
  else Ok None.

(** The document [createRequest] builds. *)
Definition created (req : Req.t) (e : Env) : ServiceRequest :=
  Model.newServiceRequest (freshObjectId e) (freshFieldId e) (dateNow e)
    (mathRandom e)
    (Body.selectionPath (Req.body req)) (Body.requestType (Req.body req))
    (Body.clientInfo (Req.body req)) (Body.requirements (Req.body req)).

(** The answer and the console line of the [catch] of [createRequest]. *)
Definition submitFailed (reason : string) (w : World) : Outcome Res.t * World :=
  (Ok (Res.failWith 500 "Failed to submit service request" reason),
   logged ("Create Request Error: " +:+ reason) w).

(** The answer and the console line of the [catch] of
    [getRequestByRequestId]. *)
Definition fetchFailed (reason : string) (w : World) : Outcome Res.t * World :=
  (Ok (Res.failWith 500 "Failed to fetch service request" reason),
   logged ("Get Request By Request ID Error: " +:+ reason) w).

(** What one call may do to the collection: nothing; put back a stored
    document, under its own [_id], with admin notes added at the end and
    still valid if it was; or add a valid document under an [_id] that was
    free. *)
Definition writes (m m' : gmap ObjectId ServiceRequest) : Prop :=
  m' = m
  \/ (exists i d d' extra,
        m !! i = Some d /\ _id d' = _id d
        /\ adminNotes d' = (adminNotes d ++ extra)%list
        /\ (Model.validate d = [] -> Model.validate d' = [])
        /\ m' = <[_id d := d']> m)
  \/ (exists d, m !! _id d = None /\ Model.validate d = []
                /\ m' = <[_id d := d]> m).

(** Every document sits under its own [_id] and passes the validation of
    the schema. *)
Definition sound (m : gmap ObjectId ServiceRequest) : Prop :=
  map_Forall (fun i d => _id d = i /\ Model.validate d = []) m.

(** Each request of [m] is still in [m'], its admin notes a prefix of the
    ones it has there. *)
Definition notesExtend (m m' : gmap ObjectId ServiceRequest) : Prop :=
  forall i d,
    m !! i = Some d ->
    exists d' extra,
      m' !! i = Some d' /\ adminNotes d' = (adminNotes d ++ extra)%list.

(** The operations that write a request. *)
Inductive Operation :=
| Create
| Transition
| UpdatePriority
| AppendNote
| Assign
| Cancel.

Definition perform (op : Operation) : Req.t -> M Res.t :=
  match op with
  | Create => Controller.createRequest
  | Transition => Routes.updateRequestStatus
  | UpdatePriority => Controller.updateRequestPriority
  | AppendNote => Controller.addAdminNote
  | Assign => Controller.assignRequest
  | Cancel => Routes.deleteRequest
  end.

(** The world after a sequence of calls, each with the outside answers it
    met. *)
Fixpoint history (calls : list (Operation * Req.t * Env)) (w : World)
    : World :=
  match calls with
  | [] => w
  | (op, req, e) :: rest => history rest (perform op req e w).2
  end.

End Lifecycle.

(** ** Sample data *)

Module Sample.

(** Identifiers of the sample documents. *)
Definition r1 : ObjectId := "65a1f0c2b3d4e5f6a7b8c9d0".
Definition r2 : ObjectId := "65a1f0c2b3d4e5f6a7b8c9d1".
Definition c1 : ObjectId := "64f0aa10b2c3d4e5f6a7b801".
Definition s1 : ObjectId := "64f0aa10b2c3d4e5f6a7b802".
Definition s2 : ObjectId := "64f0aa10b2c3d4e5f6a7b803".
(** A well-formed identifier that names nothing in the catalog. *)
Definition ghost : ObjectId := "64f0aa10b2c3d4e5f6a7b8ff".

(** Identifiers of subdocuments. *)
Definition n1 : ObjectId := "65a1f0c2b3d4e5f6a7b8c9e1".
Definition n2 : ObjectId := "65a1f0c2b3d4e5f6a7b8c9e2".
Definition n3 : ObjectId := "65a1f0c2b3d4e5f6a7b8c9e3".
Definition n4 : ObjectId := "65a1f0c2b3d4e5f6a7b8c9e4".
Definition n5 : ObjectId := "65a1f0c2b3d4e5f6a7b8c9e5".
Definition f0 : ObjectId := "65a1f0c2b3d4e5f6a7b8c9f0".

(** A category whose image was not selected has a null [imageUrl]. *)
Definition design : CatalogEntry :=
  {| paths := [("title", JStr "Design");
               ("description", JStr "Design work");
               ("slug", JStr "design")];
     virtuals := fun _ => [("imageUrl", JNull)];
     isActive := true |}.

(** The virtuals of a service read its pricing and its delivery time, which
    the lifecycle selects at most in part. *)
Definition serviceVirtuals (price : string) (select : list string)
    : list (string * Json) :=
  [("formattedPrice",
    JStr (if Model.includes select "pricing" then price
          else "₹undefined"));
   ("deliveryTimeText", JStr "undefined undefined")].

Definition logo : CatalogEntry :=
  {| paths := [("title", JStr "Logo");
               ("description", JStr "A logo");
               ("pricing",
                JObj [("startingPrice", JNum 4999);
                      ("currency", JStr "INR");
                      ("priceType", JStr "project")]);
               ("slug", JStr "logo")];
     virtuals := serviceVirtuals "₹4999";
     isActive := true |}.

Definition banner : CatalogEntry :=
  {| paths := [("title", JStr "Banner");
               ("description", JStr "A banner");
               ("pricing",
                JObj [("startingPrice", JNum 999);
                      ("currency", JStr "INR");
                      ("priceType", JStr "project")]);
               ("slug", JStr "banner")];
     virtuals := serviceVirtuals "₹999";
     isActive := false |}.

Definition shop : Catalog :=
  {| categories := {[c1 := design]};
     services := {[s1 := logo; s2 := banner]};
     templates := ∅;
     combos := ∅ |}.

Definition jane : ClientInfo :=
  {| fullName := Some "Jane Doe"; email := Some "jane@x.com";
     phone := Some "9876543210"; businessName := None; industry := None |}.

(** The texts of a recent Mongoose. *)
Definition castText (model value : string) : string :=
  "Cast to ObjectId failed for value " +:+ Js.quote +:+ value +:+ Js.quote
  +:+ " (type string) at path " +:+ Js.quote +:+ "_id" +:+ Js.quote
  +:+ " for model " +:+ Js.quote +:+ model +:+ Js.quote.

Definition readText (property : string) : string :=
  "Cannot read properties of undefined (reading '" +:+ property +:+ "')".

Definition duplicateText (d : ServiceRequest) : string :=
  "E11000 duplicate key error collection: app.servicerequests index: "
  +:+ "requestId_1 dup key: { requestId: " +:+ Js.quote +:+ requestId d
  +:+ Js.quote +:+ " }".

Definition requiredText (path : string) : string :=
  "Path `" +:+ path +:+ "` is required.".

Definition enumText (path : string) (v : option string) : string :=
  match v with
  | Some v => "`" +:+ v +:+ "` is not a valid enum value for path `"
              +:+ path +:+ "`."
  | None => requiredText path
  end.

(** The message of one failing path of a document. *)
Definition failureText (d : ServiceRequest) (path : string) : string :=
  path +:+ ": " +:+
  (if String.eqb path "requestType" then
     if Js.truthy (requestType d) then enumText path (requestType d)
     else requiredText path
   else if String.eqb path "clientInfo.fullName" then
     if Js.truthy (fullName (clientInfo d))
     then "Name cannot exceed 100 characters" else "Full name is required"
   else if String.eqb path "clientInfo.email" then
     if Js.truthy (email (clientInfo d))
     then "Please enter a valid email address" else "Email is required"
   else if String.eqb path "clientInfo.phone" then
     if Js.truthy (phone (clientInfo d))
     then "Please enter a valid 10-digit mobile number"
     else "Phone number is required"
   else if String.eqb path "requirements.businessDescription" then
     "Description cannot exceed 1000 characters"
   else if String.eqb path "requirements.additionalNotes" then
     "Notes cannot exceed 2000 characters"
   else if String.eqb path "requirements.tone" then
     enumText path (tone (requirements d))
   else if String.eqb path "status" then enumText path (Some (status d))
   else if String.eqb path "priority" then enumText path (Some (priority d))
   else requiredText path).

Definition validationText (d : ServiceRequest) : string :=
  "ServiceRequest validation failed: "
  +:+ String.concat ", " (failureText d <$> Model.validate d).

Definition updateValidationText (ps : list string) : string :=
  "Validation failed: " +:+ String.concat ", " ps.

Definition env : Env :=
  {| dateNow := 1700000000000;
     mathRandom := "0.k3j9x2a";
     freshObjectId := r1;
     freshNoteId := n4;
     freshFieldId := fun _ => f0;
     storeUp := fun _ => true;
     smtp := fun _ => Mail.Sent "m1";
     EMAIL_USER := "team@agency.example";
     castMessage := castText;
     validationMessage := validationText;
     updateValidationMessage := updateValidationText;
     readOfUndefined := readText;
     duplicateKeyMessage := duplicateText;
     jwtVerify := fun _ => None;
     jwtMessage := fun _ => "jwt malformed" |}.

(** The transport refuses every message. *)
Definition envSmtpDown : Env :=
  {| dateNow := 1700000000500;
     mathRandom := "0.zzzzzz";
     freshObjectId := r2;
     freshNoteId := n5;
     freshFieldId := fun _ => f0;
     storeUp := fun _ => true;
     smtp := fun _ => Mail.Refused "ECONNREFUSED";
     EMAIL_USER := "team@agency.example";
     castMessage := castText;
     validationMessage := validationText;
     updateValidationMessage := updateValidationText;
     readOfUndefined := readText;
     duplicateKeyMessage := duplicateText;
     jwtVerify := fun _ => None;
     jwtMessage := fun _ => "jwt malformed" |}.

Definition request (st : string) (notes : list AdminNote) : ServiceRequest :=
  {| _id := r1;
     requestId := "REQ-1700000000000-K3J9";
     selectionPath :=
       {| selectedCategory := Some c1; selectedService := Some s1;
          selectedTemplate := None; selectedCombo := None |};
     requestType := Some "service";
     clientInfo := jane;
     requirements := Model.emptyRequirements;
     status := st;
     priority := "medium";
     timeline := {| estimatedDelivery := None; actualDelivery := None |};
     adminNotes := notes;
     assignedTo := None;
     pricing := {| quotedAmount := None; finalAmount := None;
                   currency := "INR" |};
     deliverables := [] |}.

Definition world (st : string) (notes : list AdminNote) : World :=
  {| requests := {[r1 := request st notes]};
     catalog := shop; users := ∅; outbox := []; console := [] |}.

Definition emptyWorld : World :=
  {| requests := ∅; catalog := shop; users := ∅; outbox := [];
     console := [] |}.

Definition threeNotes : list AdminNote :=
  [ {| noteId := n1; note := Some "called the client";
       addedBy := Some "Admin"; addedAt := 1700000000100 |};
    {| noteId := n2; note := Some "budget is tight";
       addedBy := Some "Ravi"; addedAt := 1700000000200 |};
    {| noteId := n3; note := Some "rush job";
       addedBy := Some "Admin"; addedAt := 1700000000300 |} ].

Definition call (m : Method) (path : list string)
    (params : list (string * string)) (b : Body.t) : Req.t :=
  {| Req.method := m; Req.path := path; Req.params := params;
     Req.authorization := None; Req.body := b; Req.user := None |}.

Definition statusBody (s : string) (n : option string) : Body.t :=
  {| Body.selectionPath := None; Body.requestType := None;
     Body.clientInfo := None; Body.requirements := None;
     Body.status := Some s; Body.adminNote := n;
     Body.priority := None; Body.note := None; Body.addedBy := None;
     Body.assignedTo := None; Body.clientName := None;
     Body.clientEmail := None; Body.subject := None;
     Body.message := None |}.

Definition createBody (rt : option string) (sp : option SelectionPath)
    : Body.t :=
  {| Body.selectionPath := sp; Body.requestType := rt;
     Body.clientInfo := Some jane; Body.requirements := None;
     Body.status := None; Body.adminNote := None;
     Body.priority := None; Body.note := None; Body.addedBy := None;
     Body.assignedTo := None; Body.clientName := None;
     Body.clientEmail := None; Body.subject := None;
     Body.message := None |}.

Definition path (cat svc combo : option ObjectId) : SelectionPath :=
  {| selectedCategory := cat; selectedService := svc;
     selectedTemplate := None; selectedCombo := combo |}.

Definition noteBody (n : string) : Body.t :=
  {| Body.selectionPath := None; Body.requestType := None;
     Body.clientInfo := None; Body.requirements := None;
     Body.status := None; Body.adminNote := None;
     Body.priority := None; Body.note := Some n; Body.addedBy := None;
     Body.assignedTo := None; Body.clientName := None;
     Body.clientEmail := None; Body.subject := None;
     Body.message := None |}.

(** The calls on request [r1] used below, as the router hands them to the
    handlers. *)
Definition putStatus (s : string) (n : option string) : Req.t :=
  call PUT ["admin"; r1; "status"] [("id", r1)] (statusBody s n).

Definition postNote (n : string) : Req.t :=
  call POST ["admin"; r1; "notes"] [("id", r1)] (noteBody n).

Definition cancel : Req.t :=
  call DELETE ["admin"; r1] [("id", r1)] Body.empty.


Definition post (rt : option string) (sp : option SelectionPath) : Req.t :=
  call POST [] [] (createBody rt sp).

(** A status update with a note, a note, and a cancellation of request
    [r1]. *)
Definition calls : list (Lifecycle.Operation * Req.t * Env) :=
  [ (Lifecycle.Transition, putStatus "reviewing" (Some "Looks good"), env);
    (Lifecycle.AppendNote, postNote "waiting for the logo files", env);
    (Lifecycle.Cancel, cancel, envSmtpDown) ].

(** A helper that always throws. *)
Definition brokenGateway : Lifecycle.Gateway :=
  fun _ _ _ _ _ => Run.throw "gateway down".

End Sample.

(** Unfolds the monad of the handlers down to pairs and matches. *)
Ltac plumbing :=
  unfold View.send, Run.try_catch, mbind, M_bind, Run.bind, Run.ask, Run.get, Run.throw,
         Run.log, Run.setRequests, Run.deliver, mret, M_ret, Run.ret in *.

(** ** Vocabulary of the further properties *)

Module Admin.

(** The answer of the by-id handlers for a request that is not there. *)
Definition notFound : Res.t := Res.fail 404 "Service request not found".

(** The note [addAdminNote] appends. *)
Definition appended (note by_ : option string) (now : Z) (oid : ObjectId)
    : AdminNote :=
  {| noteId := oid; note := note; addedBy := Some (default "Admin" by_);
     addedAt := now |}.

(** The number of stored requests a filter of [countDocuments] selects. *)
Definition count (p : ServiceRequest -> bool)
    (m : gmap ObjectId ServiceRequest) : nat :=
  length (filter (fun d => p d = true) (map_to_list m).*2).

(** The shape of the admin detail view. *)
Definition detail : View.Shape :=
  {| View.category := Some ["title"; "slug"; "description"];
     View.service := Some ["title"; "slug"; "description"; "pricing"];
     View.template := Some ["title"; "slug"; "description"; "images"];
     View.combo := Some ["title"; "slug"; "description"; "pricing"];
     View.hideAdminNotes := false |}.

(** A call that wrote nothing: the collection, the catalog, the users and
    the outbox are as they were, and the console is as it was or has one
    line more. *)
Definition sameState (w w' : World) : Prop :=
  requests w' = requests w /\ catalog w' = catalog w
  /\ users w' = users w /\ outbox w' = outbox w
  /\ (console w' = console w
      \/ exists line, console w' = (console w ++ [line])%list).

(** A call whose bearer token the verifier takes, with a payload whose
    [id] spells the [ObjectId] of a user who exists and is verified, while
    the store answers the lookup of the user. *)
Definition authenticated (req : Req.t) (e : Env) (w : World) (u : User)
    : Prop :=
  exists token id,
    Auth.bearerToken (Req.authorization req) = Some token
    /\ token <> EmptyString
    /\ jwtVerify e token = Some (Some id)
    /\ Model.isObjectId id = true
    /\ storeUp e OpFindUser = true
    /\ users w !! Model.objectId id = Some u
    /\ isVerified u = true.

(** A creation body that the middleware of the route refuses. *)
Definition incomplete (b : Body.t) : Prop :=
  Body.selectionPath b = None
  \/ Js.truthy (Body.requestType b) = false
  \/ match Body.clientInfo b with
     | None => True
     | Some ci =>
         Js.truthy (fullName ci) = false
         \/ Js.truthy (email ci) = false
         \/ Js.truthy (phone ci) = false
     end.

(** A creation body with a selection path that lacks what its request type
    asks for. *)
Definition selectionMissing (b : Body.t) : Prop :=
  exists sp,
    Body.selectionPath b = Some sp
    /\ ((Body.requestType b = Some "service"
         /\ (Js.truthy (selectedCategory sp) = false
             \/ Js.truthy (selectedService sp) = false))
        \/ (Body.requestType b = Some "combo"
            /\ Js.truthy (selectedCombo sp) = false)).

(** The answer of a handler, as the router passes it on. *)
Definition served (r : Outcome Res.t * World)
    : Outcome Routes.Served * World :=
  match r with
  | (Ok res, w') => (Ok (Routes.Answered res), w')
  | (Throw reason, w') => (Throw reason, w')
  end.

(** What a client submitted, and what the schema generated for it: the
    part of a request that no admin operation is meant to touch. *)
Definition sameSubmission (d d' : ServiceRequest) : Prop :=
  _id d' = _id d
  /\ requestId d' = requestId d
  /\ selectionPath d' = selectionPath d
  /\ requestType d' = requestType d
  /\ clientInfo d' = clientInfo d
  /\ requirements d' = requirements d
  /\ timeline d' = timeline d
  /\ pricing d' = pricing d
  /\ deliverables d' = deliverables d.

(** One call on the collection: nothing; a stored document put back with
    its submission untouched; or a new document under a free [_id] and with
    a [requestId] that no stored document has. *)
Definition edits (m m' : gmap ObjectId ServiceRequest) : Prop :=
  m' = m
  \/ (exists i d d',
        m !! i = Some d /\ sameSubmission d d' /\ m' = <[_id d := d']> m)
  \/ (exists d,
        m !! _id d = None
        /\ Mongoose.requestIdTaken (requestId d) m = false
        /\ m' = <[_id d := d]> m).

(** No two stored requests share a [requestId]. *)
Definition uniqueRequestIds (m : gmap ObjectId ServiceRequest) : Prop :=
  forall i j d1 d2,
    m !! i = Some d1 -> m !! j = Some d2 ->
    requestId d1 = requestId d2 -> i = j.

(** The shape the schema gives to every stored request. *)
Definition wellFormed (d : ServiceRequest) : Prop :=
  In (status d) Model.statusEnum
  /\ In (priority d) Model.priorityEnum
  /\ Js.truthy (selectedCategory (selectionPath d)) = true
  /\ ((requestType d = Some "service"
       /\ Js.truthy (selectedService (selectionPath d)) = true)
      \/ (requestType d = Some "combo"
          /\ Js.truthy (selectedCombo (selectionPath d)) = true))
  /\ (exists n, fullName (clientInfo d) = Some n /\ n <> EmptyString
                /\ Js.length n <= 100)
  /\ (exists m, email (clientInfo d) = Some m /\ Js.matchEmail m = true)
  /\ (exists p, phone (clientInfo d) = Some p /\ Js.matchPhone p = true).

(** The mail [o] goes to the address of a request of [m]. *)
Definition addressed (m : gmap ObjectId ServiceRequest) (o : Mail.Options)
    : Prop :=
  exists i d, m !! i = Some d /\ Mail.to o = email (clientInfo d).

(** What one call may do to the outbox: nothing, or add one mail, to the
    address of a request stored after the call. *)
Definition mails (w w' : World) : Prop :=
  outbox w' = outbox w
  \/ exists o, outbox w' = (outbox w ++ [o])%list
               /\ addressed (requests w') o.

(** The operations that call the status mail helper. *)
Definition notifies (op : Lifecycle.Operation) : bool :=
  match op with
  | Lifecycle.Transition | Lifecycle.Cancel => true
  | _ => false
  end.

Definition notifying (calls : list (Lifecycle.Operation * Req.t * Env))
    : nat :=
  length (List.filter (fun c => notifies c.1.1) calls).

(** A run that ends in an answer with one of the five status codes the
    controller uses, not in a thrown error. *)
Definition answers (r : Outcome Res.t * World) : Prop :=
  exists res w',
    r = (Ok res, w') /\ In (Res.statusCode res) [200; 201; 400; 404; 500]%nat.

(** A computation that returns in every environment and world. *)
Definition neverThrows {A} (c : M A) : Prop :=
  forall e w, exists a w', c e w = (Ok a, w').

(** The first route of a table that Express refuses to register. *)
Definition firstUndefined (rs : list Routes.Route) : option Routes.Route :=
  List.find (fun r => negb (Routes.defined (Routes.handler r))) rs.

End Admin.

Module Sample2.

Definition priorityBody (p : string) : Body.t :=
  {| Body.selectionPath := None; Body.requestType := None;
     Body.clientInfo := None; Body.requirements := None;
     Body.status := None; Body.adminNote := None;
     Body.priority := Some p; Body.note := None; Body.addedBy := None;
     Body.assignedTo := None; Body.clientName := None;
     Body.clientEmail := None; Body.subject := None;
     Body.message := None |}.

Definition assignBody (a : string) : Body.t :=
  {| Body.selectionPath := None; Body.requestType := None;
     Body.clientInfo := None; Body.requirements := None;
     Body.status := None; Body.adminNote := None;
     Body.priority := None; Body.note := None; Body.addedBy := None;
     Body.assignedTo := Some a; Body.clientName := None;
     Body.clientEmail := None; Body.subject := None;
     Body.message := None |}.

Definition putPriority (p : string) : Req.t :=
  Sample.call PUT ["admin"; Sample.r1; "priority"] [("id", Sample.r1)]
    (priorityBody p).

Definition putAssign (a : string) : Req.t :=
  Sample.call PUT ["admin"; Sample.r1; "assign"] [("id", Sample.r1)]
    (assignBody a).

(** The store answers reads and refuses writes. *)
Definition envWriteDown : Env :=
  {| dateNow := 1700000000900;
     mathRandom := "0.abcdef";
     freshObjectId := Sample.r2;
     freshNoteId := Sample.n5;
     freshFieldId := fun _ => Sample.f0;
     storeUp := fun op =>
       match op with OpSave | OpUpdate => false | _ => true end;
     smtp := fun _ => Mail.Sent "m2";
     EMAIL_USER := "team@agency.example";
     castMessage := Sample.castText;
     validationMessage := Sample.validationText;
     updateValidationMessage := Sample.updateValidationText;
     readOfUndefined := Sample.readText;
     duplicateKeyMessage := Sample.duplicateText;
     jwtVerify := fun _ => None;
     jwtMessage := fun _ => "jwt malformed" |}.

(** The store answers everything but the catalog lookups of [populate]. *)
Definition envPopulateDown : Env :=
  {| dateNow := 1700000000900;
     mathRandom := "0.abcdef";
     freshObjectId := Sample.r2;
     freshNoteId := Sample.n5;
     freshFieldId := fun _ => Sample.f0;
     storeUp := fun op =>
       match op with OpPopulate => false | _ => true end;
     smtp := fun _ => Mail.Sent "m2";
     EMAIL_USER := "team@agency.example";
     castMessage := Sample.castText;
     validationMessage := Sample.validationText;
     updateValidationMessage := Sample.updateValidationText;
     readOfUndefined := Sample.readText;
     duplicateKeyMessage := Sample.duplicateText;
     jwtVerify := fun _ => None;
     jwtMessage := fun _ => "jwt malformed" |}.

(** A complete submission of a service. *)
Definition postService : Req.t :=
  Sample.post (Some "service")
    (Some (Sample.path (Some Sample.c1) (Some Sample.s1) None)).

Definition mailBody (msg : string) : Body.t :=
  {| Body.selectionPath := None; Body.requestType := None;
     Body.clientInfo := None; Body.requirements := None;
     Body.status := None; Body.adminNote := None;
     Body.priority := None; Body.note := None; Body.addedBy := None;
     Body.assignedTo := None; Body.clientName := Some "Jane Doe";
     Body.clientEmail := Some "jane@x.com";
     Body.subject := Some "About your request";
     Body.message := Some msg |}.

Definition getDetail (i : string) : Req.t :=
  Sample.call GET ["admin"; i] [("id", i)] Body.empty.

Definition getStats : Req.t :=
  Sample.call GET ["admin"; "dashboard-stats"] [] Body.empty.

Definition verifiedUser : User := {| isVerified := true |}.

(** A world with one verified user, and a verifier that takes one token for
    that user. *)
Definition worldWithUser : World :=
  {| requests := requests (Sample.world "reviewing" []);
     catalog := Sample.shop;
     users := {[Sample.ghost := verifiedUser]};
     outbox := []; console := [] |}.

Definition envWithVerifier : Env :=
  {| dateNow := 1700000000000;
     mathRandom := "0.k3j9x2a";
     freshObjectId := Sample.r2;
     freshNoteId := Sample.n5;
     freshFieldId := fun _ => Sample.f0;
     storeUp := fun _ => true;
     smtp := fun _ => Mail.Sent "m1";
     EMAIL_USER := "team@agency.example";
     castMessage := Sample.castText;
     validationMessage := Sample.validationText;
     updateValidationMessage := Sample.updateValidationText;
     readOfUndefined := Sample.readText;
     duplicateKeyMessage := Sample.duplicateText;
     jwtVerify := fun t => if String.eqb t "good-token"
                           then Some (Some Sample.ghost) else None;
     jwtMessage := fun _ => "jwt malformed" |}.

(** A collection of two requests, the second one as [createRequest] made it
    half a second after the first; and two later submissions: one at a
    clock and a random source that give the [requestId] of the first request
    once more, one at a later clock. *)
Definition r3 : ObjectId := "65a1f0c2b3d4e5f6a7b8c9d2".
Definition r4 : ObjectId := "65a1f0c2b3d4e5f6a7b8c9d3".

Definition twoRequests : World :=
  {| requests :=
       {[ Sample.r1 := Sample.request "reviewing" [];
          Sample.r2 := Lifecycle.created postService Sample.envSmtpDown ]};
     catalog := Sample.shop; users := ∅; outbox := []; console := [] |}.

Definition envAt (now : Z) (rnd : string) (oid : ObjectId) : Env :=
  {| dateNow := now;
     mathRandom := rnd;
     freshObjectId := oid;
     freshNoteId := Sample.n5;
     freshFieldId := fun _ => Sample.f0;
     storeUp := fun _ => true;
     smtp := fun _ => Mail.Sent "m3";
     EMAIL_USER := "team@agency.example";
     castMessage := Sample.castText;
     validationMessage := Sample.validationText;
     updateValidationMessage := Sample.updateValidationText;
     readOfUndefined := Sample.readText;
     duplicateKeyMessage := Sample.duplicateText;
     jwtVerify := fun _ => None;
     jwtMessage := fun _ => "jwt malformed" |}.

Definition envClash : Env := envAt 1700000000000 "0.k3j9x2a" r3.
Definition envLater : Env := envAt 1700000000900 "0.abcdef" r4.

Definition withBearer (h : string) : Req.t :=
  {| Req.method := GET; Req.path := ["status"]; Req.params := [];
     Req.authorization := Some h; Req.body := Body.empty;
     Req.user := None |}.

End Sample2.

(** * Properties of the lifecycle *)

Import Lifecycle.

Local Open Scope list_scope.

Lemma includes_In l s : Model.includes l s = true <-> In s l.
Proof.
  unfold Model.includes. rewrite existsb_exists. split.
  - intros (x & Hx & He). apply String.eqb_eq in He. by subst.
  - intros H. exists s. split; [done|]. apply String.eqb_refl.
Qed.

Lemma includes_statuses s :
  Model.includes Controller.validStatuses s = Model.includes Model.statusEnum s.
Proof. reflexivity. Qed.

Lemma check_nil path b : Model.check path b = [] <-> b = true.
Proof. destruct b; cbn; split; congruence. Qed.

(** Validity of a document, path by path. *)
Lemma validate_nil d :
  Model.validate d = [] ->
  Model.includes Model.statusEnum (status d) = true
  /\ Model.includes Model.priorityEnum (priority d) = true.
Proof.
  unfold Model.validate. intros H.
  repeat (apply app_eq_nil in H; destruct H as [? H]).
  rewrite check_nil in *. split; tauto.
Qed.

Lemma validate_setStatus d s :
  Model.validate d = [] -> Model.includes Model.statusEnum s = true ->
  Model.validate (Model.setStatus s d) = [].
Proof.
  unfold Model.validate. cbn. intros H Hs.
  repeat (apply app_eq_nil in H; destruct H as [?H H]).
  rewrite Hs. cbn.
  repeat match goal with H : _ = [] |- _ => rewrite H; clear H end.
  reflexivity.
Qed.

Lemma validate_pushAdminNote d n b t o :
  Model.validate (Model.pushAdminNote n b t o d) = Model.validate d.
Proof. reflexivity. Qed.

Lemma validate_transitioned d s n t o :
  Model.validate d = [] -> Model.includes Model.statusEnum s = true ->
  Model.validate (transitioned s n t o d) = [].
Proof.
  intros H Hs. unfold transitioned. destruct (Js.truthy n).
  - rewrite validate_pushAdminNote. by apply validate_setStatus.
  - by apply validate_setStatus.
Qed.

Lemma id_transitioned d s n t o : _id (transitioned s n t o d) = _id d.
Proof. unfold transitioned. by destruct (Js.truthy n). Qed.

Lemma status_transitioned d s n t o : status (transitioned s n t o d) = s.
Proof. unfold transitioned. by destruct (Js.truthy n). Qed.

Lemma stored_same w : stored (requests w) w = w.
Proof. by destruct w. Qed.

(** *** The store calls *)

Lemma driver_up op e w : storeUp e op = true -> Mongoose.driver op e w = (Ok tt, w).
Proof. intros H. unfold Mongoose.driver. plumbing. by rewrite H. Qed.

Lemma driver_down op e w :
  storeUp e op = false -> Mongoose.driver op e w = (Throw "MongoError", w).
Proof. intros H. unfold Mongoose.driver. plumbing. by rewrite H. Qed.

Lemma findById_up i e w :
  Model.isObjectId i = true ->
  storeUp e OpFind = true ->
  Mongoose.findById (Some i) e w = (Ok (requests w !! Model.objectId i), w).
Proof.
  intros Hi H. unfold Mongoose.findById, Mongoose.castId, Mongoose.castIdOf.
  rewrite Hi. plumbing. by rewrite driver_up.
Qed.

Lemma findById_cases id e w :
  (exists found,
     Mongoose.findById id e w = (Ok found, w)
     /\ forall d, found = Some d ->
                  exists i, id = Some i
                            /\ requests w !! Model.objectId i = Some d)
  \/ exists r, Mongoose.findById id e w = (Throw r, w).
Proof.
  unfold Mongoose.findById, Mongoose.castId, Mongoose.castIdOf,
    Mongoose.driver.
  destruct id as [i|].
  - destruct (Model.isObjectId i); plumbing; [|right; by eexists].
    destruct (storeUp e OpFind); [|right; by eexists].
    left. eexists. split; [reflexivity|]. intros d Hd. by exists i.
  - plumbing. destruct (storeUp e OpFind); [|right; by eexists].
    left. eexists. split; [reflexivity|]. done.
Qed.

Lemma save_ok d e w :
  Model.validate d = [] -> storeUp e OpSave = true ->
  Mongoose.save d e w = (Ok tt, stored (<[_id d := d]> (requests w)) w).
Proof.
  intros Hv H. unfold Mongoose.save, Mongoose.validated. rewrite Hv.
  plumbing. by rewrite driver_up.
Qed.

Lemma updateStatus_ok d s n e w :
  Model.validate d = [] -> Model.includes Model.statusEnum s = true ->
  storeUp e OpSave = true ->
  Methods.updateStatus d s n e w =
    (Ok (transitioned s n (dateNow e) (freshNoteId e) d),
     stored (<[_id d := transitioned s n (dateNow e) (freshNoteId e) d]> (requests w)) w).
Proof.
  intros Hv Hs H. unfold Methods.updateStatus. plumbing. cbn.
  fold (transitioned s n (dateNow e) (freshNoteId e) d).
  rewrite save_ok; [|by apply validate_transitioned|done].
  by rewrite id_transitioned.
Qed.

Section WithGateway.
Variable gw : Gateway.

(** The mail step always comes back, and adds one console line to whatever
    the helper left. *)
Lemma notifyStatus_run d s n e w :
  Controller.notifyStatus gw d s n e w =
    match gw (email (clientInfo d)) (fullName (clientInfo d)) (requestId d) s n e w with
    | (Ok r, w') =>
        (Ok tt,
         logged (if Mail.success r
                 then "Status update email sent to " +:+ Email.show (email (clientInfo d))
                 else "Failed to send status update email: " +:+ Email.show (Mail.error r)) w')
    | (Throw r, w') => (Ok tt, logged ("Email sending error: " +:+ r) w')
    end.
Proof.
  unfold Controller.notifyStatus. plumbing.
  destruct (gw _ _ _ _ _ e w) as [[r|r] w']; [|reflexivity].
  by destruct (Mail.success r).
Qed.

Lemma notifyStatus_requests d s n e w :
  keepsRequests gw ->
  exists w', Controller.notifyStatus gw d s n e w = (Ok tt, w') /\ requests w' = requests w.
Proof.
  intros Hk. rewrite notifyStatus_run.
  specialize (Hk (email (clientInfo d)) (fullName (clientInfo d)) (requestId d) s n e w).
  destruct (gw _ _ _ _ _ e w) as [[r|r] w']; eexists; split; try reflexivity; exact Hk.
Qed.


(** The run of [updateRequestStatus] on a stored, valid document while the
    store answers. *)
Lemma updateRequestStatus_run req e w i d s :
  Req.param "id" req = Some i ->
  Model.isObjectId i = true ->
  requests w !! Model.objectId i = Some d ->
  _id d = Model.objectId i ->
  Model.validate d = [] ->
  Body.status (Req.body req) = Some s ->
  In s Model.statusEnum ->
  storeUp e OpFind = true ->
  storeUp e OpSave = true ->
  let n := Body.adminNote (Req.body req) in
  let d' := transitioned s n (dateNow e) (freshNoteId e) d in
  let saved := stored (<[Model.objectId i := d']> (requests w)) w in
  Controller.updateRequestStatus gw req e w =
    if String.eqb (status d) s
    then (Ok (statusUpdated (catalog w) d'), saved)
    else
      match gw (email (clientInfo d')) (fullName (clientInfo d'))
               (requestId d') s n e saved with
      | (Ok r, w2) =>
          (Ok (statusUpdated (catalog w2) d'),
           logged (if Mail.success r
                   then "Status update email sent to "
                        +:+ Email.show (email (clientInfo d'))
                   else "Failed to send status update email: "
                        +:+ Email.show (Mail.error r)) w2)
      | (Throw r, w2) =>
          (Ok (statusUpdated (catalog w2) d'),
           logged ("Email sending error: " +:+ r) w2)
      end.
Proof.
  intros Hi Hoid Hd Hid Hv Hs Hin Hf Hsv n d' saved.
  apply includes_In in Hin.
  unfold Controller.updateRequestStatus. rewrite Hs.
  rewrite includes_statuses, Hin. cbn [negb].
  plumbing. rewrite Hi, findById_up by done. rewrite Hd.
  rewrite updateStatus_ok by done. rewrite Hid. fold n d' saved.
  destruct (status d =? s) eqn:Hne; cbn [negb].
  - reflexivity.
  - rewrite notifyStatus_run.
    by destruct (gw _ _ _ _ _ e saved) as [[r|r] w2].
Qed.

(** Whatever happens, [updateRequestStatus] answers; with a status outside
    the enumeration it answers 400 and leaves the world as it was, and with a
    status of the enumeration its answer is not 400. *)
Lemma updateRequestStatus_answers req e w :
  exists res w',
    Controller.updateRequestStatus gw req e w = (Ok res, w')
    /\ (Res.statusCode res = 400 <->
        ~ exists s, Body.status (Req.body req) = Some s /\ In s Model.statusEnum)
    /\ (Res.statusCode res = 400 ->
        res = Res.fail 400 "Invalid status provided" /\ w' = w).
Proof.
  unfold Controller.updateRequestStatus.
  destruct (Body.status (Req.body req)) as [s|] eqn:Hs.
  2:{ do 2 eexists. split; [reflexivity|]. cbn. split; [|done]. split; [|done].
      intros _ (s & Hs' & _). done. }
  destruct (Model.includes Controller.validStatuses s) eqn:Hin; cbn [negb].
  2:{ do 2 eexists. split; [reflexivity|]. cbn. split; [|done]. split; [|done].
      intros _ (s' & [= <-] & Hin').
      pose proof (proj2 (includes_In Model.statusEnum s) Hin') as Hyes.
      rewrite includes_statuses in Hin. congruence. }
  assert (Hyes : exists s', Some s = Some s' /\ In s' Model.statusEnum).
  { exists s. split; [done|]. by apply includes_In. }
  assert (Hgoal : forall (res : Res.t) (w' : World),
            Res.statusCode res <> 400 ->
            (Res.statusCode res = 400 <->
             ~ exists s', Some s = Some s' /\ In s' Model.statusEnum)
            /\ (Res.statusCode res = 400 ->
                res = Res.fail 400 "Invalid status provided" /\ w' = w)).
  { intros res w' Hne. split; [|done]. split; [done|].
    intros Hno. by destruct Hno. }
  plumbing.
  destruct (findById_cases (Req.param "id" req) e w)
    as [(found & -> & _)|[r ->]].
  2:{ do 2 eexists. split; [reflexivity|]. by apply Hgoal. }
  destruct found as [d|].
  2:{ do 2 eexists. split; [reflexivity|]. by apply Hgoal. }
  destruct (Methods.updateStatus d s (Body.adminNote (Req.body req)) e w)
    as [[d'|r] w1].
  2:{ do 2 eexists. split; [reflexivity|]. by apply Hgoal. }
  destruct (negb (status d =? s)).
  - rewrite notifyStatus_run.
    destruct (gw _ _ _ _ _ e w1) as [[r|r] w2];
      do 2 eexists; (split; [reflexivity|]); by apply Hgoal.
  - do 2 eexists. split; [reflexivity|]. by apply Hgoal.
Qed.

End WithGateway.


(** The mail helper of [utils/email.js] never throws and leaves the request
    collection alone. *)
Lemma template_found s b c :
  Model.includes Email.inherited s = false ->
  exists subj h, Email.getEmailTemplate s b c = Email.template subj h.
Proof.
  intros H. unfold Email.getEmailTemplate.
  repeat (destruct (String.eqb s _); [by do 2 eexists|]).
  rewrite H. by do 2 eexists.
Qed.

Lemma sendStatusUpdateEmail_run a b c s n e w :
  exists r w',
    Email.sendStatusUpdateEmail a b c s n e w = (Ok r, w')
    /\ requests w' = requests w
    /\ (outbox w' = outbox w
        \/ exists o, outbox w' = outbox w ++ [o] /\ Mail.to o = a)
    /\ (Model.includes Email.inherited s = false ->
        exists o, outbox w' = outbox w ++ [o] /\ Mail.to o = a
                  /\ Mail.subject o
                     = Email.subject (Email.getEmailTemplate s b c)
                  /\ r = match smtp e o with
                         | Mail.Sent mid => Email.sent mid
                         | Mail.Refused reason => Email.failed reason
                         end).
Proof.
  unfold Email.sendStatusUpdateEmail, Email.sendMail.
  destruct (Email.getEmailTemplate s b c) as [subj [h|]] eqn:Ht;
    destruct (Js.truthy n); plumbing; cbn [Email.html Email.subject].
  3:{ do 2 eexists. split; [reflexivity|]. cbn. split; [done|].
      split; [by left|]. intros Hno.
      destruct (template_found s b c Hno) as (subj' & h' & Ht').
      rewrite Ht' in Ht. discriminate Ht. }
  all: match goal with
       | |- context [smtp ?e' ?m] =>
           set (o := m); destruct (smtp e' o) eqn:Hsmtp
       end;
    do 2 eexists; (split; [reflexivity|]);
    cbn; (split; [done|]);
    (split; [right; by exists o|]); intros _; exists o; by rewrite Hsmtp.
Qed.

Lemma sendStatusUpdateEmail_keepsRequests :
  keepsRequests Email.sendStatusUpdateEmail.
Proof.
  intros a b c s n e w.
  destruct (sendStatusUpdateEmail_run a b c s n e w) as (r & w' & -> & H & _).
  exact H.
Qed.

(** C1. A status update of a stored request, with a status of the
    enumeration and the store answering: whatever the status mail helper does
    (answer, report a failure, throw), the handler answers 200 with the
    updated request, the collection holds the request with the new status,
    and all that the handler adds to what the helper left is one console
    line. *)
Theorem C1_notification_failure_isolated (gw : Gateway) req e w i d s :
  keepsRequests gw ->
  Req.param "id" req = Some i ->
  Model.isObjectId i = true ->
  requests w !! Model.objectId i = Some d ->
  _id d = Model.objectId i ->
  Model.validate d = [] ->
  Body.status (Req.body req) = Some s ->
  In s Model.statusEnum ->
  storeUp e OpFind = true ->
  storeUp e OpSave = true ->
  let n := Body.adminNote (Req.body req) in
  let d' := transitioned s n (dateNow e) (freshNoteId e) d in
  let saved := stored (<[Model.objectId i := d']> (requests w)) w in
  exists w',
    Controller.updateRequestStatus gw req e w =
      (Ok (Res.ok 200 "Request status updated successfully"
             (View.toJSON (catalog w') View.plain d')), w')
    /\ requests w' !! Model.objectId i = Some d'
    /\ status d' = s
    /\ (status d <> s ->
        match gw (email (clientInfo d')) (fullName (clientInfo d'))
                 (requestId d') s n e saved with
        | (Ok r, w2) =>
            w' = logged (if Mail.success r
                         then "Status update email sent to "
                              +:+ Email.show (email (clientInfo d'))
                         else "Failed to send status update email: "
                              +:+ Email.show (Mail.error r)) w2
        | (Throw r, w2) => w' = logged ("Email sending error: " +:+ r) w2
        end).
Proof.
  intros Hk Hi Hoid Hd Hid Hv Hs Hin Hf Hsv n d' saved.
  rewrite (updateRequestStatus_run gw req e w i d s) by done.
  fold n d' saved.
  destruct (status d =? s) eqn:Heq.
  - exists saved. split; [reflexivity|]. split; [apply lookup_insert_eq|].
    split; [apply status_transitioned|].
    intros Hne. by apply String.eqb_eq in Heq.
  - pose proof (Hk (email (clientInfo d')) (fullName (clientInfo d'))
                  (requestId d') s n e saved) as Hk'.
    destruct (gw _ _ _ _ _ e saved) as [[r|r] w2]; cbn in Hk';
      (eexists; split; [reflexivity|]; split;
       [cbn; rewrite Hk'; apply lookup_insert_eq|];
       split; [apply status_transitioned|done]).
Qed.

Lemma C1_notification_failure_isolated_witness :
  exists w',
    Controller.updateRequestStatus Sample.brokenGateway
      (Sample.putStatus "reviewing" None)
      Sample.env (Sample.world "submitted" []) =
      (Ok (Res.ok 200 "Request status updated successfully"
             (View.toJSON (catalog w') View.plain
                (Sample.request "reviewing" []))), w')
    /\ requests w' !! Sample.r1 = Some (Sample.request "reviewing" []).
Proof.
  destruct (C1_notification_failure_isolated Sample.brokenGateway
              (Sample.putStatus "reviewing" None)
              Sample.env (Sample.world "submitted" []) Sample.r1
              (Sample.request "submitted" []) "reviewing")
    as (w' & Hrun & Hnow & _).
  - intros a b c s n e w. reflexivity.
  - reflexivity.
  - reflexivity.
  - reflexivity.
  - reflexivity.
  - reflexivity.
  - reflexivity.
  - cbn. tauto.
  - reflexivity.
  - reflexivity.
  - exists w'. split; [exact Hrun | exact Hnow].
Defined.


(** C3. [updateRequestStatus] answers 400 (with the message of an invalid
    status, the world untouched) exactly when the given status is not one of
    the seven values of the enumeration; and from any of the seven to any of
    the seven the update of a stored request goes through: the answer is 200
    and the stored status is the new one. *)
Theorem C3_any_status_to_any_status (gw : Gateway) req e w :
  (exists res w',
     Controller.updateRequestStatus gw req e w = (Ok res, w')
     /\ (Res.statusCode res = 400 <->
         ~ exists s, Body.status (Req.body req) = Some s
                     /\ In s Model.statusEnum)
     /\ (Res.statusCode res = 400 ->
         res = Res.fail 400 "Invalid status provided" /\ w' = w))
  /\ (forall i d s_old s_new,
        keepsRequests gw ->
        In s_old Model.statusEnum ->
        In s_new Model.statusEnum ->
        Req.param "id" req = Some i ->
        Model.isObjectId i = true ->
        requests w !! Model.objectId i = Some d ->
        _id d = Model.objectId i ->
        Model.validate d = [] ->
        status d = s_old ->
        Body.status (Req.body req) = Some s_new ->
        storeUp e OpFind = true ->
        storeUp e OpSave = true ->
        exists res w' d',
          Controller.updateRequestStatus gw req e w = (Ok res, w')
          /\ Res.statusCode res = 200
          /\ Res.success res = true
          /\ requests w' !! Model.objectId i = Some d'
          /\ status d' = s_new).
Proof.
  split; [apply updateRequestStatus_answers|].
  intros i d s_old s_new Hk _ Hnew Hi Hoid Hd Hid Hv _ Hs Hf Hsv.
  rewrite (updateRequestStatus_run gw req e w i d s_new) by done.
  set (n := Body.adminNote (Req.body req)).
  set (d' := transitioned s_new n (dateNow e) (freshNoteId e) d).
  set (saved := stored (<[Model.objectId i := d']> (requests w)) w).
  destruct (status d =? s_new).
  - exists (statusUpdated (catalog w) d'), saved, d'.
    repeat split; [apply lookup_insert_eq | apply status_transitioned].
  - pose proof (Hk (email (clientInfo d')) (fullName (clientInfo d'))
                  (requestId d') s_new n e saved) as Hk'.
    destruct (gw _ _ _ _ _ e saved) as [[r|r] w2]; cbn in Hk';
      (do 2 eexists; exists d'; split; [reflexivity|];
       repeat split; [cbn; rewrite Hk'; apply lookup_insert_eq
                     | apply status_transitioned]).
Qed.

Lemma C3_any_status_to_any_status_witness :
  exists res w' d',
    Routes.updateRequestStatus (Sample.putStatus "submitted" None)
      Sample.env (Sample.world "completed" []) = (Ok res, w')
    /\ Res.statusCode res = 200
    /\ Res.success res = true
    /\ requests w' !! Sample.r1 = Some d'
    /\ status d' = "submitted".
Proof.
  apply (proj2 (C3_any_status_to_any_status Email.sendStatusUpdateEmail
                  (Sample.putStatus "submitted" None)
                  Sample.env (Sample.world "completed" []))
           Sample.r1 (Sample.request "completed" []) "completed" "submitted").
  - exact sendStatusUpdateEmail_keepsRequests.
  - cbn. tauto.
  - cbn. tauto.
  - reflexivity.
  - reflexivity.
  - reflexivity.
  - reflexivity.
  - reflexivity.
  - reflexivity.
  - reflexivity.
  - reflexivity.
  - reflexivity.
Defined.

(** C4. Updating a stored request to the status it already has answers 200
    and does not call the status mail helper: the run is the same whatever
    helper the controller is given, and nothing is handed to the mail
    transport or written to the console. *)
Theorem C4_same_status_no_notification req e w i d :
  Req.param "id" req = Some i ->
  Model.isObjectId i = true ->
  requests w !! Model.objectId i = Some d ->
  _id d = Model.objectId i ->
  Model.validate d = [] ->
  Body.status (Req.body req) = Some (status d) ->
  storeUp e OpFind = true ->
  storeUp e OpSave = true ->
  exists res w',
    (forall gw : Gateway,
       Controller.updateRequestStatus gw req e w = (Ok res, w'))
    /\ Res.statusCode res = 200
    /\ Res.success res = true
    /\ outbox w' = outbox w
    /\ console w' = console w.
Proof.
  intros Hi Hoid Hd Hid Hv Hs Hf Hsv.
  pose proof (proj1 (validate_nil d Hv)) as Hin. apply includes_In in Hin.
  do 2 eexists. split.
  - intros gw.
    rewrite (updateRequestStatus_run gw req e w i d (status d)) by done.
    rewrite String.eqb_refl. reflexivity.
  - done.
Qed.

Lemma C4_same_status_no_notification_witness :
  exists res w',
    (forall gw : Gateway,
       Controller.updateRequestStatus gw (Sample.putStatus "reviewing" None)
         Sample.env (Sample.world "reviewing" []) = (Ok res, w'))
    /\ Res.statusCode res = 200
    /\ Res.success res = true
    /\ outbox w' = []
    /\ console w' = [].
Proof.
  apply (C4_same_status_no_notification (Sample.putStatus "reviewing" None)
           Sample.env (Sample.world "reviewing" []) Sample.r1
           (Sample.request "reviewing" [])); reflexivity.
Defined.

(** *** Documents as they are sent *)

Lemma assoc_app k (l1 l2 : list (string * Json)) :
  JsonUtil.assoc k (l1 ++ l2)
    = match JsonUtil.assoc k l1 with
      | Some v => Some v
      | None => JsonUtil.assoc k l2
      end.
Proof.
  induction l1 as [|[k' v] l1 IH]; [reflexivity|].
  cbn. by destruct (k =? k').
Qed.

Lemma assoc_field k k' v :
  JsonUtil.assoc k (JsonUtil.field k' v)
    = if String.eqb k k' then v else None.
Proof. destruct v; cbn; by destruct (k =? k'). Qed.

Lemma assoc_str k k' v :
  JsonUtil.assoc k (JsonUtil.str k' v)
    = if String.eqb k k' then JStr <$> v else None.
Proof. apply assoc_field. Qed.

Lemma assoc_num k k' v :
  JsonUtil.assoc k (JsonUtil.num k' v)
    = if String.eqb k k' then JNum <$> v else None.
Proof. apply assoc_field. Qed.

Lemma assoc_date k k' v :
  JsonUtil.assoc k (JsonUtil.date k' v)
    = if String.eqb k k' then JDate <$> v else None.
Proof. apply assoc_field. Qed.

Lemma assoc_nested k k' fs :
  JsonUtil.assoc k (JsonUtil.nested k' fs)
    = if String.eqb k k'
      then match fs with [] => None | _ => Some (JObj fs) end
      else None.
Proof. destruct fs; cbn; by destruct (k =? k'). Qed.

(** Below a nested object, a key has the value the object gives it; when
    the object is left out for having no field, there is none. *)
Lemma at_nested k fs (sent : Json) key :
  JsonUtil.get key sent = match fs with [] => None | _ => Some (JObj fs) end ->
  JsonUtil.at_ [key; k] sent = JsonUtil.assoc k fs.
Proof.
  intros H. cbn [JsonUtil.at_]. rewrite H. destruct fs as [|f fs]; [done|].
  cbn [JsonUtil.get]. by destruct (JsonUtil.assoc k (f :: fs)).
Qed.

Ltac json_get :=
  unfold View.toJSON, JsonUtil.get;
  rewrite ?assoc_app, ?assoc_nested, ?assoc_str;
  cbn [JsonUtil.assoc String.eqb Ascii.eqb Bool.eqb andb];
  rewrite ?assoc_app, ?assoc_nested, ?assoc_str;
  cbn [JsonUtil.assoc String.eqb Ascii.eqb Bool.eqb andb].

(** The keys of a sent document, one by one. *)
Lemma toJSON_gets c sh d :
  let sent := View.toJSON c sh d in
  JsonUtil.get "_id" sent = Some (JStr (_id d))
  /\ JsonUtil.get "requestId" sent = Some (JStr (requestId d))
  /\ JsonUtil.get "requestType" sent = JStr <$> requestType d
  /\ JsonUtil.get "status" sent = Some (JStr (status d))
  /\ JsonUtil.get "priority" sent = Some (JStr (priority d))
  /\ JsonUtil.get "assignedTo" sent = JStr <$> assignedTo d
  /\ JsonUtil.get "adminNotes" sent
     = (if View.hideAdminNotes sh then None
        else Some (JArr (View.ofAdminNote <$> adminNotes d)))
  /\ JsonUtil.get "deliverables" sent
     = Some (JArr (View.ofDeliverable <$> deliverables d))
  /\ JsonUtil.get "id" sent = Some (JStr (_id d))
  /\ (forall k, JsonUtil.at_ ["selectionPath"; k] sent
                = JsonUtil.assoc k (View.ofSelectionPath c sh (selectionPath d)))
  /\ (forall k, JsonUtil.at_ ["clientInfo"; k] sent
                = JsonUtil.assoc k (View.ofClientInfo (clientInfo d)))
  /\ (forall k, JsonUtil.at_ ["requirements"; k] sent
                = JsonUtil.assoc k (View.ofRequirements (requirements d)))
  /\ (forall k, JsonUtil.at_ ["timeline"; k] sent
                = JsonUtil.assoc k (View.ofTimeline (timeline d)))
  /\ (forall k, JsonUtil.at_ ["pricing"; k] sent
                = JsonUtil.assoc k (View.ofPricing (pricing d))).
Proof.
  cbv zeta.
  repeat split; try (intros k; apply at_nested); json_get.
  all: try reflexivity.
  all: destruct (View.hideAdminNotes sh);
    cbn [JsonUtil.assoc String.eqb Ascii.eqb Bool.eqb andb];
    repeat match goal with
           | |- context [match ?x with _ => _ end] => destruct x
           end;
    reflexivity.
Qed.

Lemma ofClientInfo_gets c :
  JsonUtil.assoc "fullName" (View.ofClientInfo c) = JStr <$> fullName c
  /\ JsonUtil.assoc "email" (View.ofClientInfo c) = JStr <$> email c
  /\ JsonUtil.assoc "phone" (View.ofClientInfo c) = JStr <$> phone c
  /\ JsonUtil.assoc "businessName" (View.ofClientInfo c)
     = JStr <$> businessName c
  /\ JsonUtil.assoc "industry" (View.ofClientInfo c) = JStr <$> industry c.
Proof.
  unfold View.ofClientInfo. rewrite !assoc_app, !assoc_str.
  cbn [String.eqb Ascii.eqb Bool.eqb andb].
  destruct (fullName c), (email c), (phone c), (businessName c),
    (industry c); by repeat split.
Qed.

Lemma ofRequirements_gets r :
  JsonUtil.assoc "businessDescription" (View.ofRequirements r)
    = JStr <$> businessDescription r
  /\ JsonUtil.assoc "colors" (View.ofRequirements r)
     = Some (JObj [("preferred", JArr (JStr <$> colorsPreferred r));
                   ("avoid", JArr (JStr <$> colorsAvoid r))])
  /\ JsonUtil.assoc "tone" (View.ofRequirements r) = JStr <$> tone r
  /\ JsonUtil.assoc "additionalNotes" (View.ofRequirements r)
     = JStr <$> additionalNotes r
  /\ JsonUtil.assoc "customFields" (View.ofRequirements r)
     = Some (JArr (View.ofCustomField <$> customFields r)).
Proof.
  unfold View.ofRequirements. rewrite !assoc_app, !assoc_str.
  cbn [JsonUtil.assoc String.eqb Ascii.eqb Bool.eqb andb].
  destruct (businessDescription r), (tone r), (additionalNotes r);
    by repeat split.
Qed.

Lemma ofTimeline_gets t :
  JsonUtil.assoc "estimatedDelivery" (View.ofTimeline t)
    = JDate <$> estimatedDelivery t
  /\ JsonUtil.assoc "actualDelivery" (View.ofTimeline t)
     = JDate <$> actualDelivery t.
Proof.
  unfold View.ofTimeline. rewrite !assoc_app, !assoc_date.
  cbn [String.eqb Ascii.eqb Bool.eqb andb].
  destruct (estimatedDelivery t), (actualDelivery t); by repeat split.
Qed.

Lemma ofPricing_gets p :
  JsonUtil.assoc "quotedAmount" (View.ofPricing p) = JNum <$> quotedAmount p
  /\ JsonUtil.assoc "finalAmount" (View.ofPricing p) = JNum <$> finalAmount p
  /\ JsonUtil.assoc "currency" (View.ofPricing p) = Some (JStr (currency p)).
Proof.
  unfold View.ofPricing. rewrite !assoc_app, !assoc_num.
  cbn [JsonUtil.assoc String.eqb Ascii.eqb Bool.eqb andb].
  destruct (quotedAmount p), (finalAmount p); by repeat split.
Qed.

Lemma assoc_selected select c k :
  JsonUtil.assoc k (Mongoose.selected select c)
    = if Model.includes select k then JsonUtil.assoc k (paths c) else None.
Proof.
  unfold Mongoose.selected.
  induction (paths c) as [|[k' v] l IH].
  - by destruct (Model.includes select k).
  - cbn [List.filter fst JsonUtil.assoc].
    destruct (k =? k') eqn:Hk.
    + apply String.eqb_eq in Hk as ->.
      destruct (Model.includes select k'); [|exact IH].
      cbn [JsonUtil.assoc]. by rewrite String.eqb_refl.
    + destruct (Model.includes select k'); [|exact IH].
      cbn [JsonUtil.assoc]. by rewrite Hk.
Qed.

(** A reference that resolves is sent as an object with the [_id] of the
    entry and the selected paths that the entry has stored. *)
Lemma populated_gets coll select i c :
  coll !! i = Some c ->
  exists obj,
    Mongoose.populated coll select i = obj
    /\ JsonUtil.get "_id" obj = Some (JStr i)
    /\ forall k v,
         k <> "_id" ->
         Model.includes select k = true ->
         JsonUtil.assoc k (paths c) = Some v ->
         JsonUtil.get k obj = Some v.
Proof.
  intros Hc. eexists. split; [reflexivity|].
  unfold Mongoose.populated. rewrite Hc. split; [reflexivity|].
  intros k v Hk Hsel Hv. apply String.eqb_neq in Hk.
  cbn [JsonUtil.get app JsonUtil.assoc]. rewrite Hk.
  by rewrite assoc_app, assoc_selected, Hsel, Hv.
Qed.

(** *** Creation *)

Lemma checkSelection_run sp rt e w :
  Controller.checkSelection sp rt e w = (selectionAnswer sp rt, w).
Proof.
  unfold Controller.checkSelection, selectionAnswer, Controller.member.
  plumbing.
  repeat case_bool_decide; destruct sp as [sp|]; try reflexivity.
  - by destruct (negb _ || negb _).
  - by destruct (negb _).
Qed.

(** The run of [createRequest], case by case. *)
Lemma createRequest_run req e w :
  Controller.createRequest req e w =
    match selectionAnswer (Body.selectionPath (Req.body req))
            (Body.requestType (Req.body req)) with
    | Ok (Some res) => (Ok res, w)
    | Throw r => submitFailed r w
    | Ok None =>
        let d := created req e in
        match Model.validate d with
        | [] =>
            if storeUp e OpSave then
              if Model.isSome (requests w !! _id d)
                 || Mongoose.requestIdTaken (requestId d) (requests w)
              then submitFailed (duplicateKeyMessage e d) w
              else if storeUp e OpPopulate then
                (Ok (Res.ok 201 "Service request submitted successfully"
                       (View.toJSON (catalog w) (View.all ["title"; "slug"] false) d)),
                 stored (<[_id d := d]> (requests w)) w)
              else submitFailed "MongoError"
                     (stored (<[_id d := d]> (requests w)) w)
            else submitFailed "MongoError" w
        | _ :: _ => submitFailed (validationMessage e d) w
        end
    end.
Proof.
  unfold Controller.createRequest. plumbing. rewrite checkSelection_run.
  destruct (selectionAnswer _ _) as [[res|]|r]; try reflexivity.
  fold (created req e). unfold Mongoose.saveNew, Mongoose.validated.
  destruct (Model.validate (created req e)) as [|p ps]; [|reflexivity].
  plumbing. unfold Mongoose.driver. plumbing.
  destruct (storeUp e OpSave); [|reflexivity].
  destruct (Model.isSome _ || _); [reflexivity|].
  unfold View.populate, Mongoose.driver. plumbing. cbn.
  destruct (storeUp e OpPopulate); reflexivity.
Qed.

Lemma ofSelectionPath_get c sh p :
  JsonUtil.assoc "selectedCategory" (View.ofSelectionPath c sh p)
    = View.assocRef (categories c) (View.category sh) (selectedCategory p)
  /\ JsonUtil.assoc "selectedService" (View.ofSelectionPath c sh p)
       = View.assocRef (services c) (View.service sh) (selectedService p)
  /\ JsonUtil.assoc "selectedTemplate" (View.ofSelectionPath c sh p)
       = View.assocRef (templates c) (View.template sh) (selectedTemplate p)
  /\ JsonUtil.assoc "selectedCombo" (View.ofSelectionPath c sh p)
       = View.assocRef (combos c) (View.combo sh) (selectedCombo p).
Proof.
  destruct p as [[?|] [?|] [?|] [?|]]; cbn; repeat split; reflexivity.
Qed.

(** [createRequest] always answers: with the early return of the selection
    check, or else with 201 or 500. *)
Lemma createRequest_cases req e w :
  match selectionAnswer (Body.selectionPath (Req.body req))
          (Body.requestType (Req.body req)) with
  | Ok (Some early) => Controller.createRequest req e w = (Ok early, w)
  | _ =>
      exists res w',
        Controller.createRequest req e w = (Ok res, w')
        /\ (Res.statusCode res = 201 \/ Res.statusCode res = 500)
  end.
Proof.
  rewrite createRequest_run.
  destruct (selectionAnswer _ _) as [[early|]|r]; [reflexivity| |].
  - cbv zeta. unfold submitFailed.
    destruct (Model.validate _); [|do 2 eexists; split; [reflexivity|by right]].
    destruct (storeUp e OpSave); [|do 2 eexists; split; [reflexivity|by right]].
    destruct (_ || _); [do 2 eexists; split; [reflexivity|by right]|].
    destruct (storeUp e OpPopulate);
      do 2 eexists; (split; [reflexivity|]); [by left|by right].
  - do 2 eexists. split; [reflexivity|by right].
Qed.

(** When the selection check returns early, and with what. *)
Lemma selectionAnswer_early sp rt early :
  selectionAnswer (Some sp) rt = Ok (Some early) <->
  (rt = Some "service"
   /\ (Js.truthy (selectedCategory sp) = false
       \/ Js.truthy (selectedService sp) = false)
   /\ early = Res.fail 400
        "Category and Service selection is required for service requests")
  \/ (rt = Some "combo"
      /\ Js.truthy (selectedCombo sp) = false
      /\ early = Res.fail 400 "Combo selection is required for combo requests").
Proof.
  unfold selectionAnswer.
  case_bool_decide as Hsvc; [|case_bool_decide as Hcmb].
  - destruct (Js.truthy (selectedCategory sp)), (Js.truthy (selectedService sp));
      cbn [negb orb]; split;
      try (intros [= <-]; left; by auto);
      try (intros [(_ & _ & ->)|(? & _)]; [reflexivity|congruence]);
      try done.
    intros [(_ & [?|?] & _)|(? & _)]; [done|done|congruence].
  - destruct (Js.truthy (selectedCombo sp)); cbn [negb]; split;
      try (intros [= <-]; right; by auto);
      try (intros [(? & _)|(_ & _ & ->)]; [congruence|reflexivity]);
      try done.
    intros [(? & _)|(_ & ? & _)]; [congruence|done].
  - split; [done|]. intros [(? & _)|(? & _)]; congruence.
Qed.

(** C2, as the handler has it. For a body with a selection path:
    [createRequest] answers 400, with the message that names the required
    selection and the world left as it was, when the request type is
    ["service"] and the category or the service is absent, or the type is
    ["combo"] and the combo is absent; and it answers 400 in no other case,
    so a reference that is present is never refused for what the catalog
    holds. *)
Theorem C2_selection_presence_only req e w sp :
  Body.selectionPath (Req.body req) = Some sp ->
  let rt := Body.requestType (Req.body req) in
  let serviceMissing :=
    rt = Some "service"
    /\ (Js.truthy (selectedCategory sp) = false
        \/ Js.truthy (selectedService sp) = false) in
  let comboMissing :=
    rt = Some "combo" /\ Js.truthy (selectedCombo sp) = false in
  exists res w',
    Controller.createRequest req e w = (Ok res, w')
    /\ (serviceMissing ->
        res = Res.fail 400
                "Category and Service selection is required for service requests"
        /\ w' = w)
    /\ (comboMissing ->
        res = Res.fail 400 "Combo selection is required for combo requests"
        /\ w' = w)
    /\ (Res.statusCode res = 400 -> serviceMissing \/ comboMissing).
Proof.
  intros Hsp rt serviceMissing comboMissing.
  pose proof (createRequest_cases req e w) as Hrun. rewrite Hsp in Hrun.
  fold rt in Hrun.
  pose proof (selectionAnswer_early sp rt) as Hearly.
  destruct (selectionAnswer (Some sp) rt) as [[early|]|r].
  - exists early, w. split; [exact Hrun|].
    destruct (proj1 (Hearly early) eq_refl)
      as [(Hrt & Hmiss & ->)|(Hrt & Hmiss & ->)].
    + split; [done|]. split; [intros [? _]; congruence|].
      intros _. left. by split.
    + split; [intros [? _]; congruence|]. split; [done|].
      intros _. right. by split.
  - destruct Hrun as (res & w' & Hrun & Hcode). exists res, w'.
    split; [exact Hrun|].
    split; [|split].
    + intros [Hrt Hmiss]. exfalso.
      assert (Ok None = Ok (Some (Res.fail 400
                "Category and Service selection is required for service requests")))
        as Habs by (apply Hearly; left; by auto).
      discriminate Habs.
    + intros [Hrt Hmiss]. exfalso.
      assert (Ok None = Ok (Some (Res.fail 400
                "Combo selection is required for combo requests")))
        as Habs by (apply Hearly; right; by auto).
      discriminate Habs.
    + intros H400. destruct Hcode as [Hcode|Hcode]; rewrite Hcode in H400;
        discriminate H400.
  - destruct Hrun as (res & w' & Hrun & Hcode). exists res, w'.
    split; [exact Hrun|].
    split; [|split].
    + intros [Hrt Hmiss]. exfalso.
      assert (Throw r = Ok (Some (Res.fail 400
                "Category and Service selection is required for service requests")))
        as Habs by (apply Hearly; left; by auto).
      discriminate Habs.
    + intros [Hrt Hmiss]. exfalso.
      assert (Throw r = Ok (Some (Res.fail 400
                "Combo selection is required for combo requests")))
        as Habs by (apply Hearly; right; by auto).
      discriminate Habs.
    + intros H400. destruct Hcode as [Hcode|Hcode]; rewrite Hcode in H400;
        discriminate H400.
Qed.

Lemma C2_selection_presence_only_witness :
  exists res w',
    Controller.createRequest
      (Sample.post (Some "combo")
         (Some (Sample.path (Some Sample.c1) None None)))
      Sample.env Sample.emptyWorld = (Ok res, w')
    /\ res = Res.fail 400 "Combo selection is required for combo requests"
    /\ w' = Sample.emptyWorld.
Proof.
  destruct (C2_selection_presence_only
              (Sample.post (Some "combo")
                 (Some (Sample.path (Some Sample.c1) None None)))
              Sample.env Sample.emptyWorld
              (Sample.path (Some Sample.c1) None None) eq_refl)
    as (res & w' & Hrun & _ & Hcombo & _).
  exists res, w'. split; [exact Hrun|].
  apply Hcombo. split; reflexivity.
Defined.

(** C2 as it is stated fails: a request of type ["service"] whose service
    reference names no entry of the catalog, and one whose service reference
    names an inactive entry, are both created. *)
Lemma C2_counterexample_unchecked_reference :
  let submit svc :=
    Controller.createRequest
      (Sample.post (Some "service")
         (Some (Sample.path (Some Sample.c1) (Some svc) None)))
      Sample.env Sample.emptyWorld in
  (services Sample.shop !! Sample.ghost = None
   /\ ~ activeIn (services Sample.shop) (Some Sample.ghost)
   /\ exists res d,
        (submit Sample.ghost).1 = Ok res
        /\ Res.statusCode res = 201
        /\ requests (submit Sample.ghost).2 !! Sample.r1 = Some d
        /\ requestType d = Some "service"
        /\ selectedService (selectionPath d) = Some Sample.ghost)
  /\ (isActive <$> services Sample.shop !! Sample.s2 = Some false
      /\ ~ activeIn (services Sample.shop) (Some Sample.s2)
      /\ exists res d,
           (submit Sample.s2).1 = Ok res
           /\ Res.statusCode res = 201
           /\ requests (submit Sample.s2).2 !! Sample.r1 = Some d
           /\ requestType d = Some "service"
           /\ selectedService (selectionPath d) = Some Sample.s2).
Proof.
  cbv zeta. split; (split; [reflexivity|]); split.
  - intros (i & c & [= <-] & Hc & _). vm_compute in Hc. discriminate Hc.
  - vm_compute. do 2 eexists. repeat split.
  - intros (i & c & [= <-] & Hc & Hact). vm_compute in Hc.
    injection Hc as <-. discriminate Hact.
  - vm_compute. do 2 eexists. repeat split.
Qed.

Lemma selectionAnswer_400 sp rt early :
  selectionAnswer sp rt = Ok (Some early) -> Res.statusCode early = 400.
Proof.
  unfold selectionAnswer. intros Hsel.
  case_bool_decide; [|case_bool_decide; [|discriminate Hsel]];
    (destruct sp as [sp|]; [|discriminate Hsel]).
  - destruct (negb _ || negb _); [|discriminate Hsel].
    by injection Hsel as <-.
  - destruct (negb _); [|discriminate Hsel].
    by injection Hsel as <-.
Qed.

(** What lies behind an answer 201 of [createRequest]. *)
Lemma createRequest_201 req e w res w' :
  Controller.createRequest req e w = (Ok res, w') ->
  Res.statusCode res = 201 ->
  let d := created req e in
  Model.validate d = []
  /\ requests w !! _id d = None
  /\ Mongoose.requestIdTaken (requestId d) (requests w) = false
  /\ res = Res.ok 201 "Service request submitted successfully"
             (View.toJSON (catalog w) (View.all ["title"; "slug"] false) d)
  /\ w' = stored (<[_id d := d]> (requests w)) w.
Proof.
  intros Hrun Hcode d. rewrite createRequest_run in Hrun.
  destruct (selectionAnswer _ _) as [[early|]|r] eqn:Hsel.
  - injection Hrun as <- <-. apply selectionAnswer_400 in Hsel.
    rewrite Hsel in Hcode. discriminate Hcode.
  - cbv zeta in Hrun. fold d in Hrun. unfold submitFailed in Hrun.
    destruct (Model.validate d);
      [|injection Hrun as <- <-; discriminate Hcode].
    destruct (storeUp e OpSave);
      [|injection Hrun as <- <-; discriminate Hcode].
    destruct (requests w !! _id d) eqn:Hfree; cbn [Model.isSome orb] in Hrun;
      [injection Hrun as <- <-; discriminate Hcode|].
    destruct (Mongoose.requestIdTaken _ _);
      [injection Hrun as <- <-; discriminate Hcode|].
    destruct (storeUp e OpPopulate);
      [|injection Hrun as <- <-; discriminate Hcode].
    injection Hrun as <- <-. done.
  - unfold submitFailed in Hrun. injection Hrun as <- <-. discriminate Hcode.
Qed.

(** The collection after [createRequest]: as it was, or with the new
    document under its [_id], which was free. *)
Lemma createRequest_requests req e w :
  let d := created req e in
  requests (Controller.createRequest req e w).2 = requests w
  \/ (requests w !! _id d = None
      /\ requests (Controller.createRequest req e w).2
         = <[_id d := d]> (requests w)).
Proof.
  cbv zeta. rewrite createRequest_run.
  destruct (selectionAnswer _ _) as [[early|]|r]; try by left.
  cbv zeta. unfold submitFailed.
  destruct (Model.validate _); [|by left].
  destruct (storeUp e OpSave); [|by left].
  destruct (requests w !! _id (created req e)) eqn:Hfree;
    cbn [Model.isSome orb]; [by left|].
  destruct (Mongoose.requestIdTaken _ _); [by left|].
  destruct (storeUp e OpPopulate); right; by split.
Qed.

Lemma createRequest_outbox req e w :
  outbox (Controller.createRequest req e w).2 = outbox w.
Proof.
  rewrite createRequest_run.
  destruct (selectionAnswer _ _) as [[early|]|r]; try reflexivity.
  cbv zeta. unfold submitFailed.
  destruct (Model.validate _); [|reflexivity].
  destruct (storeUp e OpSave); [|reflexivity].
  destruct (_ || _); [reflexivity|].
  destruct (storeUp e OpPopulate); reflexivity.
Qed.

(** C7. [createRequest] never hands anything to the mail transport. The
    document it builds has status ["submitted"], no admin notes and priority
    ["medium"], and the only change it ever makes to the collection is to add
    that document under a new [_id]. When the selection is complete, the
    document valid, its identifiers free and the store answering, the answer
    is 201; and an answer 201 means that the document was added, and carries
    it with these three values and with each catalog reference that resolves
    replaced by an object that has the [_id] of the entry and its [title]
    and [slug]. *)
Theorem C7_created_with_defaults req e w :
  let d := created req e in
  let run := Controller.createRequest req e w in
  outbox run.2 = outbox w
  /\ status d = "submitted"
  /\ adminNotes d = []
  /\ priority d = "medium"
  /\ (requests run.2 = requests w
      \/ (requests w !! freshObjectId e = None
          /\ requests run.2 = <[freshObjectId e := d]> (requests w)))
  /\ (selectionAnswer (Body.selectionPath (Req.body req))
        (Body.requestType (Req.body req)) = Ok None ->
      Model.validate d = [] ->
      requests w !! freshObjectId e = None ->
      Mongoose.requestIdTaken (requestId d) (requests w) = false ->
      storeUp e OpSave = true ->
      storeUp e OpPopulate = true ->
      exists res,
        run = (Ok res, stored (<[freshObjectId e := d]> (requests w)) w)
        /\ Res.statusCode res = 201
        /\ Res.success res = true)
  /\ (forall res,
        run.1 = Ok res ->
        Res.statusCode res = 201 ->
        requests w !! freshObjectId e = None
        /\ requests run.2 = <[freshObjectId e := d]> (requests w)
        /\ exists sent,
             res = Res.ok 201 "Service request submitted successfully" sent
             /\ JsonUtil.get "_id" sent = Some (JStr (freshObjectId e))
             /\ JsonUtil.get "requestId" sent = Some (JStr (requestId d))
             /\ JsonUtil.get "status" sent = Some (JStr "submitted")
             /\ JsonUtil.get "priority" sent = Some (JStr "medium")
             /\ JsonUtil.get "adminNotes" sent = Some (JArr [])
             /\ forall key coll i c,
                  In (key, coll, i)
                    [("selectedCategory", categories (catalog w),
                      selectedCategory (selectionPath d));
                     ("selectedService", services (catalog w),
                      selectedService (selectionPath d));
                     ("selectedTemplate", templates (catalog w),
                      selectedTemplate (selectionPath d));
                     ("selectedCombo", combos (catalog w),
                      selectedCombo (selectionPath d))] ->
                  forall r, i = Some r ->
                  coll !! r = Some c ->
                  exists obj,
                    JsonUtil.at_ ["selectionPath"; key] sent = Some obj
                    /\ JsonUtil.get "_id" obj = Some (JStr r)
                    /\ (forall v, JsonUtil.assoc "title" (paths c) = Some v ->
                                  JsonUtil.get "title" obj = Some v)
                    /\ (forall v, JsonUtil.assoc "slug" (paths c) = Some v ->
                                  JsonUtil.get "slug" obj = Some v)).
Proof.
  cbv zeta. split; [apply createRequest_outbox|].
  do 3 (split; [reflexivity|]).
  split; [apply createRequest_requests|]. split.
  - intros Hsel Hvalid Hnone Hfree Hsave Hpop.
    rewrite createRequest_run, Hsel. cbv zeta.
    rewrite Hvalid, Hsave, Hfree, Hpop.
    change (_id (created req e)) with (freshObjectId e). rewrite Hnone.
    eexists. split; [reflexivity|]. by split.
  - intros res Hres Hcode.
    destruct (Controller.createRequest req e w) as [out w'] eqn:Hrun.
    cbn [fst snd] in *. subst out.
    destruct (createRequest_201 _ _ _ _ _ Hrun Hcode)
      as (_ & Hnone & _ & -> & ->).
    split; [exact Hnone|]. split; [reflexivity|].
    eexists. split; [reflexivity|].
    destruct (toJSON_gets (catalog w) (View.all ["title"; "slug"] false)
                (created req e))
      as (Hid & Hrid & _ & Hst & Hpr & _ & Hnotes & _ & _ & Hsel & _).
    split; [exact Hid|]. split; [exact Hrid|]. split; [exact Hst|].
    split; [exact Hpr|]. split; [exact Hnotes|].
    remember (selectionPath (created req e)) as sp eqn:Hsp. clear Hsp.
    intros key coll i c Hin r -> Hc.
    destruct (populated_gets coll ["title"; "slug"] r c Hc)
      as (obj & Hobj & Hoid & Hpaths).
    exists obj. rewrite Hsel.
    destruct (ofSelectionPath_get (catalog w)
                (View.all ["title"; "slug"] false) sp) as (H1 & H2 & H3 & H4).
    split.
    + cbn [In] in Hin.
      destruct Hin as [Hin|[Hin|[Hin|[Hin|[]]]]];
        injection Hin as <- <- Href;
        [rewrite H1|rewrite H2|rewrite H3|rewrite H4];
        rewrite Href; cbn [View.assocRef View.all View.category
          View.service View.template View.combo]; by rewrite Hobj.
    + split; [exact Hoid|].
      split; intros v Hv; by apply Hpaths.
Qed.

Lemma C7_created_with_defaults_witness :
  let req := Sample.post (Some "service")
               (Some (Sample.path (Some Sample.c1) (Some Sample.s1) None)) in
  let d := created req Sample.env in
  exists res,
    Controller.createRequest req Sample.env Sample.emptyWorld
    = (Ok res, stored {[Sample.r1 := d]} Sample.emptyWorld)
    /\ Res.statusCode res = 201
    /\ Res.success res = true.
Proof.
  cbv zeta.
  destruct (C7_created_with_defaults
              (Sample.post (Some "service")
                 (Some (Sample.path (Some Sample.c1) (Some Sample.s1) None)))
              Sample.env Sample.emptyWorld)
    as (_ & _ & _ & _ & _ & Hcreated & _).
  apply Hcreated; reflexivity.
Defined.

(** A request type outside the enumeration: the selection check lets the
    call through and the save fails on the path [requestType]. *)
Lemma createRequest_other_type req e w :
  Body.requestType (Req.body req) <> Some "service" ->
  Body.requestType (Req.body req) <> Some "combo" ->
  selectionAnswer (Body.selectionPath (Req.body req))
    (Body.requestType (Req.body req)) = Ok None
  /\ In "requestType" (Model.validate (created req e))
  /\ Controller.createRequest req e w
     = (Ok (Res.failWith 500 "Failed to submit service request"
              (validationMessage e (created req e))),
        logged ("Create Request Error: "
                +:+ validationMessage e (created req e)) w).
Proof.
  intros Hsvc Hcmb.
  assert (Hsel : selectionAnswer (Body.selectionPath (Req.body req))
                   (Body.requestType (Req.body req)) = Ok None).
  { unfold selectionAnswer. by repeat case_bool_decide. }
  assert (Hin : In "requestType" (Model.validate (created req e))).
  { unfold Model.validate. cbn [requestType created Model.newServiceRequest].
    do 4 (apply in_or_app; right). apply in_or_app; left.
    destruct (Body.requestType (Req.body req)) as [rt|]; [|cbn; by left].
    destruct (Model.required (Some rt)); [|cbn; by left].
    unfold Model.enumOf, Model.includes, Model.requestTypeEnum, existsb.
    destruct (rt =? "service") eqn:H1; [apply String.eqb_eq in H1; by subst|].
    destruct (rt =? "combo") eqn:H2; [apply String.eqb_eq in H2; by subst|].
    cbn. by left. }
  split; [exact Hsel|]. split; [exact Hin|].
  rewrite createRequest_run, Hsel. cbv zeta.
  destruct (Model.validate (created req e)) as [|p ps]; [destruct Hin|].
  reflexivity.
Qed.

(** *** The public tracking lookup *)





(** The run of [getRequestByRequestId], case by case. *)
Lemma getRequestByRequestId_run req e w :
  Controller.getRequestByRequestId req e w =
    if storeUp e OpFind then
      match head (filter (fun d => Some (requestId d) = Req.param "requestId" req)
                         (map_to_list (requests w)).*2) with
      | None => (Ok (Res.fail 404 "Service request not found"), w)
      | Some d =>
          if storeUp e OpPopulate
          then (Ok (Res.okData 200
                      (View.toJSON (catalog w) (View.all ["title"] true) d)), w)
          else fetchFailed "MongoError" w
      end
    else fetchFailed "MongoError" w.
Proof.
  unfold Controller.getRequestByRequestId, Mongoose.findOneByRequestId,
    View.populate, Mongoose.driver.
  plumbing.
  destruct (storeUp e OpFind); [|reflexivity].
  destruct (head _); [|reflexivity].
  destruct (storeUp e OpPopulate); reflexivity.
Qed.

Lemma at_app p q j :
  JsonUtil.at_ (p ++ q) j
  = match JsonUtil.at_ p j with
    | Some v => JsonUtil.at_ q v
    | None => None
    end.
Proof.
  revert j. induction p as [|k p IH]; intros j; [reflexivity|].
  cbn [app JsonUtil.at_]. destruct (JsonUtil.get k j); [apply IH|done].
Qed.

Lemma ofCustomField_shows f : showsField f (View.ofCustomField f).
Proof.
  unfold showsField, View.ofCustomField, JsonUtil.get.
  rewrite !assoc_app, !assoc_str. cbn [String.eqb Ascii.eqb Bool.eqb andb].
  destruct (fieldName f), (fieldLabel f), (fieldValue f), (fieldType f),
    (fieldId f); by repeat split.
Qed.

Lemma ofDeliverable_shows x : showsDeliverable x (View.ofDeliverable x).
Proof.
  unfold showsDeliverable, View.ofDeliverable, JsonUtil.get.
  rewrite !assoc_app, !assoc_str.
  cbn [JsonUtil.assoc String.eqb Ascii.eqb Bool.eqb andb].
  destruct (fileName x), (fileUrl x), (publicId x); by repeat split.
Qed.

Lemma ofAdminNote_shows n : showsNote n (View.ofAdminNote n).
Proof.
  unfold showsNote, View.ofAdminNote, JsonUtil.get.
  rewrite !assoc_app, !assoc_str.
  cbn [JsonUtil.assoc String.eqb Ascii.eqb Bool.eqb andb].
  destruct (note n), (addedBy n); by repeat split.
Qed.

Lemma Forall2_shown {A} (P : A -> Json -> Prop) (f : A -> Json) l :
  (forall x, P x (f x)) -> Forall2 P l (f <$> l).
Proof.
  intros H. induction l as [|x l IH]; [constructor|].
  rewrite fmap_cons. by constructor.
Qed.

(** A sent document shows every path of the request other than the admin
    notes and the selection path. *)
Lemma toJSON_intact c sh d : intact d (View.toJSON c sh d).
Proof.
  destruct (toJSON_gets c sh d)
    as (Hid & Hrid & Hrt & Hst & Hpr & Has & _ & Hdel & _ & _ & Hci & Hrq
        & Htl & Hpc).
  destruct (ofClientInfo_gets (clientInfo d)) as (C1 & C2 & C3 & C4 & C5).
  destruct (ofRequirements_gets (requirements d))
    as (R1 & R2 & R3 & R4 & R5).
  destruct (ofTimeline_gets (timeline d)) as (T1 & T2).
  destruct (ofPricing_gets (pricing d)) as (P1 & P2 & P3).
  unfold intact.
  rewrite Hid, Hrid, Hrt, Hst, Hpr, Has, !Hci, !Hrq, !Htl, !Hpc, Hdel.
  rewrite C1, C2, C3, C4, C5, R1, R3, R4, R5, T1, T2, P1, P2, P3.
  change ["requirements"; "colors"; "preferred"]
    with (["requirements"; "colors"] ++ ["preferred"]).
  change ["requirements"; "colors"; "avoid"]
    with (["requirements"; "colors"] ++ ["avoid"]).
  rewrite !at_app, Hrq, R2.
  cbn [JsonUtil.at_ JsonUtil.get JsonUtil.assoc String.eqb Ascii.eqb
       Bool.eqb andb].
  repeat split.
  - eexists. split; [reflexivity|].
    apply Forall2_shown, ofCustomField_shows.
  - eexists. split; [reflexivity|].
    apply Forall2_shown, ofDeliverable_shows.
Qed.





(** *** Admin notes only grow *)

Lemma writes_keyed m m' : keyed m -> writes m m' -> keyed m'.
Proof.
  intros Hk [->|[(i & d & d' & extra & Hd & Hid & _ & _ & ->)|(d & _ & _ & ->)]].
  - exact Hk.
  - apply map_Forall_insert_2; [exact Hid|exact Hk].
  - by apply map_Forall_insert_2.
Qed.

Lemma writes_sound m m' : sound m -> writes m m' -> sound m'.
Proof.
  intros Hs [->|[(i & d & d' & extra & Hd & Hid & _ & Hv & ->)|(d & _ & Hv & ->)]].
  - exact Hs.
  - destruct (map_Forall_lookup_1 _ _ _ _ Hs Hd) as [_ Hvd].
    apply map_Forall_insert_2; [|exact Hs]. split; [exact Hid|by apply Hv].
  - by apply map_Forall_insert_2.
Qed.

Lemma writes_notesExtend m m' : keyed m -> writes m m' -> notesExtend m m'.
Proof.
  intros Hk [->|[(i & d & d' & extra & Hd & Hid & Hn & _ & ->)|(d & Hfree & _ & ->)]]
    j dj Hj.
  - exists dj, []. by rewrite app_nil_r.
  - pose proof (map_Forall_lookup_1 _ _ _ _ Hk Hd) as Hi. cbn in Hi.
    destruct (decide (j = i)) as [->|Hne].
    + assert (dj = d) as -> by congruence. exists d', extra.
      split; [|exact Hn]. rewrite Hi. apply lookup_insert_eq.
    + exists dj, []. rewrite app_nil_r. split; [|done].
      rewrite Hi. by rewrite lookup_insert_ne.
  - exists dj, []. rewrite app_nil_r. split; [|done].
    rewrite lookup_insert_ne; [done|]. intros Heq. rewrite Heq in Hfree.
    congruence.
Qed.

Lemma notesExtend_refl m : notesExtend m m.
Proof. intros i d Hd. exists d, []. by rewrite app_nil_r. Qed.

Lemma notesExtend_trans m1 m2 m3 :
  notesExtend m1 m2 -> notesExtend m2 m3 -> notesExtend m1 m3.
Proof.
  intros H12 H23 i d Hd.
  destruct (H12 i d Hd) as (d2 & x2 & Hd2 & Hn2).
  destruct (H23 i d2 Hd2) as (d3 & x3 & Hd3 & Hn3).
  exists d3, (x2 ++ x3). split; [done|]. by rewrite Hn3, Hn2, app_assoc.
Qed.

Lemma writes_same m : writes m m.
Proof. by left. Qed.

Lemma writes_update m i d d' extra :
  m !! i = Some d -> _id d' = _id d ->
  adminNotes d' = (adminNotes d ++ extra)%list ->
  (Model.validate d = [] -> Model.validate d' = []) ->
  writes m (<[_id d := d']> m).
Proof. intros. right. left. by exists i, d, d', extra. Qed.

Lemma notes_transitioned s n t o d :
  exists extra,
    adminNotes (transitioned s n t o d) = (adminNotes d ++ extra)%list.
Proof.
  unfold transitioned. destruct (Js.truthy n).
  - by eexists.
  - exists []. by rewrite app_nil_r.
Qed.

(** The two ways [updateStatus] can end. *)
Lemma updateStatus_cases d s n e w :
  (Model.validate (transitioned s n (dateNow e) (freshNoteId e) d) = []
   /\ Methods.updateStatus d s n e w =
        (Ok (transitioned s n (dateNow e) (freshNoteId e) d),
         stored (<[_id d := transitioned s n (dateNow e) (freshNoteId e) d]> (requests w)) w))
  \/ exists r, Methods.updateStatus d s n e w = (Throw r, w).
Proof.
  unfold Methods.updateStatus, Mongoose.save, Mongoose.validated,
    Mongoose.driver.
  plumbing.
  cbv zeta. fold (transitioned s n (dateNow e) (freshNoteId e) d).
  destruct (Model.validate _) eqn:Hv; [|right; by eexists].
  plumbing. destruct (storeUp e OpSave); [|right; by eexists].
  left. split; [done|]. cbn. by rewrite id_transitioned.
Qed.

Lemma findByIdAndUpdate_cases id f failing e w :
  (exists i d, id = Some i /\ requests w !! Model.objectId i = Some d
     /\ Mongoose.findByIdAndUpdate id f failing e w =
          (Ok (Some (f d)), stored (<[_id d := f d]> (requests w)) w))
  \/ Mongoose.findByIdAndUpdate id f failing e w = (Ok None, w)
  \/ exists r, Mongoose.findByIdAndUpdate id f failing e w = (Throw r, w).
Proof.
  unfold Mongoose.findByIdAndUpdate, Mongoose.castId, Mongoose.castIdOf,
    Mongoose.driver.
  destruct failing; [|right; right; by eexists].
  destruct id as [i|].
  - destruct (Model.isObjectId i); plumbing; [|right; right; by eexists].
    destruct (storeUp e OpUpdate); [|right; right; by eexists].
    destruct (requests w !! Model.objectId i) as [d|] eqn:Hd;
      [|right; by left].
    left. by exists i, d.
  - plumbing. destruct (storeUp e OpUpdate); [|right; right; by eexists].
    right. by left.
Qed.

Section Writes.
Variable gw : Gateway.
Hypothesis gw_keeps : keepsRequests gw.

Lemma notifyCancelled_requests d e w :
  exists w', Controller.notifyCancelled gw d e w = (Ok tt, w')
             /\ requests w' = requests w.
Proof.
  unfold Controller.notifyCancelled. plumbing.
  pose proof (gw_keeps (email (clientInfo d)) (fullName (clientInfo d))
                (requestId d) "cancelled" None e w) as Hk.
  destruct (gw _ _ _ _ _ e w) as [[r|r] w']; cbn in Hk.
  - destruct (Mail.success r); eexists; split; try reflexivity; exact Hk.
  - eexists; split; try reflexivity; exact Hk.
Qed.

Lemma updateRequestStatus_writes req e w :
  writes (requests w) (requests (Controller.updateRequestStatus gw req e w).2).
Proof.
  unfold Controller.updateRequestStatus.
  destruct (Body.status (Req.body req)) as [s|]; [|apply writes_same].
  destruct (negb _); [apply writes_same|]. plumbing.
  destruct (findById_cases (Req.param "id" req) e w)
    as [(found & -> & Hfound)|[r ->]]; [|apply writes_same].
  destruct found as [d|]; [|apply writes_same].
  destruct (Hfound d eq_refl) as (i & _ & Hd).
  destruct (updateStatus_cases d s (Body.adminNote (Req.body req)) e w)
    as [[Hvalid ->]|[r ->]]; [|apply writes_same].
  destruct (notes_transitioned s (Body.adminNote (Req.body req)) (dateNow e) (freshNoteId e) d)
    as [extra Hextra].
  destruct (negb (status d =? s)).
  - destruct (notifyStatus_requests gw
                (transitioned s (Body.adminNote (Req.body req)) (dateNow e) (freshNoteId e) d)
                s (Body.adminNote (Req.body req)) e
                (stored (<[_id d := transitioned s (Body.adminNote (Req.body req))
                                      (dateNow e) (freshNoteId e) d]> (requests w)) w) gw_keeps)
      as (w' & -> & Hreq).
    cbn. rewrite Hreq. cbn.
    eapply writes_update; [exact Hd|apply id_transitioned|exact Hextra|done].
  - cbn. eapply writes_update; [exact Hd|apply id_transitioned|exact Hextra|done].
Qed.

Lemma deleteRequest_writes req e w :
  writes (requests w) (requests (Controller.deleteRequest gw req e w).2).
Proof.
  unfold Controller.deleteRequest. plumbing.
  destruct (findByIdAndUpdate_cases (Req.param "id" req)
              (Model.setStatus "cancelled") [] e w)
    as [(i & d & _ & Hd & ->)|[->|[r ->]]]; try apply writes_same.
  destruct (notifyCancelled_requests (Model.setStatus "cancelled" d) e
              (stored (<[_id d := Model.setStatus "cancelled" d]> (requests w)) w))
    as (w' & -> & Hreq).
  cbn. rewrite Hreq. cbn.
  apply (writes_update _ (Model.objectId i) d _ []); [exact Hd|reflexivity| |].
  - by rewrite app_nil_r.
  - intros Hv. by apply validate_setStatus.
Qed.

End Writes.

Lemma createRequest_writes req e w :
  writes (requests w) (requests (Controller.createRequest req e w).2).
Proof.
  rewrite createRequest_run.
  destruct (selectionAnswer _ _) as [[early|]|r]; try apply writes_same.
  cbv zeta. unfold submitFailed.
  destruct (Model.validate _) eqn:Hvalid; [|apply writes_same].
  destruct (storeUp e OpSave); [|apply writes_same].
  destruct (Model.isSome (requests w !! _id (created req e))) eqn:Hfree;
    [apply writes_same|].
  destruct (Mongoose.requestIdTaken _ _); [apply writes_same|]. cbn [orb].
  assert (requests w !! _id (created req e) = None) as Hnone.
  { by destruct (requests w !! _id (created req e)). }
  destruct (storeUp e OpPopulate); right; right; by eexists.
Qed.

Lemma validate_setPriority d p :
  Model.validate d = [] -> Model.includes Model.priorityEnum p = true ->
  Model.validate (Model.setPriority p d) = [].
Proof.
  unfold Model.validate. cbn. intros H Hp.
  repeat (apply app_eq_nil in H; destruct H as [?H H]).
  rewrite Hp. cbn.
  repeat match goal with H : _ = [] |- _ => rewrite H; clear H end.
  reflexivity.
Qed.

Lemma updateRequestPriority_writes req e w :
  writes (requests w) (requests (Controller.updateRequestPriority req e w).2).
Proof.
  unfold Controller.updateRequestPriority.
  destruct (Body.priority (Req.body req)) as [p|]; [|apply writes_same].
  destruct (negb _) eqn:Hp; [apply writes_same|]. plumbing.
  destruct (findByIdAndUpdate_cases (Req.param "id" req) (Model.setPriority p)
              (Model.check "priority" (Model.includes Model.priorityEnum p)) e w)
    as [(i & d & _ & Hd & ->)|[->|[r ->]]]; try apply writes_same.
  cbn. apply (writes_update _ (Model.objectId i) d _ []); [exact Hd|reflexivity| |].
  - by rewrite app_nil_r.
  - intros Hv. apply validate_setPriority; [exact Hv|].
    by apply negb_false_iff in Hp.
Qed.

Lemma assignRequest_writes req e w :
  writes (requests w) (requests (Controller.assignRequest req e w).2).
Proof.
  unfold Controller.assignRequest.
  destruct (Body.assignedTo (Req.body req)) as [a|]; [|apply writes_same].
  destruct (negb _); [apply writes_same|]. plumbing.
  destruct (findByIdAndUpdate_cases (Req.param "id" req) (Model.setAssignedTo a)
              [] e w)
    as [(i & d & _ & Hd & ->)|[->|[r ->]]]; try apply writes_same.
  cbn. apply (writes_update _ (Model.objectId i) d _ []); [exact Hd|reflexivity| |done].
  by rewrite app_nil_r.
Qed.

Lemma addAdminNote_writes req e w :
  writes (requests w) (requests (Controller.addAdminNote req e w).2).
Proof.
  unfold Controller.addAdminNote.
  destruct (negb _); [apply writes_same|]. plumbing.
  destruct (findById_cases (Req.param "id" req) e w)
    as [(found & -> & Hfound)|[r ->]]; [|apply writes_same].
  destruct found as [d|]; [|apply writes_same].
  destruct (Hfound d eq_refl) as (i & _ & Hd).
  unfold Mongoose.save, Mongoose.validated, Mongoose.driver.
  destruct (Model.validate _) eqn:Hvalid; [|apply writes_same]. plumbing.
  destruct (storeUp e OpSave); [|apply writes_same].
  cbn. eapply writes_update; [exact Hd|reflexivity|reflexivity|done].
Qed.

Lemma perform_writes op req e w :
  writes (requests w) (requests (perform op req e w).2).
Proof.
  destruct op; cbn [perform].
  - apply createRequest_writes.
  - apply updateRequestStatus_writes, sendStatusUpdateEmail_keepsRequests.
  - apply updateRequestPriority_writes.
  - apply addAdminNote_writes.
  - apply assignRequest_writes.
  - apply deleteRequest_writes, sendStatusUpdateEmail_keepsRequests.
Qed.

(** The hypotheses made on a stored document in the properties of the
    status update, that it sits under its own [_id] and is valid, hold of
    every document of a collection that grew from the empty one by lifecycle
    calls. *)
Lemma history_sound calls w :
  sound (requests w) -> sound (requests (history calls w)).
Proof.
  revert w. induction calls as [|[[op req] e] calls IH]; intros w Hs.
  - exact Hs.
  - cbn [history]. apply IH. eapply writes_sound; [exact Hs|].
    apply perform_writes.
Qed.

Lemma sound_empty : sound ∅.
Proof. apply map_Forall_empty. Qed.

(** C8. Over any sequence of lifecycle calls (create, status update with or
    without a note, priority update, note append, assignment, cancel), run
    from a collection in which every document sits under its own [_id]:
    every request of the collection is still there afterwards, and its admin
    notes are the ones it had, in the same order, followed by the ones added
    since; so their number has not gone down. *)
Theorem C8_admin_notes_append_only calls w :
  keyed (requests w) ->
  keyed (requests (history calls w))
  /\ forall i d,
       requests w !! i = Some d ->
       exists d' extra,
         requests (history calls w) !! i = Some d'
         /\ adminNotes d' = (adminNotes d ++ extra)%list
         /\ length (adminNotes d) <= length (adminNotes d').
Proof.
  revert w. induction calls as [|[[op req] e] calls IH]; intros w Hk.
  - split; [exact Hk|]. intros i d Hd. exists d, [].
    by rewrite app_nil_r.
  - cbn [history].
    pose proof (perform_writes op req e w) as Hw.
    pose proof (writes_keyed _ _ Hk Hw) as Hk'.
    pose proof (writes_notesExtend _ _ Hk Hw) as Hext.
    destruct (IH _ Hk') as [Hk'' Hrest]. split; [exact Hk''|].
    intros i d Hd.
    destruct (Hext i d Hd) as (d1 & x1 & Hd1 & Hn1).
    destruct (Hrest i d1 Hd1) as (d2 & x2 & Hd2 & Hn2 & _).
    exists d2, (x1 ++ x2). split; [exact Hd2|].
    rewrite Hn2, Hn1, <- app_assoc. split; [reflexivity|].
    rewrite !length_app. lia.
Qed.

Lemma C8_admin_notes_append_only_witness :
  exists d' extra,
    requests (history Sample.calls (Sample.world "submitted" Sample.threeNotes))
      !! Sample.r1 = Some d'
    /\ adminNotes d' = Sample.threeNotes ++ extra
    /\ length Sample.threeNotes <= length (adminNotes d').
Proof.
  apply (proj2 (C8_admin_notes_append_only Sample.calls
                  (Sample.world "submitted" Sample.threeNotes)
                  (proj2 (map_Forall_singleton _ Sample.r1 _) eq_refl))
           Sample.r1 (Sample.request "submitted" Sample.threeNotes)).
  reflexivity.
Defined.

(** *** Cancelling *)

Lemma notifyCancelled_run (gw : Gateway) d e w :
  Controller.notifyCancelled gw d e w =
    match gw (email (clientInfo d)) (fullName (clientInfo d)) (requestId d)
             "cancelled" None e w with
    | (Ok r, w') =>
        (Ok tt,
         logged (if Mail.success r
                 then "Cancellation email sent to "
                      +:+ Email.show (email (clientInfo d))
                 else "Failed to send cancellation email: "
                      +:+ Email.show (Mail.error r)) w')
    | (Throw r, w') => (Ok tt, logged ("Email sending error: " +:+ r) w')
    end.
Proof.
  unfold Controller.notifyCancelled. plumbing.
  destruct (gw _ _ _ _ _ e w) as [[r|r] w']; [|reflexivity].
  by destruct (Mail.success r).
Qed.

(** The run of [deleteRequest] on a stored document while the store
    answers. *)
Lemma deleteRequest_run (gw : Gateway) req e w i d :
  Req.param "id" req = Some i ->
  Model.isObjectId i = true ->
  requests w !! Model.objectId i = Some d ->
  _id d = Model.objectId i ->
  storeUp e OpUpdate = true ->
  let d' := Model.setStatus "cancelled" d in
  let saved := stored (<[Model.objectId i := d']> (requests w)) w in
  Controller.deleteRequest gw req e w =
    match gw (email (clientInfo d')) (fullName (clientInfo d'))
             (requestId d') "cancelled" None e saved with
    | (Ok r, w2) =>
        (Ok (Res.ok 200 "Service request cancelled successfully"
               (View.toJSON (catalog w2) View.plain d')),
         logged (if Mail.success r
                 then "Cancellation email sent to "
                      +:+ Email.show (email (clientInfo d'))
                 else "Failed to send cancellation email: "
                      +:+ Email.show (Mail.error r)) w2)
    | (Throw r, w2) =>
        (Ok (Res.ok 200 "Service request cancelled successfully"
               (View.toJSON (catalog w2) View.plain d')),
         logged ("Email sending error: " +:+ r) w2)
    end.
Proof.
  intros Hi Hoid Hd Hid Hup d' saved.
  unfold Controller.deleteRequest, Mongoose.findByIdAndUpdate, Mongoose.castId, Mongoose.castIdOf,
    Mongoose.driver.
  rewrite Hi, Hoid. plumbing. rewrite Hup, Hd, Hid, notifyCancelled_run.
  subst saved d'. unfold stored.
  by destruct (gw _ _ _ _ _ e _) as [[r|r] w2].
Qed.

(** Where the status changes, cancelling and updating the status to
    ["cancelled"] call the helper alike and leave the same collection, the
    same mails and the same document in the answer. *)
Lemma cancel_agrees_when_status_changes (gw : Gateway) reqC reqT e w i d :
  Req.param "id" reqC = Some i ->
  Req.param "id" reqT = Some i ->
  Model.isObjectId i = true ->
  Body.status (Req.body reqT) = Some "cancelled" ->
  Body.adminNote (Req.body reqT) = None ->
  requests w !! Model.objectId i = Some d ->
  _id d = Model.objectId i ->
  Model.validate d = [] ->
  status d <> "cancelled" ->
  storeUp e OpFind = true ->
  storeUp e OpSave = true ->
  storeUp e OpUpdate = true ->
  let c := Controller.deleteRequest gw reqC e w in
  let t := Controller.updateRequestStatus gw reqT e w in
  requests c.2 = requests t.2
  /\ outbox c.2 = outbox t.2
  /\ exists rc rt, c.1 = Ok rc /\ t.1 = Ok rt
                   /\ Res.statusCode rc = 200 /\ Res.statusCode rt = 200
                   /\ Res.data rc = Res.data rt.
Proof.
  intros HiC HiT Hoid Hs Hn Hd Hid Hv Hne Hf Hsv Hup c t. subst c t.
  rewrite (deleteRequest_run gw reqC e w i d) by done.
  rewrite (updateRequestStatus_run gw reqT e w i d "cancelled")
    by (try done; cbn; tauto).
  rewrite Hn. apply String.eqb_neq in Hne. rewrite Hne.
  change (transitioned "cancelled" None (dateNow e) (freshNoteId e) d)
    with (Model.setStatus "cancelled" d).
  destruct (gw _ _ _ _ _ e _) as [[r|r] w2]; cbn;
    (split; [reflexivity|]; split; [reflexivity|]);
    do 2 eexists; repeat split.
Qed.

(** C5, at a request that is cancelled already: both calls leave the same
    collection, the status update hands nothing to the mail transport, and
    the cancellation sends the cancellation mail once more. (One and the
    same [oldStatus !== status] test is what [deleteRequest] lacks.) *)
Theorem C5_cancel_notifies_without_change :
  let w := Sample.world "cancelled" [] in
  let c := Routes.deleteRequest Sample.cancel Sample.env w in
  let t := Routes.updateRequestStatus (Sample.putStatus "cancelled" None)
             Sample.env w in
  status <$> requests w !! Sample.r1 = Some "cancelled"
  /\ Res.statusCode <$> Lifecycle.answer c = Some 200
  /\ Res.statusCode <$> Lifecycle.answer t = Some 200
  /\ requests c.2 !! Sample.r1 = requests t.2 !! Sample.r1
  /\ outbox t.2 = []
  /\ (Mail.to <$> outbox c.2) = [Some "jane@x.com"]
  /\ (Mail.subject <$> outbox c.2)
       = [Some "Service Request REQ-1700000000000-K3J9 - Cancelled"].
Proof. vm_compute. repeat split. Qed.

(** *** The admin routes *)

Lemma isAdmin_passes req e w :
  Routes.isAdmin req e w = (Ok (Auth.Next req), w).
Proof. reflexivity. Qed.

(** Every route under [/admin] has the pass-through as its whole chain. *)
Lemma admin_chains_pass :
  Forall (fun r => Routes.isAdminRoute r = true ->
                   forall req e w,
                     Routes.runChain (Routes.chain r) req e w
                     = (Ok (Auth.Next req), w))
         Routes.router.
Proof.
  unfold Routes.router.
  repeat (apply Forall_cons; split;
          [first [discriminate | intros _ req e w; reflexivity]|]).
  apply Forall_nil_2.
Qed.

(** The bearer-token middleware of [middleware/auth.js], by contrast,
    answers 401 to a call without an [Authorization] header. *)
Lemma protect_rejects_anonymous req e w :
  Req.authorization req = None ->
  Auth.protect req e w
  = (Ok (Auth.Respond (Res.fail 401 "Not authorized to access this route.")), w).
Proof. intros H. unfold Auth.protect, Auth.bearerToken. by rewrite H. Qed.

(** C9, at a call without any credentials: the router hands a [DELETE
    /admin/r1] that carries no [Authorization] header to [deleteRequest],
    which cancels the request and answers 200; the same holds of every
    route under [/admin], whose only middleware lets every call through. *)
Theorem C9_admin_routes_accept_anonymous_calls :
  let req := Sample.call DELETE ["admin"; Sample.r1] [] Body.empty in
  let w := Sample.world "reviewing" [] in
  let served := Routes.serve req Sample.env w in
  Req.authorization req = None
  /\ Req.user req = None
  /\ (exists res, served.1 = Ok (Routes.Answered res)
                  /\ Res.statusCode res = 200
                  /\ Res.message res
                     = Some "Service request cancelled successfully")
  /\ status <$> requests w !! Sample.r1 = Some "reviewing"
  /\ status <$> requests served.2 !! Sample.r1 = Some "cancelled"
  /\ (Auth.protect req Sample.env w).1
     = Ok (Auth.Respond (Res.fail 401 "Not authorized to access this route."))
  /\ Forall (fun r => Routes.isAdminRoute r = true ->
                      forall req e w,
                        Routes.runChain (Routes.chain r) req e w
                        = (Ok (Auth.Next req), w))
            Routes.router.
Proof.
  cbv zeta. split; [reflexivity|]. split; [reflexivity|].
  split. { vm_compute. eexists. repeat split. }
  split; [reflexivity|]. split; [by vm_compute|].
  split; [reflexivity|]. exact admin_chains_pass.
Qed.

(** *** The public route of creation *)

(** Through the router, [createRequest] is reached only behind
    [validateServiceRequest]. *)
Lemma serve_create req e w :
  Req.method req = POST ->
  Req.path req = [] ->
  Routes.serve req e w =
    match Routes.validateServiceRequest (Req.withParams [] req) e w with
    | (Ok (Auth.Next req'), w') =>
        match Controller.createRequest req' e w' with
        | (Ok res, w'') => (Ok (Routes.Answered res), w'')
        | (Throw r, w'') => (Throw r, w'')
        end
    | (Ok (Auth.Respond res), w') => (Ok (Routes.Answered res), w')
    | (Throw r, w') => (Throw r, w')
    end.
Proof.
  intros Hm Hp. unfold Routes.serve, Routes.router. cbn [Routes.findRoute].
  rewrite Hm, Hp. cbn. plumbing.
  destruct (Routes.validateServiceRequest _ e w) as [[[req'|res]|r] w'];
    try reflexivity.
Qed.

(** At the route, a body without selection path, request type or client
    info is answered 400 by the middleware, before the handler runs. *)
Lemma serve_create_incomplete req e w :
  Req.method req = POST ->
  Req.path req = [] ->
  Body.selectionPath (Req.body req) = None
  \/ Js.truthy (Body.requestType (Req.body req)) = false
  \/ Body.clientInfo (Req.body req) = None ->
  Routes.serve req e w =
    (Ok (Routes.Answered (Res.fail 400
           "Selection path, request type, and client info are required")), w).
Proof.
  intros Hm Hp Hmiss. rewrite serve_create by done.
  unfold Routes.validateServiceRequest. cbn [Req.body Req.withParams].
  destruct (Body.selectionPath (Req.body req)) as [sp|]; [|reflexivity].
  destruct (Body.clientInfo (Req.body req)) as [ci|]; [|reflexivity].
  destruct Hmiss as [?|[Hrt|?]]; try done. by rewrite Hrt.
Qed.

(** At the route too, a request type that is given but is neither
    ["service"] nor ["combo"] ends in the 500 of the handler. *)
Lemma serve_create_other_type req e w sp ci :
  Req.method req = POST ->
  Req.path req = [] ->
  Body.selectionPath (Req.body req) = Some sp ->
  Body.clientInfo (Req.body req) = Some ci ->
  Js.truthy (Body.requestType (Req.body req)) = true ->
  Js.truthy (fullName ci) = true ->
  Js.truthy (email ci) = true ->
  Js.truthy (phone ci) = true ->
  Body.requestType (Req.body req) <> Some "service" ->
  Body.requestType (Req.body req) <> Some "combo" ->
  Routes.serve req e w
  = (Ok (Routes.Answered
           (Res.failWith 500 "Failed to submit service request"
              (validationMessage e (created req e)))),
     logged ("Create Request Error: "
             +:+ validationMessage e (created req e)) w).
Proof.
  intros Hm Hp Hsp Hci Hrt Hn Hem Hph Hsvc Hcmb.
  rewrite serve_create by done.
  unfold Routes.validateServiceRequest. cbn [Req.body Req.withParams].
  rewrite Hsp, Hci, Hrt, Hn, Hem, Hph. cbn [negb orb]. plumbing.
  destruct (createRequest_other_type (Req.withParams [] req) e w Hsvc Hcmb)
    as (_ & _ & ->).
  reflexivity.
Qed.

(** C10, amended. With a request type that is neither ["service"] nor
    ["combo"] (a missing one included), the handler [createRequest] skips
    both selection checks, the document fails validation on the path
    [requestType] when it is saved, and the handler answers 500 "Failed to
    submit service request" with the message of the validation error,
    storing nothing. The endpoint [POST /] passes such a call to the handler,
    and so answers this 500, only when the request type is given and not
    empty (and the body carries a selection path and the three client
    fields); when the request type is missing or empty, the middleware of
    the route answers 400 before the handler runs. *)
Theorem C10_other_request_type_is_500 req e w :
  Body.requestType (Req.body req) <> Some "service" ->
  Body.requestType (Req.body req) <> Some "combo" ->
  let failure :=
    (Ok (Res.failWith 500 "Failed to submit service request"
           (validationMessage e (created req e))),
     logged ("Create Request Error: "
             +:+ validationMessage e (created req e)) w) in
  Controller.checkSelection (Body.selectionPath (Req.body req))
    (Body.requestType (Req.body req)) e w = (Ok None, w)
  /\ In "requestType" (Model.validate (created req e))
  /\ Controller.createRequest req e w = failure
  /\ requests failure.2 = requests w
  /\ (Req.method req = POST ->
      Req.path req = [] ->
      (Js.truthy (Body.requestType (Req.body req)) = false ->
       Routes.serve req e w
       = (Ok (Routes.Answered
                (Res.fail 400
                   "Selection path, request type, and client info are required")),
          w))
      /\ (forall sp ci,
            Js.truthy (Body.requestType (Req.body req)) = true ->
            Body.selectionPath (Req.body req) = Some sp ->
            Body.clientInfo (Req.body req) = Some ci ->
            Js.truthy (fullName ci) = true ->
            Js.truthy (email ci) = true ->
            Js.truthy (phone ci) = true ->
            Routes.serve req e w
            = (match failure with
               | (Ok res, w') => (Ok (Routes.Answered res), w')
               | (Throw r, w') => (Throw r, w')
               end))).
Proof.
  intros Hsvc Hcmb failure.
  destruct (createRequest_other_type req e w Hsvc Hcmb) as (Hsel & Hin & Hrun).
  split; [by rewrite checkSelection_run, Hsel|]. split; [exact Hin|].
  split; [exact Hrun|]. split; [reflexivity|].
  intros Hm Hp. split.
  - intros Hrt. apply serve_create_incomplete; [done..|]. right. by left.
  - intros sp ci Hrt Hsp Hci Hn Hem Hph.
    by apply (serve_create_other_type req e w sp ci).
Qed.

Lemma C10_other_request_type_is_500_witness :
  Routes.serve
    (Sample.post (Some "bundle")
       (Some (Sample.path (Some Sample.c1) (Some Sample.s1) None)))
    Sample.env Sample.emptyWorld
  = (Ok (Routes.Answered
           (Res.failWith 500 "Failed to submit service request"
              "ServiceRequest validation failed: requestType: `bundle` is not a valid enum value for path `requestType`.")),
     logged "Create Request Error: ServiceRequest validation failed: requestType: `bundle` is not a valid enum value for path `requestType`."
       Sample.emptyWorld).
Proof.
  destruct (C10_other_request_type_is_500
              (Sample.post (Some "bundle")
                 (Some (Sample.path (Some Sample.c1) (Some Sample.s1) None)))
              Sample.env Sample.emptyWorld)
    as (_ & _ & _ & _ & Hroute); [discriminate..|].
  destruct (Hroute eq_refl eq_refl) as [_ Hgiven].
  apply (Hgiven (Sample.path (Some Sample.c1) (Some Sample.s1) None)
           Sample.jane); reflexivity.
Defined.

(** C10 as it is stated fails at the endpoint: a submission without a
    request type, complete otherwise, is answered 400 by the middleware of
    the route, not 500; the handler, which would answer 500, is not
    called. *)
Lemma C10_counterexample_missing_type_is_400 :
  let req := Sample.post None
               (Some (Sample.path (Some Sample.c1) (Some Sample.s1) None)) in
  Body.requestType (Req.body req) = None
  /\ Routes.serve req Sample.env Sample.emptyWorld
     = (Ok (Routes.Answered
              (Res.fail 400
                 "Selection path, request type, and client info are required")),
        Sample.emptyWorld)
  /\ (exists res w',
        Controller.createRequest req Sample.env Sample.emptyWorld
        = (Ok res, w')
        /\ Res.statusCode res = 500).
Proof.
  cbv zeta. split; [reflexivity|]. split; [reflexivity|].
  do 2 eexists. split; [reflexivity|reflexivity].
Qed.

(** *** The real mail helper with the transport down *)

(** With the helper of [utils/email.js] and a transport that refuses the
    message, the failure shows in two console lines and nowhere else. *)
Example transition_with_smtp_down :
  let run := Routes.updateRequestStatus
               (Sample.putStatus "reviewing" (Some "Looks good"))
               Sample.envSmtpDown (Sample.world "submitted" []) in
  Res.statusCode <$> answer run = Some 200
  /\ status <$> requests run.2 !! Sample.r1 = Some "reviewing"
  /\ length <$> (adminNotes <$> requests run.2 !! Sample.r1) = Some 1%nat
  /\ (Mail.subject <$> outbox run.2)
       = [Some "Service Request REQ-1700000000000-K3J9 - Under Review"]
  /\ console run.2
       = ["Error sending status update email: ECONNREFUSED";
          "Failed to send status update email: ECONNREFUSED"].
Proof. vm_compute. repeat split. Qed.

(** * Further properties of the handlers *)

Lemma findByIdAndUpdate_up i f e w d :
  Model.isObjectId i = true ->
  storeUp e OpUpdate = true ->
  requests w !! Model.objectId i = Some d ->
  Mongoose.findByIdAndUpdate (Some i) f [] e w
  = (Ok (Some (f d)), stored (<[_id d := f d]> (requests w)) w).
Proof.
  intros Hoid Hup Hd.
  unfold Mongoose.findByIdAndUpdate, Mongoose.castId, Mongoose.castIdOf, Mongoose.driver.
  rewrite Hoid. plumbing. by rewrite Hup, Hd.
Qed.

Lemma findByIdAndUpdate_absent i f e w :
  Model.isObjectId i = true ->
  storeUp e OpUpdate = true ->
  requests w !! Model.objectId i = None ->
  Mongoose.findByIdAndUpdate (Some i) f [] e w = (Ok None, w).
Proof.
  intros Hoid Hup Hd.
  unfold Mongoose.findByIdAndUpdate, Mongoose.castId, Mongoose.castIdOf, Mongoose.driver.
  rewrite Hoid. plumbing. by rewrite Hup, Hd.
Qed.

(** Whatever happens, [updateRequestPriority] answers, and hands nothing to
    the mail transport. *)
Lemma updateRequestPriority_answers req e w :
  exists res w',
    Controller.updateRequestPriority req e w = (Ok res, w')
    /\ outbox w' = outbox w
    /\ (Res.statusCode res = 400 <->
        ~ exists p, Body.priority (Req.body req) = Some p
                    /\ In p Model.priorityEnum)
    /\ (Res.statusCode res = 400 ->
        res = Res.fail 400 "Invalid priority provided" /\ w' = w).
Proof.
  unfold Controller.updateRequestPriority.
  destruct (Body.priority (Req.body req)) as [p|] eqn:Hp.
  2:{ do 2 eexists. split; [reflexivity|]. cbn. split; [done|].
      split; [|done]. split; [|done]. intros _ (p & Hp' & _). done. }
  destruct (Model.includes Controller.validPriorities p) eqn:Hin; cbn [negb].
  2:{ do 2 eexists. split; [reflexivity|]. cbn. split; [done|].
      split; [|done]. split; [|done]. intros _ (p' & [= <-] & Hin').
      pose proof (proj2 (includes_In Model.priorityEnum p) Hin') as Hyes.
      unfold Controller.validPriorities in Hin. unfold Model.priorityEnum in Hyes.
      congruence. }
  assert (Hyes : exists p', Some p = Some p' /\ In p' Model.priorityEnum).
  { exists p. split; [done|]. by apply includes_In. }
  assert (Hgoal : forall (res : Res.t) (w' : World),
            outbox w' = outbox w ->
            Res.statusCode res <> 400 ->
            outbox w' = outbox w
            /\ (Res.statusCode res = 400 <->
                ~ exists p', Some p = Some p' /\ In p' Model.priorityEnum)
            /\ (Res.statusCode res = 400 ->
                res = Res.fail 400 "Invalid priority provided" /\ w' = w)).
  { intros res w' Hout Hne. split; [done|]. split; [|done]. split; [done|].
    intros Hno. by destruct Hno. }
  plumbing.
  destruct (findByIdAndUpdate_cases (Req.param "id" req) (Model.setPriority p)
              (Model.check "priority" (Model.includes Model.priorityEnum p)) e w)
    as [(i & d & _ & Hd & ->)|[->|[r ->]]];
    do 2 eexists; (split; [reflexivity|]); by apply Hgoal.
Qed.

(** X1. [updateRequestPriority] answers 400, the world untouched, exactly
    when the given priority is not one of the four values; it never hands a
    message to the mail transport; and on a stored request, with one of the
    four values and the store answering, it answers 200 and stores the
    request with the new priority, its status and admin notes as they
    were. *)
Theorem X1_priority_update_leaves_status req e w :
  (exists res w',
     Controller.updateRequestPriority req e w = (Ok res, w')
     /\ outbox w' = outbox w
     /\ (Res.statusCode res = 400 <->
         ~ exists p, Body.priority (Req.body req) = Some p
                     /\ In p Model.priorityEnum)
     /\ (Res.statusCode res = 400 ->
         res = Res.fail 400 "Invalid priority provided" /\ w' = w))
  /\ (forall i d p,
        Req.param "id" req = Some i ->
        Model.isObjectId i = true ->
        requests w !! Model.objectId i = Some d ->
        _id d = Model.objectId i ->
        Body.priority (Req.body req) = Some p ->
        In p Model.priorityEnum ->
        storeUp e OpUpdate = true ->
        let d' := Model.setPriority p d in
        Controller.updateRequestPriority req e w
        = (Ok (Res.ok 200 "Request priority updated successfully"
                 (View.toJSON (catalog w) View.plain d')),
           stored (<[Model.objectId i := d']> (requests w)) w)
        /\ priority d' = p
        /\ status d' = status d
        /\ adminNotes d' = adminNotes d).
Proof.
  split; [apply updateRequestPriority_answers|].
  intros i d p Hi Hoid Hd Hid Hp Hin Hup d'.
  apply includes_In in Hin.
  split; [|by repeat split].
  unfold Controller.updateRequestPriority. rewrite Hp.
  change Controller.validPriorities with Model.priorityEnum.
  rewrite Hin, Hi. cbn [negb Model.check]. plumbing.
  rewrite (findByIdAndUpdate_up i _ e w d) by done. by rewrite Hid.
Qed.

Lemma X1_priority_update_leaves_status_witness :
  exists w',
    Controller.updateRequestPriority (Sample2.putPriority "urgent") Sample.env
      (Sample.world "reviewing" Sample.threeNotes)
    = (Ok (Res.ok 200 "Request priority updated successfully"
             (View.toJSON Sample.shop View.plain
                (Model.setPriority "urgent"
                   (Sample.request "reviewing" Sample.threeNotes)))), w')
    /\ outbox w' = [].
Proof.
  eexists. split.
  - apply (proj2 (X1_priority_update_leaves_status
                    (Sample2.putPriority "urgent") Sample.env
                    (Sample.world "reviewing" Sample.threeNotes))
             Sample.r1 (Sample.request "reviewing" Sample.threeNotes) "urgent");
      try reflexivity.
    cbn. tauto.
  - reflexivity.
Defined.

(** *** Notes and assignment *)

Lemma save_down d e w :
  Model.validate d = [] -> storeUp e OpSave = false ->
  Mongoose.save d e w = (Throw "MongoError", w).
Proof.
  intros Hv H. unfold Mongoose.save, Mongoose.validated. rewrite Hv. plumbing.
  by rewrite driver_down.
Qed.

(** X2. [addAdminNote] answers 400, the world untouched, when the note is
    missing or empty. Otherwise, on a stored valid request with the store
    answering, it answers 200 and stores the request with one note added
    after the ones it had: the given text, the given author or ["Admin"]
    when none is given, the time of the call and a new [_id]; the status
    stays and no message goes to the mail transport. *)
Theorem X2_note_is_appended_last req e w :
  (Js.truthy (Body.note (Req.body req)) = false ->
   Controller.addAdminNote req e w = (Ok (Res.fail 400 "Note is required"), w))
  /\ (forall i d,
        Js.truthy (Body.note (Req.body req)) = true ->
        Req.param "id" req = Some i ->
        Model.isObjectId i = true ->
        requests w !! Model.objectId i = Some d ->
        _id d = Model.objectId i ->
        Model.validate d = [] ->
        storeUp e OpFind = true ->
        storeUp e OpSave = true ->
        exists d',
          Controller.addAdminNote req e w
          = (Ok (Res.ok 200 "Admin note added successfully"
                   (View.toJSON (catalog w) View.plain d')),
             stored (<[Model.objectId i := d']> (requests w)) w)
          /\ adminNotes d'
             = adminNotes d ++ [Admin.appended (Body.note (Req.body req))
                                  (Body.addedBy (Req.body req)) (dateNow e)
                                  (freshNoteId e)]
          /\ status d' = status d
          /\ priority d' = priority d
          /\ withoutNotes d' = withoutNotes d).
Proof.
  split.
  - intros Hn. unfold Controller.addAdminNote. by rewrite Hn.
  - intros i d Hn Hi Hoid Hd Hid Hv Hf Hsv.
    exists (Model.pushAdminNote (Body.note (Req.body req))
              (Some (default "Admin" (Body.addedBy (Req.body req))))
              (dateNow e) (freshNoteId e) d).
    split; [|by repeat split].
    unfold Controller.addAdminNote. rewrite Hn, Hi. cbn [negb]. plumbing.
    rewrite findById_up by done. rewrite Hd.
    rewrite save_ok by done. cbn [_id Model.pushAdminNote]. by rewrite Hid.
Qed.

Lemma X2_note_is_appended_last_witness :
  exists d',
    requests (Controller.addAdminNote (Sample.postNote "send the invoice")
                Sample.env (Sample.world "reviewing" Sample.threeNotes)).2
      !! Sample.r1 = Some d'
    /\ adminNotes d'
       = Sample.threeNotes ++ [Admin.appended (Some "send the invoice") None
                                 1700000000000 Sample.n4].
Proof.
  destruct (proj2 (X2_note_is_appended_last (Sample.postNote "send the invoice")
                     Sample.env (Sample.world "reviewing" Sample.threeNotes))
              Sample.r1 (Sample.request "reviewing" Sample.threeNotes))
    as (d' & Hrun & Hnotes & _); try reflexivity.
  exists d'. rewrite Hrun. split; [apply lookup_insert_eq|exact Hnotes].
Defined.

(** X3. [assignRequest] answers 400, the world untouched, when the assignee
    is missing or empty. Otherwise, on a stored request with the store
    answering, it answers 200 and stores the request with the assignee set
    and nothing else changed; no message goes to the mail transport. *)
Theorem X3_assignment_sets_assignee_only req e w :
  (Js.truthy (Body.assignedTo (Req.body req)) = false ->
   Controller.assignRequest req e w
   = (Ok (Res.fail 400 "Assignee name is required"), w))
  /\ (forall i d a,
        Body.assignedTo (Req.body req) = Some a ->
        a <> EmptyString ->
        Req.param "id" req = Some i ->
        Model.isObjectId i = true ->
        requests w !! Model.objectId i = Some d ->
        _id d = Model.objectId i ->
        storeUp e OpUpdate = true ->
        let d' := Model.setAssignedTo a d in
        Controller.assignRequest req e w
        = (Ok (Res.ok 200 "Request assigned successfully"
                 (View.toJSON (catalog w) View.plain d')),
           stored (<[Model.objectId i := d']> (requests w)) w)
        /\ assignedTo d' = Some a
        /\ status d' = status d
        /\ priority d' = priority d
        /\ adminNotes d' = adminNotes d).
Proof.
  split.
  - intros Hn. unfold Controller.assignRequest.
    destruct (Body.assignedTo (Req.body req)) as [a|]; [|reflexivity].
    by rewrite Hn.
  - intros i d a Ha Hne Hi Hoid Hd Hid Hup d'.
    split; [|by repeat split].
    unfold Controller.assignRequest. rewrite Ha, Hi.
    apply String.eqb_neq in Hne. cbn [Js.truthy]. rewrite Hne. cbn [negb].
    plumbing. rewrite (findByIdAndUpdate_up i _ e w d) by done.
    by rewrite Hid.
Qed.

Lemma X3_assignment_sets_assignee_only_witness :
  exists w',
    Controller.assignRequest (Sample2.putAssign "Ravi") Sample.env
      (Sample.world "reviewing" [])
    = (Ok (Res.ok 200 "Request assigned successfully"
             (View.toJSON Sample.shop View.plain
                (Model.setAssignedTo "Ravi" (Sample.request "reviewing" [])))),
       w')
    /\ assignedTo <$> requests w' !! Sample.r1 = Some (Some "Ravi").
Proof.
  eexists. split.
  - apply (proj2 (X3_assignment_sets_assignee_only (Sample2.putAssign "Ravi")
                    Sample.env (Sample.world "reviewing" []))
             Sample.r1 (Sample.request "reviewing" []) "Ravi");
      try reflexivity.
    discriminate.
  - reflexivity.
Defined.

(** *** Requests that are not there, and writes that are refused *)

Lemma findByIdAndUpdate_down id f e w :
  Model.castable id = true ->
  storeUp e OpUpdate = false ->
  Mongoose.findByIdAndUpdate id f [] e w = (Throw "MongoError", w).
Proof.
  intros Hoid Hup.
  unfold Mongoose.findByIdAndUpdate, Mongoose.castId, Mongoose.castIdOf, Mongoose.driver.
  destruct id as [i|]; cbn in Hoid; [rewrite Hoid|]; plumbing; by rewrite Hup.
Qed.

(** X4. Each handler that works on one request by its [_id] answers 404
    "Service request not found" and leaves the world as it was (nothing
    stored, nothing mailed, nothing logged) when the [_id] is well formed but
    the [ObjectId] it spells, in whatever case of its digits, names no stored
    request, and its other inputs are acceptable. *)
Theorem X4_absent_request_is_404 (gw : Gateway) req e w i :
  Req.param "id" req = Some i ->
  Model.isObjectId i = true ->
  requests w !! Model.objectId i = None ->
  storeUp e OpFind = true ->
  storeUp e OpUpdate = true ->
  Controller.getRequestById req e w = (Ok Admin.notFound, w)
  /\ (forall s, Body.status (Req.body req) = Some s ->
                In s Model.statusEnum ->
                Controller.updateRequestStatus gw req e w
                = (Ok Admin.notFound, w))
  /\ (forall p, Body.priority (Req.body req) = Some p ->
                In p Model.priorityEnum ->
                Controller.updateRequestPriority req e w
                = (Ok Admin.notFound, w))
  /\ (Js.truthy (Body.note (Req.body req)) = true ->
      Controller.addAdminNote req e w = (Ok Admin.notFound, w))
  /\ (Js.truthy (Body.assignedTo (Req.body req)) = true ->
      Controller.assignRequest req e w = (Ok Admin.notFound, w))
  /\ Controller.deleteRequest gw req e w = (Ok Admin.notFound, w).
Proof.
  intros Hi Hoid Hd Hf Hup. repeat split.
  - unfold Controller.getRequestById. rewrite Hi. plumbing.
    rewrite findById_up by done. by rewrite Hd.
  - intros s Hs Hin. apply includes_In in Hin.
    unfold Controller.updateRequestStatus. rewrite Hs, Hi.
    change Controller.validStatuses with Model.statusEnum. rewrite Hin.
    cbn [negb]. plumbing. rewrite findById_up by done. by rewrite Hd.
  - intros p Hp Hin. apply includes_In in Hin.
    unfold Controller.updateRequestPriority. rewrite Hp, Hi.
    change Controller.validPriorities with Model.priorityEnum. rewrite Hin.
    cbn [negb Model.check]. plumbing.
    by rewrite findByIdAndUpdate_absent.
  - intros Hn. unfold Controller.addAdminNote. rewrite Hn, Hi. cbn [negb].
    plumbing. rewrite findById_up by done. by rewrite Hd.
  - intros Ha. unfold Controller.assignRequest.
    destruct (Body.assignedTo (Req.body req)) as [a|]; [|discriminate Ha].
    rewrite Ha, Hi. cbn [negb]. plumbing.
    by rewrite findByIdAndUpdate_absent.
  - unfold Controller.deleteRequest. rewrite Hi. plumbing.
    by rewrite findByIdAndUpdate_absent.
Qed.

Lemma X4_absent_request_is_404_witness :
  Routes.deleteRequest
    (Sample.call DELETE ["admin"; Sample.r2] [("id", Sample.r2)] Body.empty)
    Sample.env (Sample.world "reviewing" [])
  = (Ok Admin.notFound, Sample.world "reviewing" []).
Proof.
  apply (X4_absent_request_is_404 Email.sendStatusUpdateEmail
           (Sample.call DELETE ["admin"; Sample.r2] [("id", Sample.r2)]
              Body.empty)
           Sample.env (Sample.world "reviewing" []) Sample.r2);
    reflexivity.
Defined.

(** X5. When the store refuses the write, no handler reports success: each
    of the five writers answers 500 with its own message, the collection and
    the mails are as they were, and the status mail helper is not called
    (the run is the same for every helper). *)
Theorem X5_refused_write_is_500 (gw : Gateway) req e w i d :
  Req.param "id" req = Some i ->
  Model.isObjectId i = true ->
  requests w !! Model.objectId i = Some d ->
  Model.validate d = [] ->
  (storeUp e OpFind = true -> storeUp e OpSave = false ->
   (forall s, Body.status (Req.body req) = Some s ->
              In s Model.statusEnum ->
              Controller.updateRequestStatus gw req e w
              = (Ok (Res.failWith 500 "Failed to update request status"
                       "MongoError"),
                 logged "Update Request Status Error: MongoError" w))
   /\ (Js.truthy (Body.note (Req.body req)) = true ->
       Controller.addAdminNote req e w
       = (Ok (Res.failWith 500 "Failed to add admin note" "MongoError"),
          logged "Add Admin Note Error: MongoError" w)))
  /\ (storeUp e OpUpdate = false ->
      (forall p, Body.priority (Req.body req) = Some p ->
                 In p Model.priorityEnum ->
                 Controller.updateRequestPriority req e w
                 = (Ok (Res.failWith 500 "Failed to update request priority"
                          "MongoError"),
                    logged "Update Request Priority Error: MongoError" w))
      /\ (Js.truthy (Body.assignedTo (Req.body req)) = true ->
          Controller.assignRequest req e w
          = (Ok (Res.failWith 500 "Failed to assign request" "MongoError"),
             logged "Assign Request Error: MongoError" w))
      /\ Controller.deleteRequest gw req e w
         = (Ok (Res.failWith 500 "Failed to cancel service request"
                  "MongoError"),
            logged "Delete Request Error: MongoError" w)).
Proof.
  intros Hi Hoid Hd Hv. split.
  - intros Hf Hsv. split.
    + intros s Hs Hin. apply includes_In in Hin.
      unfold Controller.updateRequestStatus. rewrite Hs, Hi.
      change Controller.validStatuses with Model.statusEnum. rewrite Hin.
      cbn [negb]. plumbing. rewrite findById_up by done. rewrite Hd.
      unfold Methods.updateStatus. plumbing. cbv zeta.
      fold (transitioned s (Body.adminNote (Req.body req)) (dateNow e) (freshNoteId e) d).
      by rewrite save_down by (by apply validate_transitioned || done).
    + intros Hn. unfold Controller.addAdminNote. rewrite Hn, Hi. cbn [negb].
      plumbing. rewrite findById_up by done. rewrite Hd.
      by rewrite save_down by done.
  - intros Hup. repeat split.
    + intros p Hp Hin. apply includes_In in Hin.
      unfold Controller.updateRequestPriority. rewrite Hp, Hi.
      change Controller.validPriorities with Model.priorityEnum. rewrite Hin.
      cbn [negb Model.check]. plumbing.
      by rewrite findByIdAndUpdate_down.
    + intros Ha. unfold Controller.assignRequest.
      destruct (Body.assignedTo (Req.body req)) as [a|]; [|discriminate Ha].
      rewrite Ha, Hi. cbn [negb]. plumbing.
      by rewrite findByIdAndUpdate_down.
    + unfold Controller.deleteRequest. rewrite Hi. plumbing.
      by rewrite findByIdAndUpdate_down.
Qed.

Lemma X5_refused_write_is_500_witness :
  Controller.updateRequestStatus Sample.brokenGateway
    (Sample.putStatus "completed" (Some "done")) Sample2.envWriteDown
    (Sample.world "reviewing" [])
  = (Ok (Res.failWith 500 "Failed to update request status" "MongoError"),
     logged "Update Request Status Error: MongoError"
       (Sample.world "reviewing" [])).
Proof.
  apply (proj1 (proj1 (X5_refused_write_is_500 Sample.brokenGateway
                         (Sample.putStatus "completed" (Some "done"))
                         Sample2.envWriteDown (Sample.world "reviewing" [])
                         Sample.r1 (Sample.request "reviewing" [])
                         eq_refl eq_refl eq_refl eq_refl)
                  eq_refl eq_refl) "completed" eq_refl).
  cbn. tauto.
Defined.

(** *** The dashboard *)

Lemma count_all (p : ServiceRequest -> bool) (l : list ServiceRequest) :
  (forall d, p d = true) ->
  length (filter (fun d => p d = true) l) = length l.
Proof.
  intros Hp. induction l as [|d l IH]; [reflexivity|].
  rewrite filter_cons. case_decide; [|by destruct (Hp d)]. cbn. by rewrite IH.
Qed.

Lemma count_cons_status s d (l : list ServiceRequest) :
  length (filter (fun d => Controller.hasStatus s d = true) (d :: l))
  = (if String.eqb (status d) s then 1 else 0)
    + length (filter (fun d => Controller.hasStatus s d = true) l).
Proof.
  rewrite filter_cons. case_decide as H; unfold Controller.hasStatus in H.
  - by rewrite H.
  - by destruct (status d =? s).
Qed.

(** Each document with a status of the enumeration is counted under exactly
    one of the seven. *)
Lemma count_by_status (l : list ServiceRequest) :
  Forall (fun d => In (status d) Model.statusEnum) l ->
  let n s := length (filter (fun d => Controller.hasStatus s d = true) l) in
  n "submitted" + n "reviewing" + n "in-progress" + n "revision"
  + n "completed" + n "delivered" + n "cancelled" = length l.
Proof.
  intros Hl. cbv zeta. induction Hl as [|d l Hd Hl IH]; [reflexivity|].
  rewrite !count_cons_status. cbn [length]. cbn in Hd.
  destruct Hd as [<-|[<-|[<-|[<-|[<-|[<-|[<-|[]]]]]]]]; cbn; lia.
Qed.

Lemma getDashboardStats_run req e w :
  storeUp e OpCount = true ->
  let n s := Z.of_nat (Admin.count (Controller.hasStatus s) (requests w)) in
  Controller.getDashboardStats req e w
  = (Ok (Res.okData 200
           (JObj [("submitted", JNum (n "submitted"));
                  ("inProgress", JNum (n "in-progress"));
                  ("completed", JNum (n "completed"));
                  ("urgent",
                   JNum (Z.of_nat
                           (Admin.count
                              (fun d => String.eqb (priority d) "urgent")
                              (requests w))));
                  ("cancelled", JNum (n "cancelled"));
                  ("reviewing", JNum (n "reviewing"));
                  ("delivered", JNum (n "delivered"));
                  ("total", JNum (Z.of_nat (size (requests w))))])), w).
Proof.
  intros Hup. unfold Controller.getDashboardStats, Mongoose.countDocuments,
    Mongoose.driver.
  plumbing. rewrite Hup. cbv zeta. cbn [fst snd].
  rewrite (count_all (fun _ => true)) by done.
  rewrite length_fmap, length_map_to_list. reflexivity.
Qed.

(** X6. With the store answering, the dashboard reports the number of stored
    requests in each of six statuses, the number of urgent ones and the size
    of the collection, and changes nothing. It reports no count for the
    status ["revision"]: in a collection of valid documents the six status
    counts and the requests in revision together make the total. *)
Theorem X6_dashboard_counts req e w :
  storeUp e OpCount = true ->
  let n s := Admin.count (Controller.hasStatus s) (requests w) in
  let urgent :=
    Admin.count (fun d => String.eqb (priority d) "urgent") (requests w) in
  Controller.getDashboardStats req e w
  = (Ok (Res.okData 200
           (JObj [("submitted", JNum (Z.of_nat (n "submitted")));
                  ("inProgress", JNum (Z.of_nat (n "in-progress")));
                  ("completed", JNum (Z.of_nat (n "completed")));
                  ("urgent", JNum (Z.of_nat urgent));
                  ("cancelled", JNum (Z.of_nat (n "cancelled")));
                  ("reviewing", JNum (Z.of_nat (n "reviewing")));
                  ("delivered", JNum (Z.of_nat (n "delivered")));
                  ("total", JNum (Z.of_nat (size (requests w))))])), w)
  /\ urgent <= size (requests w)
  /\ (sound (requests w) ->
      n "submitted" + n "in-progress" + n "completed" + n "cancelled"
      + n "reviewing" + n "delivered" + n "revision" = size (requests w)).
Proof.
  intros Hup n urgent. split; [by apply getDashboardStats_run|]. split.
  - subst urgent. unfold Admin.count.
    rewrite <- length_map_to_list, <- (length_fmap snd).
    apply length_filter.
  - intros Hs. subst n. unfold Admin.count.
    rewrite <- length_map_to_list, <- (length_fmap snd).
    rewrite <- (count_by_status (map_to_list (requests w)).*2); [cbv zeta; lia|].
    apply Forall_forall. intros d Hd.
    apply list_elem_of_fmap in Hd.
    destruct Hd as ([i d'] & -> & Hel). apply elem_of_map_to_list in Hel.
    destruct (map_Forall_lookup_1 _ _ _ _ Hs Hel) as [_ Hv].
    apply includes_In. exact (proj1 (validate_nil _ Hv)).
Qed.

Lemma X6_dashboard_counts_witness :
  let n s := Admin.count (Controller.hasStatus s)
               (requests (Sample.world "revision" [])) in
  Controller.getDashboardStats Sample2.getStats Sample.env
    (Sample.world "revision" [])
  = (Ok (Res.okData 200
           (JObj [("submitted", JNum 0); ("inProgress", JNum 0);
                  ("completed", JNum 0); ("urgent", JNum 0);
                  ("cancelled", JNum 0); ("reviewing", JNum 0);
                  ("delivered", JNum 0); ("total", JNum 1)])),
     Sample.world "revision" [])
  /\ n "submitted" + n "in-progress" + n "completed" + n "cancelled"
     + n "reviewing" + n "delivered" + n "revision" = 1.
Proof.
  intros n.
  destruct (X6_dashboard_counts Sample2.getStats Sample.env
              (Sample.world "revision" []) eq_refl) as (Hrun & _ & Htotal).
  split; [exact Hrun|].
  apply Htotal. apply map_Forall_singleton. split; reflexivity.
Defined.

(** *** The read handlers *)

Lemma getRequestById_uncastable req e w i :
  Req.param "id" req = Some i ->
  Model.isObjectId i = false ->
  Controller.getRequestById req e w
  = (Ok (Res.failWith 500 "Failed to fetch service request"
           (castMessage e "ServiceRequest" i)),
     logged ("Get Request By ID Error: " +:+ castMessage e "ServiceRequest" i)
       w).
Proof.
  intros Hi Hoid. unfold Controller.getRequestById, Mongoose.findById,
    Mongoose.castId, Mongoose.castIdOf.
  rewrite Hi, Hoid. reflexivity.
Qed.

(** X7. The admin detail view, for a well-formed [_id] of a stored request
    and the store answering, answers 200 with the whole document and leaves
    the world as it was: every admin note is there, in order, with its text,
    its author, its date and its [_id], and every other path of the request
    is under its key. An [_id] that does not cast to an [ObjectId] (neither
    24 hexadecimal digits nor of length 12) is answered 500 with the cast
    error of Mongoose as [error], not 404. *)
Theorem X7_detail_shows_admin_notes req e w i :
  Req.param "id" req = Some i ->
  (Model.isObjectId i = false ->
   Js.length i <> 12 ->
   Controller.getRequestById req e w
   = (Ok (Res.failWith 500 "Failed to fetch service request"
            (castMessage e "ServiceRequest" i)),
      logged ("Get Request By ID Error: " +:+ castMessage e "ServiceRequest" i)
        w))
  /\ (forall d,
        Model.isObjectId i = true ->
        requests w !! Model.objectId i = Some d ->
        storeUp e OpFind = true ->
        storeUp e OpPopulate = true ->
        let sent := View.toJSON (catalog w) Admin.detail d in
        Controller.getRequestById req e w = (Ok (Res.okData 200 sent), w)
        /\ (exists items,
              JsonUtil.get "adminNotes" sent = Some (JArr items)
              /\ Forall2 showsNote (adminNotes d) items)
        /\ intact d sent).
Proof.
  intros Hi. split.
  - intros Hoid _. by apply getRequestById_uncastable.
  - intros d Hoid Hd Hf Hp sent. split; [|split].
    + unfold Controller.getRequestById. rewrite Hi. plumbing.
      rewrite findById_up by done. rewrite Hd.
      unfold View.populate, Mongoose.driver. plumbing. by rewrite Hp.
    + destruct (toJSON_gets (catalog w) Admin.detail d)
        as (_ & _ & _ & _ & _ & _ & Hn & _).
      eexists. split; [exact Hn|].
      apply Forall2_shown, ofAdminNote_shows.
    + apply toJSON_intact.
Qed.

Lemma X7_detail_shows_admin_notes_witness :
  (exists items,
     JsonUtil.get "adminNotes"
       (View.toJSON Sample.shop Admin.detail
          (Sample.request "reviewing" Sample.threeNotes))
     = Some (JArr items)
     /\ Forall2 showsNote Sample.threeNotes items)
  /\ Controller.getRequestById (Sample2.getDetail "recent") Sample.env
       (Sample.world "reviewing" Sample.threeNotes)
     = (Ok (Res.failWith 500 "Failed to fetch service request"
              (Sample.castText "ServiceRequest" "recent")),
        logged ("Get Request By ID Error: "
                +:+ Sample.castText "ServiceRequest" "recent")
          (Sample.world "reviewing" Sample.threeNotes)).
Proof.
  split.
  - apply (proj2 (X7_detail_shows_admin_notes (Sample2.getDetail Sample.r1)
                    Sample.env (Sample.world "reviewing" Sample.threeNotes)
                    Sample.r1 eq_refl)
             (Sample.request "reviewing" Sample.threeNotes));
      reflexivity.
  - apply (proj1 (X7_detail_shows_admin_notes (Sample2.getDetail "recent")
                    Sample.env (Sample.world "reviewing" Sample.threeNotes)
                    "recent" eq_refl)); [reflexivity|].
    vm_compute. lia.
Defined.

Lemma sameState_refl w : Admin.sameState w w.
Proof. repeat split. by left. Qed.

Lemma sameState_logged line w : Admin.sameState w (logged line w).
Proof. repeat split. right. by exists line. Qed.

(** X8. The three read handlers (admin detail, public tracking, dashboard)
    never write: on every run, whatever the store and the inputs, the
    collection, the catalog, the users and the mails are as before; at most
    the console gains a line. *)
Theorem X8_read_handlers_do_not_write req e w :
  Admin.sameState w (Controller.getRequestById req e w).2
  /\ Admin.sameState w (Controller.getRequestByRequestId req e w).2
  /\ Admin.sameState w (Controller.getDashboardStats req e w).2.
Proof.
  split; [|split].
  - unfold Controller.getRequestById. plumbing.
    destruct (findById_cases (Req.param "id" req) e w)
      as [(found & -> & _)|[r ->]]; [|apply sameState_logged].
    destruct found as [d|]; [|apply sameState_refl].
    unfold View.populate, Mongoose.driver. plumbing.
    destruct (storeUp e OpPopulate);
      [apply sameState_refl|apply sameState_logged].
  - rewrite getRequestByRequestId_run. unfold fetchFailed.
    destruct (storeUp e OpFind); [|apply sameState_logged].
    destruct (head _); [|apply sameState_refl].
    destruct (storeUp e OpPopulate);
      [apply sameState_refl|apply sameState_logged].
  - unfold Controller.getDashboardStats, Mongoose.countDocuments,
      Mongoose.driver.
    plumbing.
    destruct (storeUp e OpCount);
      [apply sameState_refl|apply sameState_logged].
Qed.

(** *** The mail helpers *)

(** X9. Neither mail helper throws, and both leave the request collection
    alone. The status helper, for a status that names no member of
    [Object.prototype], hands exactly one message to the transport, after
    the ones already there, addressed to the client mail address it was
    given and with the subject of the template of the status, which there
    is; it reports success with the message id when the transport took the
    message and failure with the reason when it refused. For a status that
    names such a member (["constructor"], ["toString"], ...) there is no
    template: with a note the helper hands nothing to the transport and
    reports the failure of reading [replace] of [undefined]; without one it
    hands over a message that has neither subject nor body. The custom mail
    helper hands over exactly one message, with the subject it was given, if
    any. *)
Theorem X9_mail_helpers_never_throw e w :
  (forall clientEmail clientName requestId status_ adminNote,
     let found := Email.getEmailTemplate status_ clientName requestId in
     exists r w',
       Email.sendStatusUpdateEmail clientEmail clientName requestId status_
         adminNote e w = (Ok r, w')
       /\ requests w' = requests w
       /\ (Model.includes Email.inherited status_ = false ->
           (exists subject, Email.subject found = Some subject)
           /\ exists o,
                outbox w' = outbox w ++ [o]
                /\ Mail.to o = clientEmail
                /\ Mail.subject o = Email.subject found
                /\ r = match smtp e o with
                       | Mail.Sent mid => Email.sent mid
                       | Mail.Refused reason => Email.failed reason
                       end)
       /\ (In status_ Email.inherited ->
           Js.truthy adminNote = true ->
           outbox w' = outbox w
           /\ r = Email.failed (readOfUndefined e "replace"))
       /\ (In status_ Email.inherited ->
           Js.truthy adminNote = false ->
           exists o,
             outbox w' = outbox w ++ [o]
             /\ Mail.to o = clientEmail
             /\ Mail.subject o = None
             /\ Mail.html o = None
             /\ r = match smtp e o with
                    | Mail.Sent mid => Email.sent mid
                    | Mail.Refused reason => Email.failed reason
                    end))
  /\ (forall clientName clientEmail subject message,
        exists o r w',
          Email.sendCustomAdminEmail clientName clientEmail subject message
            e w = (Ok r, w')
          /\ outbox w' = outbox w ++ [o]
          /\ requests w' = requests w
          /\ Mail.to o = clientEmail
          /\ Mail.subject o = subject
          /\ r = match smtp e o with
                 | Mail.Sent mid => Email.sent mid
                 | Mail.Refused reason => Email.failed reason
                 end).
Proof.
  split.
  - intros a b c s n found.
    destruct (Model.includes Email.inherited s) eqn:Hin.
    + assert (Hfound : found = {| Email.subject := None; Email.html := None |}).
      { apply includes_In in Hin. subst found. cbn [In Email.inherited] in Hin.
        repeat (destruct Hin as [<-|Hin]; [reflexivity|]). destruct Hin. }
      unfold Email.sendStatusUpdateEmail, Email.sendMail.
      fold found. rewrite Hfound. cbn [Email.html Email.subject].
      destruct (Js.truthy n) eqn:Hn; plumbing.
      * do 2 eexists. split; [reflexivity|]. cbn.
        split; [done|]. split; [done|]. split; [done|]. done.
      * match goal with
        | |- context [smtp ?e' ?m] =>
            set (o := m); destruct (smtp e' o) eqn:Hsmtp
        end;
          do 2 eexists; (split; [reflexivity|]); cbn;
          (split; [done|]); (split; [done|]); (split; [done|]);
          intros _ _; exists o; by rewrite Hsmtp.
    + destruct (template_found s b c Hin) as (subj & h & Ht).
      unfold Email.sendStatusUpdateEmail, Email.sendMail.
      fold found. assert (Hfound : found = Email.template subj h) by exact Ht.
      rewrite Hfound. cbn [Email.html Email.subject Email.template].
      assert (Hno : ~ In s Email.inherited).
      { intros HIn. apply includes_In in HIn. congruence. }
      destruct (Js.truthy n); plumbing;
        match goal with
        | |- context [smtp ?e' ?m] =>
            set (o := m); destruct (smtp e' o) eqn:Hsmtp
        end;
        do 2 eexists; (split; [reflexivity|]); cbn;
        (split; [done|]);
        (split; [intros _; split; [by eexists|]; exists o; by rewrite Hsmtp|]);
        (split; [done|done]).
  - intros a b c s.
    unfold Email.sendCustomAdminEmail, Email.sendMail. plumbing.
    match goal with |- context [smtp e ?o] => exists o end.
    destruct (smtp e _); do 2 eexists; (split; [reflexivity|]);
      by repeat split.
Qed.

Lemma X9_mail_helpers_never_throw_witness :
  exists r w',
    Email.sendStatusUpdateEmail (Some "jane@x.com") (Some "Jane Doe")
      "REQ-1700000000000-K3J9" "constructor" (Some "Looks good")
      Sample.env Sample.emptyWorld
    = (Ok r, w')
    /\ outbox w' = []
    /\ r = Email.failed
             "Cannot read properties of undefined (reading 'replace')".
Proof.
  destruct (proj1 (X9_mail_helpers_never_throw Sample.env Sample.emptyWorld)
              (Some "jane@x.com") (Some "Jane Doe") "REQ-1700000000000-K3J9"
              "constructor" (Some "Looks good"))
    as (r & w' & Hrun & _ & _ & Hinherited & _).
  exists r, w'. split; [exact Hrun|].
  apply Hinherited; [cbn; tauto|reflexivity].
Defined.

(** X10. The custom mail endpoint answers from its body alone: the [:id] of
    its path, the other fields of the call and the whole collection play no
    part in the answer or in the message. It answers 200 when the transport
    took the message and 500 with the reason when it refused, never throws,
    and writes nothing to the collection. *)
Theorem X10_custom_mail_ignores_the_request req1 req2 e w1 w2 :
  Req.body req1 = Req.body req2 ->
  let run1 := Controller.sendCustomEmailByAdmin req1 e w1 in
  let run2 := Controller.sendCustomEmailByAdmin req2 e w2 in
  run1.1 = run2.1
  /\ last (outbox run1.2) = last (outbox run2.2)
  /\ requests run1.2 = requests w1
  /\ exists o res,
       run1.1 = Ok res
       /\ outbox run1.2 = outbox w1 ++ [o]
       /\ Mail.to o = Body.clientEmail (Req.body req1)
       /\ match smtp e o with
          | Mail.Sent mid =>
              Res.statusCode res = 200
              /\ Res.message res = Some "Custom admin email sent successfully"
          | Mail.Refused reason =>
              Res.statusCode res = 500
              /\ Res.message res = Some "Failed to send custom admin email"
              /\ Res.error res = Some reason
          end.
Proof.
  intros Hb run1 run2. subst run1 run2.
  unfold Controller.sendCustomEmailByAdmin, Email.sendCustomAdminEmail,
    Email.sendMail.
  plumbing. rewrite <- Hb.
  match goal with |- context [smtp e ?m] => set (o := m) end.
  destruct (smtp e o) eqn:Hsmtp; cbn; rewrite !last_snoc;
    (do 3 (split; [reflexivity|])); exists o; eexists;
    (split; [reflexivity|]); rewrite Hsmtp; by repeat split.
Qed.

Lemma X10_custom_mail_ignores_the_request_witness :
  (Controller.sendCustomEmailByAdmin
     (Sample.call POST ["admin"; Sample.r1; "send-email"] [("id", Sample.r1)]
        (Sample2.mailBody "hello"))
     Sample.env (Sample.world "reviewing" [])).1
  = (Controller.sendCustomEmailByAdmin
       (Sample.call POST ["admin"; Sample.ghost; "send-email"]
          [("id", Sample.ghost)] (Sample2.mailBody "hello"))
       Sample.env Sample.emptyWorld).1.
Proof.
  apply (X10_custom_mail_ignores_the_request
           (Sample.call POST ["admin"; Sample.r1; "send-email"]
              [("id", Sample.r1)] (Sample2.mailBody "hello"))
           (Sample.call POST ["admin"; Sample.ghost; "send-email"]
              [("id", Sample.ghost)] (Sample2.mailBody "hello"))
           Sample.env (Sample.world "reviewing" []) Sample.emptyWorld).
  reflexivity.
Defined.

(** *** The bearer-token middleware *)

(** X11. [protect] never throws and never touches the collection. It hands
    the call on exactly when the [Authorization] header starts with [Bearer]
    and carries, after the first blank, a token that verifies to a payload
    whose [id] casts to the [ObjectId] of an existing, verified user, the
    store answering the lookup of that user; the call then goes on with the
    user as [req.user] and is otherwise unchanged. In every other case, a
    refused lookup included, the answer is 401. *)
Theorem X11_protect_passes_verified_users_only req e w :
  (forall u, Admin.authenticated req e w u ->
             Auth.protect req e w = (Ok (Auth.Next (Req.withUser u req)), w))
  /\ exists step w',
       Auth.protect req e w = (Ok step, w')
       /\ Admin.sameState w w'
       /\ match step with
          | Auth.Next req' =>
              exists u, Admin.authenticated req e w u
                        /\ req' = Req.withUser u req /\ w' = w
          | Auth.Respond res =>
              Res.statusCode res = 401 /\ Res.success res = false
          end.
Proof.
  split.
  - intros u (token & id & Htok & Hne & Hver & Hoid & Hup & Hu & Hv).
    unfold Auth.protect, Auth.verify, Mongoose.findUserById, Mongoose.castIdOf,
      Mongoose.driver.
    rewrite Htok.
    apply String.eqb_neq in Hne. cbn [Js.truthy]. rewrite Hne. cbn [negb].
    plumbing. cbn [default from_option]. unfold Datatypes.id.
    rewrite Hver. plumbing. rewrite Hoid. plumbing. by rewrite Hup, Hu, Hv.
  - unfold Auth.protect, Auth.verify, Mongoose.findUserById, Mongoose.castIdOf,
      Mongoose.driver.
    destruct (Auth.bearerToken (Req.authorization req)) as [token|] eqn:Htok.
    2:{ do 2 eexists. split; [reflexivity|]. split; [apply sameState_refl|].
        by split. }
    cbn [Js.truthy].
    destruct (token =? EmptyString) eqn:Hne; cbn [negb].
    { do 2 eexists. split; [reflexivity|]. split; [apply sameState_refl|].
      by split. }
    plumbing. cbn [default from_option]. unfold Datatypes.id.
    destruct (jwtVerify e token) as [[id|]|] eqn:Hver; plumbing.
    3:{ do 2 eexists. split; [reflexivity|]. split; [apply sameState_logged|].
        by split. }
    2:{ destruct (storeUp e OpFindUser); do 2 eexists;
          (split; [reflexivity|]);
          (split; [apply sameState_refl || apply sameState_logged|]);
          by split. }
    destruct (Model.isObjectId id) eqn:Hoid; plumbing.
    2:{ do 2 eexists. split; [reflexivity|]. split; [apply sameState_logged|].
        by split. }
    destruct (storeUp e OpFindUser) eqn:Hup.
    2:{ do 2 eexists. split; [reflexivity|]. split; [apply sameState_logged|].
        by split. }
    destruct (users w !! Model.objectId id) as [u|] eqn:Hu.
    2:{ do 2 eexists. split; [reflexivity|]. split; [apply sameState_refl|].
        by split. }
    destruct (isVerified u) eqn:Hv; cbn [negb].
    + do 2 eexists. split; [reflexivity|]. split; [apply sameState_refl|].
      exists u. split; [|done]. exists token, id.
      apply String.eqb_neq in Hne. by repeat split.
    + do 2 eexists. split; [reflexivity|]. split; [apply sameState_refl|].
      by split.
Qed.

Lemma X11_protect_passes_verified_users_only_witness :
  Auth.protect (Sample2.withBearer "Bearer good-token") Sample2.envWithVerifier
    Sample2.worldWithUser
  = (Ok (Auth.Next (Req.withUser Sample2.verifiedUser
                      (Sample2.withBearer "Bearer good-token"))),
     Sample2.worldWithUser).
Proof.
  apply (proj1 (X11_protect_passes_verified_users_only
                  (Sample2.withBearer "Bearer good-token")
                  Sample2.envWithVerifier Sample2.worldWithUser)).
  exists "good-token", Sample.ghost. repeat split. discriminate.
Defined.

(** *** The router *)

Lemma validateServiceRequest_run req e w :
  Routes.validateServiceRequest req e w
  = match Body.selectionPath (Req.body req), Body.clientInfo (Req.body req) with
    | Some _, Some ci =>
        if negb (Js.truthy (Body.requestType (Req.body req)))
        then (Ok (Auth.Respond (Res.fail 400
                "Selection path, request type, and client info are required")), w)
        else if negb (Js.truthy (fullName ci)) || negb (Js.truthy (email ci))
                || negb (Js.truthy (phone ci))
        then (Ok (Auth.Respond (Res.fail 400
                "Client name, email, and phone are required")), w)
        else (Ok (Auth.Next req), w)
    | _, _ =>
        (Ok (Auth.Respond (Res.fail 400
           "Selection path, request type, and client info are required")), w)
    end.
Proof.
  unfold Routes.validateServiceRequest.
  destruct (Body.selectionPath (Req.body req)) as [sp|]; [|reflexivity].
  destruct (Body.clientInfo (Req.body req)) as [ci|]; [|reflexivity].
  destruct (negb (Js.truthy (Body.requestType (Req.body req)))); [reflexivity|].
  by destruct (negb _ || negb _ || negb _).
Qed.

(** X12. At the route [POST /], behind [validateServiceRequest], a
    submission is always answered, never with a thrown error; it is answered
    400 exactly when the body is incomplete (no selection path, request type
    or client info, or no name, mail address or phone) or its selection
    path lacks what its request type asks for; and a 400 leaves the world as
    it was. *)
Theorem X12_route_answers_400_for_incomplete_bodies req e w :
  Req.method req = POST ->
  Req.path req = [] ->
  exists res w',
    Routes.serve req e w = (Ok (Routes.Answered res), w')
    /\ (Res.statusCode res = 400 <->
        Admin.incomplete (Req.body req)
        \/ Admin.selectionMissing (Req.body req))
    /\ (Res.statusCode res = 400 -> w' = w).
Proof.
  intros Hm Hp. rewrite serve_create by done.
  rewrite validateServiceRequest_run. cbn [Req.body Req.withParams].
  unfold Admin.incomplete, Admin.selectionMissing.
  destruct (Body.selectionPath (Req.body req)) as [sp|] eqn:Hsp.
  2:{ do 2 eexists. split; [reflexivity|]. cbn. split; [|done].
      split; [by left; left|done]. }
  destruct (Body.clientInfo (Req.body req)) as [ci|] eqn:Hci.
  2:{ do 2 eexists. split; [reflexivity|]. cbn. split; [|done].
      split; [by left; right; right|done]. }
  destruct (Js.truthy (Body.requestType (Req.body req))) eqn:Hrt; cbn [negb].
  2:{ do 2 eexists. split; [reflexivity|]. cbn. split; [|done].
      split; [by left; right; left|done]. }
  destruct (Js.truthy (fullName ci)) eqn:Hn; cbn [negb orb].
  2:{ do 2 eexists. split; [reflexivity|]. cbn. split; [|done].
      split; [left; right; right; by left|done]. }
  destruct (Js.truthy (email ci)) eqn:Hem; cbn [negb orb].
  2:{ do 2 eexists. split; [reflexivity|]. cbn. split; [|done].
      split; [left; right; right; right; by left|done]. }
  destruct (Js.truthy (phone ci)) eqn:Hph; cbn [negb orb].
  2:{ do 2 eexists. split; [reflexivity|]. cbn. split; [|done].
      split; [left; right; right; right; by right|done]. }
  pose proof (createRequest_cases (Req.withParams [] req) e w) as Hrun.
  cbn [Req.body Req.withParams] in Hrun. rewrite Hsp in Hrun.
  pose proof (selectionAnswer_early sp (Body.requestType (Req.body req)))
    as Hearly.
  destruct (selectionAnswer (Some sp) (Body.requestType (Req.body req)))
    as [[early|]|r].
  - rewrite Hrun. do 2 eexists. split; [reflexivity|].
    destruct (proj1 (Hearly early) eq_refl)
      as [(Hsvc & Hmiss & ->)|(Hcmb & Hmiss & ->)]; cbn.
    + split; [|done]. split; [|done]. intros _. right. exists sp.
      split; [done|]. by left.
    + split; [|done]. split; [|done]. intros _. right. exists sp.
      split; [done|]. by right.
  - destruct Hrun as (res & w' & -> & Hcode). do 2 eexists.
    split; [reflexivity|].
    assert (Hne : Res.statusCode res <> 400)
      by (destruct Hcode as [->| ->]; discriminate).
    split; [|done]. split; [done|].
    intros [[?|[?|[?|[?|?]]]]|(sp' & [= <-] & Hmiss)]; try done.
    exfalso. destruct Hmiss as [[Hsvc Hmiss]|[Hcmb Hmiss]].
    + assert (Ok None = Ok (Some (Res.fail 400
                "Category and Service selection is required for service requests")))
        as Habs by (apply Hearly; left; by auto).
      discriminate Habs.
    + assert (Ok None = Ok (Some (Res.fail 400
                "Combo selection is required for combo requests")))
        as Habs by (apply Hearly; right; by auto).
      discriminate Habs.
  - destruct Hrun as (res & w' & -> & Hcode). do 2 eexists.
    split; [reflexivity|].
    assert (Hne : Res.statusCode res <> 400)
      by (destruct Hcode as [->| ->]; discriminate).
    split; [|done]. split; [done|].
    intros [[?|[?|[?|[?|?]]]]|(sp' & [= <-] & Hmiss)]; try done.
    exfalso. destruct Hmiss as [[Hsvc Hmiss]|[Hcmb Hmiss]].
    + assert (Throw r = Ok (Some (Res.fail 400
                "Category and Service selection is required for service requests")))
        as Habs by (apply Hearly; left; by auto).
      discriminate Habs.
    + assert (Throw r = Ok (Some (Res.fail 400
                "Combo selection is required for combo requests")))
        as Habs by (apply Hearly; right; by auto).
      discriminate Habs.
Qed.

Lemma X12_route_answers_400_for_incomplete_bodies_witness :
  exists res,
    Routes.serve (Sample.post (Some "service") None) Sample.env
      Sample.emptyWorld
    = (Ok (Routes.Answered res), Sample.emptyWorld)
    /\ Res.statusCode res = 400.
Proof.
  destruct (X12_route_answers_400_for_incomplete_bodies
              (Sample.post (Some "service") None) Sample.env
              Sample.emptyWorld eq_refl eq_refl)
    as (res & w' & Hrun & Hcode & Hw).
  assert (H400 : Res.statusCode res = 400).
  { apply Hcode. left. by left. }
  exists res. rewrite Hrun, (Hw H400). by split.
Defined.

(** X13. Of the [GET] routes with two segments under [/admin], the router
    takes [/admin/dashboard-stats], in any case of its letters, for the
    dashboard and every other [/admin/x], [x] not empty and without percent
    escape, for the detail view with [x] as the [_id]; so [GET
    /admin/recent] never reaches the handler of the recent requests: like
    every [x] that does not cast to an [ObjectId], it is answered by the
    detail view with 500 and the cast error of Mongoose. *)
Theorem X13_admin_get_routes req x e w :
  Req.method req = GET ->
  Req.path req = ["admin"; x] ->
  x <> EmptyString ->
  Routes.unescaped x = true ->
  Routes.serve req e w
  = (if String.eqb (Js.lowerAscii x) "dashboard-stats"
     then Admin.served (Controller.getDashboardStats (Req.withParams [] req) e w)
     else Admin.served (Controller.getRequestById
                    (Req.withParams [("id", x)] req) e w))
  /\ (Js.lowerAscii x <> "dashboard-stats" ->
      Model.isObjectId x = false ->
      Js.length x <> 12 ->
      Routes.serve req e w
      = (Ok (Routes.Answered
               (Res.failWith 500 "Failed to fetch service request"
                  (castMessage e "ServiceRequest" x))),
         logged ("Get Request By ID Error: "
                 +:+ castMessage e "ServiceRequest" x) w)).
Proof.
  intros Hm Hp Hne Hesc.
  assert (Hrun :
    Routes.serve req e w
    = (if String.eqb (Js.lowerAscii x) "dashboard-stats"
       then Admin.served (Controller.getDashboardStats (Req.withParams [] req) e w)
       else Admin.served (Controller.getRequestById
                      (Req.withParams [("id", x)] req) e w))).
  { unfold Routes.serve, Routes.router. cbn [Routes.findRoute].
    rewrite Hm, Hp.
    cbn [Routes.method Routes.pattern Routes.eqMethod Routes.matchPath].
    unfold Routes.eqLiteral.
    change (Js.lowerAscii "userRequest" =? Js.lowerAscii "admin") with false.
    change (Js.lowerAscii "track" =? Js.lowerAscii "admin") with false.
    change (Js.lowerAscii "admin" =? Js.lowerAscii "admin") with true.
    change (Js.lowerAscii "dashboard-stats") with "dashboard-stats".
    cbn [Routes.matchPath].
    rewrite (String.eqb_sym "dashboard-stats" (Js.lowerAscii x)).
    apply String.eqb_neq in Hne. rewrite Hne.
    destruct (Js.lowerAscii x =? "dashboard-stats") eqn:Hx.
    - cbn. plumbing. rewrite isAdmin_passes. unfold Admin.served.
      by destruct (Controller.getDashboardStats _ e w) as [[?|?] ?].
    - destruct (Js.lowerAscii "status" =? Js.lowerAscii x);
        cbn [mbind option_bind Routes.matchPath Req.params Req.withParams
             forallb snd negb andb];
        rewrite Hesc; cbn [negb andb Routes.chain Routes.handler
                           Routes.runChain];
        plumbing; rewrite isAdmin_passes;
        unfold Admin.served;
        by destruct (Controller.getRequestById _ e w) as [[?|?] ?]. }
  split; [exact Hrun|].
  intros Hx Hoid _. rewrite Hrun. apply String.eqb_neq in Hx. rewrite Hx.
  by rewrite (getRequestById_uncastable _ e w x).
Qed.

Lemma X13_admin_get_routes_witness :
  Routes.serve (Sample.call GET ["admin"; "recent"] [] Body.empty) Sample.env
    (Sample.world "reviewing" [])
  = (Ok (Routes.Answered
           (Res.failWith 500 "Failed to fetch service request"
              (Sample.castText "ServiceRequest" "recent"))),
     logged ("Get Request By ID Error: "
             +:+ Sample.castText "ServiceRequest" "recent")
       (Sample.world "reviewing" []))
  /\ Sample.castText "ServiceRequest" "recent"
     = "Cast to ObjectId failed for value " +:+ Js.quote +:+ "recent"
       +:+ Js.quote +:+ " (type string) at path " +:+ Js.quote +:+ "_id"
       +:+ Js.quote +:+ " for model " +:+ Js.quote +:+ "ServiceRequest"
       +:+ Js.quote.
Proof.
  split; [|reflexivity].
  apply (proj2 (X13_admin_get_routes
                  (Sample.call GET ["admin"; "recent"] [] Body.empty)
                  "recent" Sample.env (Sample.world "reviewing" [])
                  eq_refl eq_refl ltac:(discriminate) eq_refl)).
  - discriminate.
  - reflexivity.
  - vm_compute. lia.
Defined.

(** * Invariants of the collection *)

Lemma sameSubmission_refl d : Admin.sameSubmission d d.
Proof. by repeat split. Qed.

Lemma sameSubmission_trans d1 d2 d3 :
  Admin.sameSubmission d1 d2 -> Admin.sameSubmission d2 d3 ->
  Admin.sameSubmission d1 d3.
Proof.
  unfold Admin.sameSubmission. intros H12 H23.
  destruct H12 as (?&?&?&?&?&?&?&?&?), H23 as (?&?&?&?&?&?&?&?&?).
  repeat split; congruence.
Qed.

Lemma sameSubmission_transitioned s n t o d :
  Admin.sameSubmission d (transitioned s n t o d).
Proof. unfold transitioned. destruct (Js.truthy n); by repeat split. Qed.

Lemma edits_same m : Admin.edits m m.
Proof. by left. Qed.

Lemma edits_update m i d d' :
  m !! i = Some d -> Admin.sameSubmission d d' ->
  Admin.edits m (<[_id d := d']> m).
Proof. intros. right. left. by exists i, d, d'. Qed.

Section Edits.
Variable gw : Gateway.
Hypothesis gw_keeps : keepsRequests gw.

Lemma updateRequestStatus_edits req e w :
  Admin.edits (requests w)
    (requests (Controller.updateRequestStatus gw req e w).2).
Proof.
  unfold Controller.updateRequestStatus.
  destruct (Body.status (Req.body req)) as [s|]; [|apply edits_same].
  destruct (negb _); [apply edits_same|]. plumbing.
  destruct (findById_cases (Req.param "id" req) e w)
    as [(found & -> & Hfound)|[r ->]]; [|apply edits_same].
  destruct found as [d|]; [|apply edits_same].
  destruct (Hfound d eq_refl) as (i & _ & Hd).
  destruct (updateStatus_cases d s (Body.adminNote (Req.body req)) e w)
    as [[Hvalid ->]|[r ->]]; [|apply edits_same].
  destruct (negb (status d =? s)).
  - destruct (notifyStatus_requests gw
                (transitioned s (Body.adminNote (Req.body req)) (dateNow e) (freshNoteId e) d)
                s (Body.adminNote (Req.body req)) e
                (stored (<[_id d := transitioned s (Body.adminNote (Req.body req))
                                      (dateNow e) (freshNoteId e) d]> (requests w)) w) gw_keeps)
      as (w' & -> & Hreq).
    cbn. rewrite Hreq. cbn.
    eapply edits_update; [exact Hd|apply sameSubmission_transitioned].
  - cbn. eapply edits_update; [exact Hd|apply sameSubmission_transitioned].
Qed.

Lemma deleteRequest_edits req e w :
  Admin.edits (requests w) (requests (Controller.deleteRequest gw req e w).2).
Proof.
  unfold Controller.deleteRequest. plumbing.
  destruct (findByIdAndUpdate_cases (Req.param "id" req)
              (Model.setStatus "cancelled") [] e w)
    as [(i & d & _ & Hd & ->)|[->|[r ->]]]; try apply edits_same.
  destruct (notifyCancelled_requests gw gw_keeps
              (Model.setStatus "cancelled" d) e
              (stored (<[_id d := Model.setStatus "cancelled" d]> (requests w)) w))
    as (w' & -> & Hreq).
  cbn. rewrite Hreq. cbn.
  apply (edits_update _ (Model.objectId i) d); [exact Hd|by repeat split].
Qed.

End Edits.

Lemma createRequest_edits req e w :
  Admin.edits (requests w) (requests (Controller.createRequest req e w).2).
Proof.
  rewrite createRequest_run.
  destruct (selectionAnswer _ _) as [[early|]|r]; try apply edits_same.
  cbv zeta. unfold submitFailed.
  destruct (Model.validate _) eqn:Hvalid; [|apply edits_same].
  destruct (storeUp e OpSave); [|apply edits_same].
  destruct (Model.isSome (requests w !! _id (created req e))) eqn:Hfree;
    [apply edits_same|].
  destruct (Mongoose.requestIdTaken _ _) eqn:Htaken; [apply edits_same|].
  cbn [orb].
  assert (requests w !! _id (created req e) = None) as Hnone.
  { by destruct (requests w !! _id (created req e)). }
  destruct (storeUp e OpPopulate); right; right; by eexists.
Qed.

Lemma updateRequestPriority_edits req e w :
  Admin.edits (requests w)
    (requests (Controller.updateRequestPriority req e w).2).
Proof.
  unfold Controller.updateRequestPriority.
  destruct (Body.priority (Req.body req)) as [p|]; [|apply edits_same].
  destruct (negb _) eqn:Hp; [apply edits_same|]. plumbing.
  destruct (findByIdAndUpdate_cases (Req.param "id" req) (Model.setPriority p)
              (Model.check "priority" (Model.includes Model.priorityEnum p)) e w)
    as [(i & d & _ & Hd & ->)|[->|[r ->]]]; try apply edits_same.
  cbn. apply (edits_update _ (Model.objectId i) d); [exact Hd|by repeat split].
Qed.

Lemma assignRequest_edits req e w :
  Admin.edits (requests w) (requests (Controller.assignRequest req e w).2).
Proof.
  unfold Controller.assignRequest.
  destruct (Body.assignedTo (Req.body req)) as [a|]; [|apply edits_same].
  destruct (negb _); [apply edits_same|]. plumbing.
  destruct (findByIdAndUpdate_cases (Req.param "id" req) (Model.setAssignedTo a)
              [] e w)
    as [(i & d & _ & Hd & ->)|[->|[r ->]]]; try apply edits_same.
  cbn. apply (edits_update _ (Model.objectId i) d); [exact Hd|by repeat split].
Qed.

Lemma addAdminNote_edits req e w :
  Admin.edits (requests w) (requests (Controller.addAdminNote req e w).2).
Proof.
  unfold Controller.addAdminNote.
  destruct (negb _); [apply edits_same|]. plumbing.
  destruct (findById_cases (Req.param "id" req) e w)
    as [(found & -> & Hfound)|[r ->]]; [|apply edits_same].
  destruct found as [d|]; [|apply edits_same].
  destruct (Hfound d eq_refl) as (i & _ & Hd).
  unfold Mongoose.save, Mongoose.validated, Mongoose.driver.
  destruct (Model.validate _) eqn:Hvalid; [|apply edits_same]. plumbing.
  destruct (storeUp e OpSave); [|apply edits_same].
  cbn. eapply edits_update; [exact Hd|by repeat split].
Qed.

Lemma perform_edits op req e w :
  Admin.edits (requests w) (requests (perform op req e w).2).
Proof.
  destruct op; cbn [perform].
  - apply createRequest_edits.
  - apply updateRequestStatus_edits, sendStatusUpdateEmail_keepsRequests.
  - apply updateRequestPriority_edits.
  - apply addAdminNote_edits.
  - apply assignRequest_edits.
  - apply deleteRequest_edits, sendStatusUpdateEmail_keepsRequests.
Qed.

Lemma edits_keyed m m' : keyed m -> Admin.edits m m' -> keyed m'.
Proof.
  intros Hk [->|[(i & d & d' & Hd & Hsame & ->)|(d & _ & _ & ->)]].
  - exact Hk.
  - apply map_Forall_insert_2; [exact (proj1 Hsame)|exact Hk].
  - by apply map_Forall_insert_2.
Qed.

Lemma edits_submission m m' i d :
  keyed m -> Admin.edits m m' -> m !! i = Some d ->
  exists d', m' !! i = Some d' /\ Admin.sameSubmission d d'.
Proof.
  intros Hk [->|[(j & dj & dj' & Hdj & Hsame & ->)|(dn & Hfree & _ & ->)]] Hd.
  - exists d. split; [done|apply sameSubmission_refl].
  - pose proof (map_Forall_lookup_1 _ _ _ _ Hk Hdj) as Hj. cbn in Hj.
    rewrite Hj. destruct (decide (i = j)) as [->|Hne].
    + assert (d = dj) as -> by congruence. exists dj'.
      split; [apply lookup_insert_eq|done].
    + exists d. rewrite lookup_insert_ne by done.
      split; [done|apply sameSubmission_refl].
  - exists d. split; [|apply sameSubmission_refl].
    rewrite lookup_insert_ne; [done|]. intros Heq. rewrite Heq in Hfree.
    congruence.
Qed.

Lemma history_keyed calls w :
  keyed (requests w) -> keyed (requests (history calls w)).
Proof.
  revert w. induction calls as [|[[op req] e] calls IH]; intros w Hk.
  - exact Hk.
  - cbn [history]. apply IH. eapply edits_keyed; [exact Hk|].
    apply perform_edits.
Qed.

Lemma history_submission calls w i d :
  keyed (requests w) ->
  requests w !! i = Some d ->
  exists d',
    requests (history calls w) !! i = Some d'
    /\ Admin.sameSubmission d d'.
Proof.
  revert w d. induction calls as [|[[op req] e] calls IH]; intros w d Hk Hd.
  - exists d. split; [done|apply sameSubmission_refl].
  - cbn [history].
    pose proof (perform_edits op req e w) as He.
    destruct (edits_submission _ _ i d Hk He Hd) as (d1 & Hd1 & H1).
    destruct (IH _ d1 (edits_keyed _ _ Hk He) Hd1) as (d2 & Hd2 & H2).
    exists d2. split; [done|]. by eapply sameSubmission_trans.
Qed.

(** X14. No lifecycle call touches what the client submitted: over any
    sequence of calls, from a collection keyed by [_id], every stored
    request is still stored under the same [_id], with the same
    [requestId], selection path, request type, client info, requirements,
    timeline, pricing and deliverables; only status, priority, admin notes
    and assignee can differ. *)
Theorem X14_submission_is_immutable calls w :
  keyed (requests w) ->
  forall i d,
    requests w !! i = Some d ->
    exists d',
      requests (history calls w) !! i = Some d'
      /\ Admin.sameSubmission d d'.
Proof.
  intros Hk i d Hd. by apply history_submission.
Qed.

Lemma X14_submission_is_immutable_witness :
  exists d',
    requests (history Sample.calls (Sample.world "submitted" [])) !! Sample.r1
    = Some d'
    /\ Admin.sameSubmission (Sample.request "submitted" []) d'.
Proof.
  apply (X14_submission_is_immutable Sample.calls
           (Sample.world "submitted" [])
           (proj2 (map_Forall_singleton _ Sample.r1 _) eq_refl)
           Sample.r1 (Sample.request "submitted" [])).
  reflexivity.
Defined.

Lemma requestIdTaken_false r m :
  Mongoose.requestIdTaken r m = false ->
  forall j d, m !! j = Some d -> requestId d <> r.
Proof.
  unfold Mongoose.requestIdTaken. intros Hfree j d Hd Heq.
  apply bool_decide_eq_false in Hfree. apply Hfree.
  apply Exists_exists. exists d. split; [|exact Heq].
  apply list_elem_of_fmap. exists (j, d). split; [done|].
  by apply elem_of_map_to_list.
Qed.

Lemma edits_unique m m' :
  keyed m -> Admin.uniqueRequestIds m -> Admin.edits m m' ->
  Admin.uniqueRequestIds m'.
Proof.
  intros Hk Hu [->|[(j & dj & dj' & Hdj & Hsame & ->)|(dn & Hnone & Hfree & ->)]].
  - exact Hu.
  - pose proof (map_Forall_lookup_1 _ _ _ _ Hk Hdj) as Hj. cbn in Hj.
    destruct Hsame as (_ & Hrid & _). rewrite Hj.
    intros i1 i2 d1 d2 H1 H2 Heq.
    apply lookup_insert_Some in H1 as [[<- <-]|[Hne1 H1]];
      apply lookup_insert_Some in H2 as [[<- <-]|[Hne2 H2]].
    + done.
    + rewrite Hrid in Heq. exact (Hu _ _ _ _ Hdj H2 Heq).
    + rewrite Hrid in Heq. exact (Hu _ _ _ _ H1 Hdj Heq).
    + exact (Hu _ _ _ _ H1 H2 Heq).
  - pose proof (requestIdTaken_false _ _ Hfree) as Hnew.
    intros i1 i2 d1 d2 H1 H2 Heq.
    apply lookup_insert_Some in H1 as [[<- <-]|[Hne1 H1]];
      apply lookup_insert_Some in H2 as [[<- <-]|[Hne2 H2]].
    + done.
    + by destruct (Hnew _ _ H2).
    + by destruct (Hnew _ _ H1).
    + exact (Hu _ _ _ _ H1 H2 Heq).
Qed.

Lemma createRequest_taken req e w :
  Mongoose.requestIdTaken (requestId (created req e)) (requests w) = true ->
  exists res w',
    Controller.createRequest req e w = (Ok res, w')
    /\ requests w' = requests w
    /\ In (Res.statusCode res) [400; 500].
Proof.
  intros Htaken. rewrite createRequest_run.
  destruct (selectionAnswer _ _) as [[early|]|r] eqn:Hsel.
  - apply selectionAnswer_400 in Hsel. do 2 eexists.
    split; [reflexivity|]. split; [reflexivity|]. rewrite Hsel. by left.
  - cbv zeta. unfold submitFailed. rewrite Htaken, orb_true_r.
    destruct (Model.validate _); [destruct (storeUp e OpSave)|];
      do 2 eexists; (split; [reflexivity|]); cbn; tauto.
  - unfold submitFailed. do 2 eexists. split; [reflexivity|]. cbn. tauto.
Qed.

(** X15. The [requestId] stays a key: if no two stored requests share a
    [requestId] (and each sits under its own [_id]), then after any sequence
    of lifecycle calls no two stored requests share one either, whatever
    the clock and the random source gave to [createRequest]; and a
    submission whose generated [requestId] is the one of a stored request
    is answered 400 or 500 and stores nothing. *)
Theorem X15_request_ids_stay_unique calls w :
  keyed (requests w) ->
  Admin.uniqueRequestIds (requests w) ->
  Admin.uniqueRequestIds (requests (history calls w))
  /\ forall req e,
       Mongoose.requestIdTaken (requestId (created req e))
         (requests (history calls w)) = true ->
       exists res w',
         Controller.createRequest req e (history calls w) = (Ok res, w')
         /\ requests w' = requests (history calls w)
         /\ In (Res.statusCode res) [400; 500].
Proof.
  intros Hk Hu. split; [|intros req e; apply createRequest_taken].
  revert w Hk Hu.
  induction calls as [|[[op req] e] calls IH]; intros w Hk Hu.
  - exact Hu.
  - cbn [history]. pose proof (perform_edits op req e w) as He.
    apply IH; [by eapply edits_keyed|by eapply edits_unique].
Qed.

Lemma validate_wellFormed d : Model.validate d = [] -> Admin.wellFormed d.
Proof.
  intros Hvalid. pose proof (validate_nil _ Hvalid) as [Hs Hp].
  unfold Model.validate in Hvalid.
  repeat (apply app_eq_nil in Hvalid; destruct Hvalid as [? Hvalid]).
  repeat match goal with
         | H : Model.check _ _ = [] |- _ =>
             apply check_nil in H; try apply andb_prop in H
         end.
  repeat match goal with H : _ /\ _ |- _ => destruct H end.
  unfold Admin.wellFormed, Model.required in *.
  split; [by apply includes_In|]. split; [by apply includes_In|].
  split; [done|].
  split.
  - destruct (requestType d) as [rt|]; [|done].
    cbn [Model.enumOf] in *. unfold Model.requestTypeEnum, Model.includes in *.
    cbn [existsb] in *.
    destruct (String.eqb_spec rt "service") as [->|_].
    + left. split; [done|].
      rewrite bool_decide_eq_true_2 in * by done. done.
    + destruct (String.eqb_spec rt "combo") as [->|_]; [|done].
      right. split; [done|].
      match goal with
      | H : implb (bool_decide (Some "combo" = Some "combo")) _ = true |- _ =>
          rewrite bool_decide_eq_true_2 in H by done; exact H
      end.
  - split; [|split].
    + destruct (fullName (clientInfo d)) as [n|]; [|done].
      exists n. split; [done|]. split.
      * intros ->. done.
      * cbn [Model.maxlength] in *. by apply Nat.leb_le.
    + destruct (email (clientInfo d)) as [m|]; [|done].
      exists m. split; [done|]. cbn [Model.matches Js.truthy] in *.
      destruct (m =? EmptyString); [done|]. done.
    + destruct (phone (clientInfo d)) as [p|]; [|done].
      exists p. split; [done|]. cbn [Model.matches Js.truthy] in *.
      destruct (p =? EmptyString); [done|]. done.
Qed.

(** X16. Whatever lifecycle calls run on an empty collection, with
    whatever bodies, every request they leave stored sits under its own
    [_id] and has the shape of the schema: a status and a priority of the
    two lists, a selected category, request type service with a selected
    service or combo with a selected combo, a non-empty name whose [length]
    (in UTF-16 code units, as JavaScript counts) is at most 100, an email
    and a phone number that match the patterns. *)
Theorem X16_stored_requests_are_well_formed calls w :
  requests w = ∅ ->
  forall i d,
    requests (history calls w) !! i = Some d ->
    _id d = i /\ Admin.wellFormed d.
Proof.
  intros Hempty i d Hd.
  assert (sound (requests w)) as Hs by (rewrite Hempty; apply sound_empty).
  destruct (map_Forall_lookup_1 _ _ _ _ (history_sound calls w Hs) Hd)
    as [Hid Hvalid].
  split; [exact Hid|by apply validate_wellFormed].
Qed.

Lemma X15_request_ids_stay_unique_witness :
  let calls :=
    [ (Create, Sample2.postService, Sample2.envClash);
      (Create, Sample2.postService, Sample2.envLater);
      (Cancel, Sample.cancel, Sample.env) ] in
  let after := history calls Sample2.twoRequests in
  requestId (created Sample2.postService Sample2.envClash)
  = requestId (Sample.request "reviewing" [])
  /\ size (requests Sample2.twoRequests) = 2
  /\ size (requests after) = 3
  /\ Admin.uniqueRequestIds (requests after)
  /\ exists res w',
       Controller.createRequest Sample2.postService Sample2.envLater after
       = (Ok res, w')
       /\ requests w' = requests after
       /\ In (Res.statusCode res) [400; 500].
Proof.
  intros calls after.
  split; [reflexivity|]. split; [reflexivity|]. split; [reflexivity|].
  assert (Hk : keyed (requests Sample2.twoRequests)).
  { apply map_Forall_insert_2; [reflexivity|].
    apply map_Forall_singleton. reflexivity. }
  assert (Hu : Admin.uniqueRequestIds (requests Sample2.twoRequests)).
  { intros i j d1 d2 H1 H2 Heq. cbn [Sample2.twoRequests requests] in H1, H2.
    apply lookup_insert_Some in H1 as [[<- <-]|[_ H1]];
      apply lookup_insert_Some in H2 as [[<- <-]|[_ H2]];
      try apply lookup_singleton_Some in H1 as [<- <-];
      try apply lookup_singleton_Some in H2 as [<- <-];
      first [reflexivity | discriminate Heq]. }
  destruct (X15_request_ids_stay_unique calls Sample2.twoRequests Hk Hu)
    as [Hunique Hrefused].
  split; [exact Hunique|].
  apply Hrefused. reflexivity.
Defined.

Lemma X16_stored_requests_are_well_formed_witness :
  let req := Sample.post (Some "service")
               (Some (Sample.path (Some Sample.c1) (Some Sample.s1) None)) in
  _id (Model.setStatus "cancelled" (created req Sample.env))
  = freshObjectId Sample.env
  /\ Admin.wellFormed (Model.setStatus "cancelled" (created req Sample.env)).
Proof.
  intros req.
  apply (X16_stored_requests_are_well_formed
           [(Create, req, Sample.env);
            (Cancel, Sample.cancel, Sample.env)]
           Sample.emptyWorld eq_refl).
  vm_compute. reflexivity.
Defined.

(** * Submitting, then tracking *)

Lemma filter_none {A} (P : A -> Prop) `{forall x, Decision (P x)}
    (l : list A) :
  (forall x, x ∈ l -> ~ P x) -> filter P l = [].
Proof.
  induction l as [|a l IH]; [done|]. intros Hl.
  rewrite filter_cons. case_decide as Ha.
  - destruct (Hl a); [by left|done].
  - apply IH. intros x Hx. apply Hl. by right.
Qed.

Lemma findOne_inserted m d :
  m !! _id d = None ->
  Mongoose.requestIdTaken (requestId d) m = false ->
  head (filter (fun x => Some (requestId x) = Some (requestId d))
               (map_to_list (<[_id d := d]> m)).*2)
  = Some d.
Proof.
  intros Hnone Hfree.
  assert (filter (fun x => Some (requestId x) = Some (requestId d))
                 (map_to_list (<[_id d := d]> m)).*2 = [d]) as ->; [|done].
  apply Permutation_singleton_r.
  rewrite (map_to_list_insert m (_id d) d Hnone).
  cbn [fmap list_fmap snd]. rewrite filter_cons_True by done.
  apply Permutation_singleton_r. f_equal.
  apply filter_none. intros x Hx [= Heq].
  apply list_elem_of_fmap in Hx as ([j y] & -> & Hy).
  apply elem_of_map_to_list in Hy.
  exact (requestIdTaken_false _ _ Hfree j y Hy Heq).
Qed.



(** X17. Submitting, then tracking: the answer 201 of [createRequest]
    carries a [requestId], and a tracking lookup of that [requestId] in the
    world the submission left (store answering) answers 200 with the
    request just created, its catalog references resolved to titles. *)
Theorem X17_created_request_can_be_tracked req e w res w' e' :
  Controller.createRequest req e w = (Ok res, w') ->
  Res.statusCode res = 201 ->
  storeUp e' OpFind = true ->
  storeUp e' OpPopulate = true ->
  exists rid,
    Res.data res ≫= JsonUtil.get "requestId" = Some (JStr rid)
    /\ forall treq,
         Req.param "requestId" treq = Some rid ->
         Controller.getRequestByRequestId treq e' w'
         = (Ok (Res.okData 200
                  (View.toJSON (catalog w) (View.all ["title"] true)
                     (created req e))), w').
Proof.
  intros Hrun Hcode Hfind Hpop.
  destruct (createRequest_201 _ _ _ _ _ Hrun Hcode)
    as (_ & Hnone & Hfree & -> & ->).
  exists (requestId (created req e)). split; [reflexivity|].
  intros treq Hrid. rewrite getRequestByRequestId_run, Hfind, Hpop, Hrid.
  cbn [requests stored catalog].
  by rewrite (findOne_inserted _ _ Hnone Hfree).
Qed.

Lemma X17_created_request_can_be_tracked_witness :
  let req := Sample.post (Some "service")
               (Some (Sample.path (Some Sample.c1) (Some Sample.s1) None)) in
  exists rid,
    Res.data (Res.ok 201 "Service request submitted successfully"
                (View.toJSON Sample.shop (View.all ["title"; "slug"] false)
                   (created req Sample.env)))
      ≫= JsonUtil.get "requestId" = Some (JStr rid)
    /\ forall treq,
         Req.param "requestId" treq = Some rid ->
         Controller.getRequestByRequestId treq Sample.env
           (stored {[Sample.r1 := created req Sample.env]} Sample.emptyWorld)
         = (Ok (Res.okData 200
                  (View.toJSON Sample.shop (View.all ["title"] true)
                     (created req Sample.env))),
            stored {[Sample.r1 := created req Sample.env]} Sample.emptyWorld).
Proof.
  intros req.
  apply (X17_created_request_can_be_tracked req Sample.env Sample.emptyWorld
           _ _ Sample.env); reflexivity.
Defined.

(** X18. [createRequest] saves before it populates. With the catalog
    lookup answering, an answer other than 201 leaves the collection as it
    was. With the catalog lookup failing after a save that went through,
    the answer is 500 "Failed to submit service request" although the
    request is stored, and a later tracking lookup of its [requestId]
    finds it. *)
Theorem X18_create_can_answer_500_after_storing req e w :
  let d := created req e in
  (storeUp e OpPopulate = true ->
   forall res w',
     Controller.createRequest req e w = (Ok res, w') ->
     Res.statusCode res <> 201 ->
     requests w' = requests w)
  /\ (storeUp e OpPopulate = false ->
      selectionAnswer (Body.selectionPath (Req.body req))
        (Body.requestType (Req.body req)) = Ok None ->
      Model.validate d = [] ->
      requests w !! _id d = None ->
      Mongoose.requestIdTaken (requestId d) (requests w) = false ->
      storeUp e OpSave = true ->
      Controller.createRequest req e w
      = (Ok (Res.failWith 500 "Failed to submit service request" "MongoError"),
         logged "Create Request Error: MongoError"
           (stored (<[_id d := d]> (requests w)) w))
      /\ forall treq e',
           Req.param "requestId" treq = Some (requestId d) ->
           storeUp e' OpFind = true ->
           storeUp e' OpPopulate = true ->
           (Controller.getRequestByRequestId treq e'
              (Controller.createRequest req e w).2).1
           = Ok (Res.okData 200
                   (View.toJSON (catalog w) (View.all ["title"] true) d))).
Proof.
  intros d. split.
  - intros Hpop res w' Hrun Hcode. rewrite createRequest_run in Hrun.
    destruct (selectionAnswer _ _) as [[early|]|r].
    + by injection Hrun as <- <-.
    + cbv zeta in Hrun. fold d in Hrun. unfold submitFailed in Hrun.
      rewrite Hpop in Hrun.
      destruct (Model.validate d); [|by injection Hrun as <- <-].
      destruct (storeUp e OpSave); [|by injection Hrun as <- <-].
      destruct (_ || _); [by injection Hrun as <- <-|].
      injection Hrun as <- <-. by destruct Hcode.
    + unfold submitFailed in Hrun. by injection Hrun as <- <-.
  - intros Hpop Hsel Hvalid Hnone Hfree Hsave.
    assert (Controller.createRequest req e w
            = (Ok (Res.failWith 500 "Failed to submit service request"
                     "MongoError"),
               logged "Create Request Error: MongoError"
                 (stored (<[_id d := d]> (requests w)) w))) as Hrun.
    { rewrite createRequest_run, Hsel. cbv zeta. fold d.
      by rewrite Hvalid, Hsave, Hnone, Hfree, Hpop. }
    split; [exact Hrun|].
    intros treq e' Hrid Hfind Hpop'.
    rewrite Hrun, getRequestByRequestId_run, Hfind, Hpop', Hrid.
    cbn [snd requests logged stored catalog].
    by rewrite (findOne_inserted _ _ Hnone Hfree).
Qed.

Lemma X18_create_can_answer_500_after_storing_witness :
  let d := created Sample2.postService Sample2.envPopulateDown in
  Controller.createRequest Sample2.postService Sample2.envPopulateDown
    Sample.emptyWorld
  = (Ok (Res.failWith 500 "Failed to submit service request" "MongoError"),
     logged "Create Request Error: MongoError"
       (stored (<[_id d := d]> ∅) Sample.emptyWorld)).
Proof.
  intros d.
  apply (proj2 (X18_create_can_answer_500_after_storing Sample2.postService
                  Sample2.envPopulateDown Sample.emptyWorld));
    reflexivity.
Defined.

(** * Mail accounting *)

Ltac run_mail_helper :=
  match goal with
  | |- context [Email.sendStatusUpdateEmail ?a ?b ?c ?s ?n ?e ?w] =>
      let r := fresh "r" in
      let w' := fresh "w'" in
      let o := fresh "o" in
      let Hrun := fresh "Hrun" in
      let Hreq := fresh "Hreq" in
      let Hout := fresh "Hout" in
      let Hto := fresh "Hto" in
      destruct (sendStatusUpdateEmail_run a b c s n e w)
        as (r & w' & Hrun & Hreq & [Hout|(o & Hout & Hto)] & _);
      rewrite Hrun;
      [ left; destruct (Mail.success r); cbn; rewrite Hout; reflexivity
      | right; exists o; destruct (Mail.success r); cbn;
        rewrite Hout, Hreq; cbn ]
  end.

Lemma updateRequestStatus_mails req e w :
  Admin.mails w (Routes.updateRequestStatus req e w).2.
Proof.
  unfold Routes.updateRequestStatus, Controller.updateRequestStatus.
  destruct (Body.status (Req.body req)) as [s|]; [|by left].
  destruct (negb _); [by left|]. plumbing.
  destruct (findById_cases (Req.param "id" req) e w)
    as [(found & -> & Hfound)|[r ->]]; [|by left].
  destruct found as [d|]; [|by left].
  destruct (Hfound d eq_refl) as (i & _ & Hd).
  destruct (updateStatus_cases d s (Body.adminNote (Req.body req)) e w)
    as [[Hvalid ->]|[r ->]]; [|by left].
  destruct (negb (status d =? s)); [|by left].
  rewrite notifyStatus_run. run_mail_helper.
  all: (split; [done|]);
    exists (_id d),
      (transitioned s (Body.adminNote (Req.body req)) (dateNow e) (freshNoteId e) d);
    (split; [apply lookup_insert_eq|done]).
Qed.

Lemma deleteRequest_mails req e w :
  Admin.mails w (Routes.deleteRequest req e w).2.
Proof.
  unfold Routes.deleteRequest, Controller.deleteRequest. plumbing.
  destruct (findByIdAndUpdate_cases (Req.param "id" req)
              (Model.setStatus "cancelled") [] e w)
    as [(i & d & _ & Hd & ->)|[->|[r ->]]]; try by left.
  rewrite notifyCancelled_run. run_mail_helper.
  all: (split; [done|]);
    exists (_id d), (Model.setStatus "cancelled" d);
    (split; [apply lookup_insert_eq|done]).
Qed.


Lemma updateRequestPriority_outbox req e w :
  outbox (Controller.updateRequestPriority req e w).2 = outbox w.
Proof.
  unfold Controller.updateRequestPriority.
  destruct (Body.priority (Req.body req)) as [p|]; [|done].
  destruct (negb _); [done|]. plumbing.
  by destruct (findByIdAndUpdate_cases (Req.param "id" req)
                 (Model.setPriority p)
                 (Model.check "priority"
                    (Model.includes Model.priorityEnum p)) e w)
    as [(i & d & _ & Hd & ->)|[->|[r ->]]].
Qed.

Lemma assignRequest_outbox req e w :
  outbox (Controller.assignRequest req e w).2 = outbox w.
Proof.
  unfold Controller.assignRequest.
  destruct (Body.assignedTo (Req.body req)) as [a|]; [|done].
  destruct (negb _); [done|]. plumbing.
  by destruct (findByIdAndUpdate_cases (Req.param "id" req)
                 (Model.setAssignedTo a) [] e w)
    as [(i & d & _ & Hd & ->)|[->|[r ->]]].
Qed.

Lemma addAdminNote_outbox req e w :
  outbox (Controller.addAdminNote req e w).2 = outbox w.
Proof.
  unfold Controller.addAdminNote.
  destruct (negb _); [done|]. plumbing.
  destruct (findById_cases (Req.param "id" req) e w)
    as [(found & -> & Hfound)|[r ->]]; [|done].
  destruct found as [d|]; [|done].
  unfold Mongoose.save, Mongoose.validated, Mongoose.driver.
  destruct (Model.validate _); [|done]. plumbing.
  by destruct (storeUp e OpSave).
Qed.

Lemma perform_mails op req e w :
  Admin.mails w (perform op req e w).2
  /\ (Admin.notifies op = false -> outbox (perform op req e w).2 = outbox w).
Proof.
  destruct op; cbn [perform Admin.notifies]; split; try done;
    try (intros _);
    first [ apply updateRequestStatus_mails
          | apply deleteRequest_mails
          | apply createRequest_outbox
          | apply updateRequestPriority_outbox
          | apply assignRequest_outbox
          | apply addAdminNote_outbox
          | left; apply createRequest_outbox
          | left; apply updateRequestPriority_outbox
          | left; apply assignRequest_outbox
          | left; apply addAdminNote_outbox ].
Qed.

Lemma history_addressed calls w o :
  keyed (requests w) ->
  Admin.addressed (requests w) o ->
  Admin.addressed (requests (history calls w)) o.
Proof.
  intros Hk (i & d & Hd & Hto).
  destruct (history_submission calls w i d Hk Hd) as (d' & Hd' & Hsame).
  exists i, d'. split; [exact Hd'|].
  destruct Hsame as (_ & _ & _ & _ & -> & _). exact Hto.
Qed.

(** X19. Mail accounting over a sequence of lifecycle calls with the mail
    helper of [utils/email.js], from a collection keyed by [_id]: the
    outbox only grows at its end; it grows by at most one mail for each
    status update or cancellation in the sequence, and by none for the
    other calls; and every mail added goes to the address of a request
    that is stored at the end. *)
Theorem X19_mail_accounting calls w :
  keyed (requests w) ->
  exists extra,
    outbox (history calls w) = outbox w ++ extra
    /\ length extra <= Admin.notifying calls
    /\ Forall (Admin.addressed (requests (history calls w))) extra.
Proof.
  revert w. induction calls as [|[[op req] e] calls IH]; intros w Hk.
  - exists []. cbn. rewrite app_nil_r. by repeat split.
  - cbn [history].
    pose proof (perform_edits op req e w) as He.
    pose proof (edits_keyed _ _ Hk He) as Hk1.
    destruct (IH _ Hk1) as (extra & Hout & Hlen & Haddr).
    destruct (perform_mails op req e w) as [Hmail Hquiet].
    unfold Admin.notifying in *. cbn [List.filter fst].
    destruct (Admin.notifies op) eqn:Hop.
    + destruct Hmail as [Hsame|(o & Hone & Ho)].
      * exists extra. rewrite Hout, Hsame. cbn [length].
        split; [done|]. split; [lia|done].
      * exists (o :: extra). rewrite Hout, Hone, <- app_assoc. cbn [length].
        split; [done|]. split; [lia|].
        apply Forall_cons. split; [|done]. by apply history_addressed.
    + exists extra. rewrite Hout, (Hquiet eq_refl). by repeat split.
Qed.

Lemma X19_mail_accounting_witness :
  exists extra,
    outbox (history Sample.calls (Sample.world "submitted" []))
    = [] ++ extra
    /\ length extra <= 2
    /\ Forall (Admin.addressed
                 (requests (history Sample.calls
                              (Sample.world "submitted" [])))) extra.
Proof.
  apply (X19_mail_accounting Sample.calls (Sample.world "submitted" [])).
  apply map_Forall_singleton. reflexivity.
Defined.

(** * No error escapes *)

Ltac answered :=
  do 2 eexists; split; [reflexivity|cbn; tauto].

Section Answers.
Variable gw : Gateway.

Lemma updateRequestStatus_always_answers req e w :
  Admin.answers (Controller.updateRequestStatus gw req e w).
Proof.
  unfold Controller.updateRequestStatus.
  destruct (Body.status (Req.body req)) as [s|]; [|answered].
  destruct (negb _); [answered|]. plumbing.
  destruct (findById_cases (Req.param "id" req) e w)
    as [(found & -> & _)|[r ->]]; [|answered].
  destruct found as [d|]; [|answered].
  destruct (updateStatus_cases d s (Body.adminNote (Req.body req)) e w)
    as [[_ ->]|[r ->]]; [|answered].
  destruct (negb (status d =? s)); [|answered].
  rewrite notifyStatus_run.
  destruct (gw _ _ _ _ _ e _) as [[r|r] w']; answered.
Qed.

Lemma deleteRequest_always_answers req e w :
  Admin.answers (Controller.deleteRequest gw req e w).
Proof.
  unfold Controller.deleteRequest. plumbing.
  destruct (findByIdAndUpdate_cases (Req.param "id" req)
              (Model.setStatus "cancelled") [] e w)
    as [(i & d & _ & _ & ->)|[->|[r ->]]]; try answered.
  rewrite notifyCancelled_run.
  destruct (gw _ _ _ _ _ e _) as [[r|r] w']; answered.
Qed.

End Answers.

Lemma createRequest_always_answers req e w :
  Admin.answers (Controller.createRequest req e w).
Proof.
  rewrite createRequest_run.
  destruct (selectionAnswer _ _) as [[early|]|r] eqn:Hsel.
  - apply selectionAnswer_400 in Hsel.
    do 2 eexists. split; [reflexivity|]. rewrite Hsel. cbn. tauto.
  - cbv zeta. unfold submitFailed.
    destruct (Model.validate _); [|answered].
    destruct (storeUp e OpSave); [|answered].
    destruct (_ || _); [answered|].
    destruct (storeUp e OpPopulate); answered.
  - unfold submitFailed. answered.
Qed.

Lemma getRequestById_always_answers req e w :
  Admin.answers (Controller.getRequestById req e w).
Proof.
  unfold Controller.getRequestById. plumbing.
  destruct (findById_cases (Req.param "id" req) e w)
    as [(found & -> & _)|[r ->]]; [|answered].
  destruct found as [d|]; [|answered].
  unfold View.populate, Mongoose.driver. plumbing.
  destruct (storeUp e OpPopulate); answered.
Qed.

Lemma getRequestByRequestId_always_answers req e w :
  Admin.answers (Controller.getRequestByRequestId req e w).
Proof.
  rewrite getRequestByRequestId_run. unfold fetchFailed.
  destruct (storeUp e OpFind); [|answered].
  destruct (head _); [|answered].
  destruct (storeUp e OpPopulate); answered.
Qed.

Lemma updateRequestPriority_always_answers req e w :
  Admin.answers (Controller.updateRequestPriority req e w).
Proof.
  unfold Controller.updateRequestPriority.
  destruct (Body.priority (Req.body req)) as [p|]; [|answered].
  destruct (negb _); [answered|]. plumbing.
  destruct (findByIdAndUpdate_cases (Req.param "id" req) (Model.setPriority p)
              (Model.check "priority" (Model.includes Model.priorityEnum p)) e w)
    as [(i & d & _ & _ & ->)|[->|[r ->]]]; answered.
Qed.

Lemma addAdminNote_always_answers req e w :
  Admin.answers (Controller.addAdminNote req e w).
Proof.
  unfold Controller.addAdminNote.
  destruct (negb _); [answered|]. plumbing.
  destruct (findById_cases (Req.param "id" req) e w)
    as [(found & -> & _)|[r ->]]; [|answered].
  destruct found as [d|]; [|answered].
  unfold Mongoose.save, Mongoose.validated, Mongoose.driver.
  destruct (Model.validate _); [|answered]. plumbing.
  destruct (storeUp e OpSave); answered.
Qed.

Lemma assignRequest_always_answers req e w :
  Admin.answers (Controller.assignRequest req e w).
Proof.
  unfold Controller.assignRequest.
  destruct (Body.assignedTo (Req.body req)) as [a|]; [|answered].
  destruct (negb _); [answered|]. plumbing.
  destruct (findByIdAndUpdate_cases (Req.param "id" req) (Model.setAssignedTo a)
              [] e w)
    as [(i & d & _ & _ & ->)|[->|[r ->]]]; answered.
Qed.

Lemma getDashboardStats_always_answers req e w :
  Admin.answers (Controller.getDashboardStats req e w).
Proof.
  unfold Controller.getDashboardStats, Mongoose.countDocuments,
    Mongoose.driver.
  plumbing. destruct (storeUp e OpCount); answered.
Qed.

Lemma sendCustomEmailByAdmin_always_answers req e w :
  Admin.answers (Controller.sendCustomEmailByAdmin req e w).
Proof.
  unfold Controller.sendCustomEmailByAdmin, Email.sendCustomAdminEmail,
    Email.sendMail.
  plumbing. destruct (smtp e _); answered.
Qed.

Lemma validateServiceRequest_neverThrows req :
  Admin.neverThrows (Routes.validateServiceRequest req).
Proof.
  intros e w. rewrite validateServiceRequest_run.
  destruct (Body.selectionPath (Req.body req)),
    (Body.clientInfo (Req.body req));
    try by do 2 eexists.
  destruct (negb _); [by do 2 eexists|].
  destruct (_ || _); by do 2 eexists.
Qed.

(** X20. No error escapes the controller. Each of the ten embedded handlers
    ends every call with an answer whose status code is 200, 201, 400, 404
    or 500, whatever the body, the store and the transport do, and, for the
    status update and the cancellation, whatever the mail helper does, a
    thrown error included; the two middlewares of the router never throw
    either. The table of routes itself is another matter: it names a
    handler that the controller does not define, [getUserRequestIds] at [GET
    /userRequest/:requestId], and a table with an undefined handler does
    not register. *)
Theorem X20_no_error_escapes (gw : Gateway) req e w :
  Admin.answers (Controller.createRequest req e w)
  /\ Admin.answers (Controller.getRequestById req e w)
  /\ Admin.answers (Controller.getRequestByRequestId req e w)
  /\ Admin.answers (Controller.updateRequestStatus gw req e w)
  /\ Admin.answers (Controller.updateRequestPriority req e w)
  /\ Admin.answers (Controller.addAdminNote req e w)
  /\ Admin.answers (Controller.assignRequest req e w)
  /\ Admin.answers (Controller.deleteRequest gw req e w)
  /\ Admin.answers (Controller.getDashboardStats req e w)
  /\ Admin.answers (Controller.sendCustomEmailByAdmin req e w)
  /\ Admin.neverThrows (Routes.validateServiceRequest req)
  /\ Admin.neverThrows (Routes.isAdmin req)
  /\ Routes.registers Routes.router = false
  /\ exists r,
       Admin.firstUndefined Routes.router = Some r
       /\ Routes.method r = GET
       /\ Routes.pattern r
          = [Routes.Lit "userRequest"; Routes.Param "requestId"]
       /\ Routes.handler r = Routes.Undefined "getUserRequestIds".
Proof.
  repeat match goal with |- _ /\ _ => split end;
    first [ apply createRequest_always_answers
          | apply getRequestById_always_answers
          | apply getRequestByRequestId_always_answers
          | apply updateRequestStatus_always_answers
          | apply updateRequestPriority_always_answers
          | apply addAdminNote_always_answers
          | apply assignRequest_always_answers
          | apply deleteRequest_always_answers
          | apply getDashboardStats_always_answers
          | apply sendCustomEmailByAdmin_always_answers
          | apply validateServiceRequest_neverThrows
          | idtac ].
  - intros e0 w0. by do 2 eexists.
  - reflexivity.
  - eexists. split; [reflexivity|]. by repeat split.
Qed.
